(** * FiberTaskingLib: the task scheduler (source/task_scheduler.cpp)

    A shallow embedding of [ftl::TaskScheduler].  One call of a scheduler
    function by one worker thread is a computation in a small state and
    error monad over the scheduler object; what other workers do between
    two of its steps is an explicit interference step where a property
    depends on it.  A fiber switch and a call of a user task function leave
    the scheduler code: the embedded functions stop there and report it in
    their result, and the code after the switch is the continuation that
    runs when the fiber is resumed.

    Every computation also produces a log: the atomic accesses to the
    free-fiber flags and to the stored flags of parked fibers with their
    memory order, the allocation and deallocation of stored flags, the
    fiber switches and the thread yields, in program order.

    [TaskScheduler::Run] is embedded up to its switch to the fiber of the
    main task, over the platform calls that it makes; the other properties
    are about a scheduler that [Run] has initialized.  The counters and the
    task queues are in headers that are not among the source files; their
    operations follow the specification and say so. *)

From stdpp Require Import gmap list.
From Stdlib Require Import ZArith Lia.

Local Open Scope Z_scope.

(** ** Data model *)

(** [std::size_t] is taken as 64 bits wide, [uint] as 32 bits wide. *)
Definition size_t_modulus : Z := 2 ^ 64.
Definition uint_modulus : Z := 2 ^ 32.

(** Modelled from the spec: FTL_INVALID_INDEX is a macro of a header that is
    not among the source files; the spec calls it "the sentinel invalid
    index".  It is the largest [std::size_t]. *)
Definition FTL_INVALID_INDEX : Z := size_t_modulus - 1.

(** Identifier of an OS thread ([pthread_t], or the Win32 thread id). *)
Definition ThreadId := nat.
(** Address of an [AtomicCounter]. *)
Definition CounterPtr := positive.
(** Address of a heap-allocated [std::atomic<bool>] stored flag. *)
Definition FlagPtr := positive.

Record Task := mkTask {
  Function : nat;   (* the function pointer *)
  ArgData : Z       (* the void* argument *)
}.

Record TaskBundle := mkTaskBundle {
  TaskToExecute : Task;
  Counter : option CounterPtr   (* None is nullptr *)
}.

Record PinnedWaitingFiberBundle := mkPinned {
  PinnedFiberIndex : Z;
  PinnedCounter : CounterPtr;
  PinnedTargetValue : Z
}.

Inductive FiberDestination := DestNone | ToPool | ToWaiting.

Inductive EmptyQueueBehavior := Spin | Yield | Sleep.

Record ThreadLocalStorage := mkTLS {
  CurrentFiberIndex : Z;
  OldFiberIndex : Z;
  OldFiberDestination : FiberDestination;
  OldFiberStoredFlag : option FlagPtr;
  TaskQueue : list TaskBundle;            (* top of the deque first *)
  PinnedTasks : list PinnedWaitingFiberBundle;
  ReadyFibers : list (Z * FlagPtr);
  LastSuccessfulSteal : Z
}.

(** Modelled from the spec: the waiting slots of an AtomicCounter
    (ftl/atomic_counter.h is not among the source files).  Only the slots
    that are reserved are kept, in the order of their reservation. *)
Record WaitingFiberSlot := mkSlot {
  FiberIndex : Z;
  TargetValue : Z;
  FiberStoredFlag : FlagPtr
}.

(** Modelled from the spec: an AtomicCounter is "an atomic integer plus a
    small bounded set of WaitingFiberSlots". *)
Record AtomicCounter := mkCounter {
  m_value : Z;
  m_waitingFibers : list WaitingFiberSlot
}.

(** The scheduler object, with the part of the heap it points into: the
    counters handed to it and the stored flags it allocates. *)
Record TaskScheduler := mkSched {
  m_numThreads : Z;
  m_fiberPoolSize : Z;
  m_freeFibers : list bool;
  m_tls : list ThreadLocalStorage;
  m_threads : list ThreadId;
  m_initialized : bool;
  m_quit : bool;
  m_emptyQueueBehavior : EmptyQueueBehavior;
  counters : gmap positive AtomicCounter;
  storedFlags : gmap positive bool
}.

(** A fiber of the pool, or the fiber of a worker's original thread stack. *)
Inductive FiberRef := PoolFiber (i : Z) | ThreadFiber (thread : Z).

Inductive memory_order := Relaxed | Acquire | Release | SeqCst.

(** The function whose body contains an access. *)
Inductive Site :=
  | InGetNextFreeFiberIndex | InCleanUpOldFiber | InWaitForCounter
  | InFiberStart | InAtomicCounter.

Inductive Event :=
  | EvFreeLoad (i : Z) (o : memory_order) (v : bool)
  | EvFreeCas (i : Z) (expected desired : bool) (success failure : memory_order)
  | EvFreeStore (by_ : Site) (i : Z) (v : bool) (o : memory_order)
  | EvFlagNew (p : FlagPtr) (v : bool)
  | EvFlagDelete (by_ : Site) (p : FlagPtr)
  | EvFlagLoad (by_ : Site) (p : FlagPtr) (o : memory_order) (v : bool)
  | EvFlagStore (by_ : Site) (p : FlagPtr) (v : bool) (o : memory_order)
  | EvSwitch (from to : FiberRef)
  | EvYieldThread.

Global Instance FiberDestination_eq_dec : EqDecision FiberDestination.
Proof. solve_decision. Defined.
Global Instance memory_order_eq_dec : EqDecision memory_order.
Proof. solve_decision. Defined.
Global Instance Site_eq_dec : EqDecision Site.
Proof. solve_decision. Defined.
Global Instance FiberRef_eq_dec : EqDecision FiberRef.
Proof. solve_decision. Defined.
Global Instance Event_eq_dec : EqDecision Event.
Proof. solve_decision. Defined.

(** ** Field updates *)

Definition set_TaskQueue (q : list TaskBundle) (t : ThreadLocalStorage) :=
  mkTLS (CurrentFiberIndex t) (OldFiberIndex t) (OldFiberDestination t)
        (OldFiberStoredFlag t) q (PinnedTasks t) (ReadyFibers t)
        (LastSuccessfulSteal t).

Definition set_PinnedTasks (p : list PinnedWaitingFiberBundle) (t : ThreadLocalStorage) :=
  mkTLS (CurrentFiberIndex t) (OldFiberIndex t) (OldFiberDestination t)
        (OldFiberStoredFlag t) (TaskQueue t) p (ReadyFibers t)
        (LastSuccessfulSteal t).

Definition set_ReadyFibers (r : list (Z * FlagPtr)) (t : ThreadLocalStorage) :=
  mkTLS (CurrentFiberIndex t) (OldFiberIndex t) (OldFiberDestination t)
        (OldFiberStoredFlag t) (TaskQueue t) (PinnedTasks t) r
        (LastSuccessfulSteal t).

Definition set_LastSuccessfulSteal (i : Z) (t : ThreadLocalStorage) :=
  mkTLS (CurrentFiberIndex t) (OldFiberIndex t) (OldFiberDestination t)
        (OldFiberStoredFlag t) (TaskQueue t) (PinnedTasks t) (ReadyFibers t) i.

Definition set_CurrentFiberIndex (i : Z) (t : ThreadLocalStorage) :=
  mkTLS i (OldFiberIndex t) (OldFiberDestination t)
        (OldFiberStoredFlag t) (TaskQueue t) (PinnedTasks t) (ReadyFibers t)
        (LastSuccessfulSteal t).

Definition set_OldFiberIndex (i : Z) (t : ThreadLocalStorage) :=
  mkTLS (CurrentFiberIndex t) i (OldFiberDestination t)
        (OldFiberStoredFlag t) (TaskQueue t) (PinnedTasks t) (ReadyFibers t)
        (LastSuccessfulSteal t).

Definition set_OldFiberDestination (d : FiberDestination) (t : ThreadLocalStorage) :=
  mkTLS (CurrentFiberIndex t) (OldFiberIndex t) d
        (OldFiberStoredFlag t) (TaskQueue t) (PinnedTasks t) (ReadyFibers t)
        (LastSuccessfulSteal t).

Definition set_OldFiberStoredFlag (f : option FlagPtr) (t : ThreadLocalStorage) :=
  mkTLS (CurrentFiberIndex t) (OldFiberIndex t) (OldFiberDestination t)
        f (TaskQueue t) (PinnedTasks t) (ReadyFibers t)
        (LastSuccessfulSteal t).

Definition set_tls (l : list ThreadLocalStorage) (s : TaskScheduler) :=
  mkSched (m_numThreads s) (m_fiberPoolSize s) (m_freeFibers s) l
          (m_threads s) (m_initialized s) (m_quit s) (m_emptyQueueBehavior s)
          (counters s) (storedFlags s).

Definition set_freeFibers (l : list bool) (s : TaskScheduler) :=
  mkSched (m_numThreads s) (m_fiberPoolSize s) l (m_tls s)
          (m_threads s) (m_initialized s) (m_quit s) (m_emptyQueueBehavior s)
          (counters s) (storedFlags s).

Definition set_quit (q : bool) (s : TaskScheduler) :=
  mkSched (m_numThreads s) (m_fiberPoolSize s) (m_freeFibers s) (m_tls s)
          (m_threads s) (m_initialized s) q (m_emptyQueueBehavior s)
          (counters s) (storedFlags s).

Definition set_counters (c : gmap positive AtomicCounter) (s : TaskScheduler) :=
  mkSched (m_numThreads s) (m_fiberPoolSize s) (m_freeFibers s) (m_tls s)
          (m_threads s) (m_initialized s) (m_quit s) (m_emptyQueueBehavior s)
          c (storedFlags s).

Definition set_storedFlags (f : gmap positive bool) (s : TaskScheduler) :=
  mkSched (m_numThreads s) (m_fiberPoolSize s) (m_freeFibers s) (m_tls s)
          (m_threads s) (m_initialized s) (m_quit s) (m_emptyQueueBehavior s)
          (counters s) f.

(** ** The monad of scheduler calls *)

(** What stops a call that does not return: an access outside an array, the
    use of a pointer that is null or not live, the free-fiber scan that
    finds no free fiber (it spins until another worker releases one), the
    fatal failure of a counter without a free waiting slot, and the spin of
    a worker that waits for [m_initialized]. *)
Inductive Fault :=
  | OutOfBounds | NullPointer | DanglingPointer | PoolExhausted | WaitingSlotsFull
  | NotInitialized.

(** The result of a call: its value, or the fault that stopped it, with the
    scheduler and the log at that point. *)
Inductive Res (A : Type) :=
  | Ok (a : A) (s : TaskScheduler) (log : list Event)
  | Stuck (f : Fault) (s : TaskScheduler) (log : list Event).
Arguments Ok {A} a s log.
Arguments Stuck {A} f s log.

Definition M (A : Type) := TaskScheduler -> Res A.

Definition ret {A} (a : A) : M A := fun s => Ok a s [].

Definition bind {A B} (m : M A) (k : A -> M B) : M B := fun s =>
  match m s with
  | Ok a s1 l1 =>
      match k a s1 with
      | Ok b s2 l2 => Ok b s2 (l1 ++ l2)
      | Stuck f s2 l2 => Stuck f s2 (l1 ++ l2)
      end
  | Stuck f s1 l1 => Stuck f s1 l1
  end.

Global Instance M_ret : MRet M := @ret.
Global Instance M_bind : MBind M := fun A B k m => bind m k.

Definition gets {A} (f : TaskScheduler -> A) : M A := fun s => Ok (f s) s [].
Definition modify (f : TaskScheduler -> TaskScheduler) : M unit :=
  fun s => Ok tt (f s) [].
Definition emit (e : Event) : M unit := fun s => Ok tt s [e].
Definition fail {A} (f : Fault) : M A := fun s => Stuck f s [].

(** [a[i]] for an array of the scheduler: outside the array is a fault. *)
Definition in_range (i : Z) (n : nat) : bool := (0 <=? i) && (i <? Z.of_nat n).

Definition array_get {A} (l : list A) (i : Z) : M A :=
  if in_range i (length l) then
    match l !! Z.to_nat i with
    | Some x => ret x
    | None => fail OutOfBounds
    end
  else fail OutOfBounds.

(** [m_tls[i]], read through the reference. *)
Definition tls_at (i : Z) : M ThreadLocalStorage :=
  l ← gets m_tls; array_get l i.

(** [m_tls[i]], written through the reference. *)
Definition tls_update (i : Z) (f : ThreadLocalStorage -> ThreadLocalStorage) : M unit :=
  t ← tls_at i;
  modify (fun s => set_tls (<[Z.to_nat i := f t]> (m_tls s)) s).

(** ** Collaborators that are not among the source files *)

Definition counter_at (c : CounterPtr) : M AtomicCounter := fun s =>
  match counters s !! c with
  | Some cnt => Ok cnt s []
  | None => Stuck DanglingPointer s []
  end.

Definition counter_put (c : CounterPtr) (cnt : AtomicCounter) : M unit :=
  modify (fun s => set_counters (<[c := cnt]> (counters s)) s).

(** Modelled from the spec: AtomicCounter::Load and AtomicCounter::Store,
    "standard atomic ops" on the counter's integer (ftl/atomic_counter.h is
    not among the source files).  The value is a [uint]. *)
Definition Load (c : CounterPtr) : M Z :=
  cnt ← counter_at c; mret (m_value cnt).

Definition Store (c : CounterPtr) (v : Z) : M unit :=
  cnt ← counter_at c;
  counter_put c (mkCounter (v mod uint_modulus) (m_waitingFibers cnt)).

(** Modelled from the spec: the WorkStealingQueue (ftl/wait_free_queue.h is
    not among the source files): "One worker (the owner) pushes to and pops
    from the bottom; any worker may steal from the top".  The list has the
    top first and the bottom last. *)
Definition Push (b : TaskBundle) (q : list TaskBundle) : list TaskBundle :=
  q ++ [b].

Definition Pop (q : list TaskBundle) : option (TaskBundle * list TaskBundle) :=
  match last q with
  | Some b => Some (b, removelast q)
  | None => None
  end.

Definition Steal (q : list TaskBundle) : option (TaskBundle * list TaskBundle) :=
  match q with
  | b :: q' => Some (b, q')
  | [] => None
  end.

(** ** Stored flags and free-fiber flags *)

(** [new std::atomic<bool>(v)] *)
Definition new_flag (v : bool) : M FlagPtr := fun s =>
  let p := fresh (dom (storedFlags s)) in
  Ok p (set_storedFlags (<[p := v]> (storedFlags s)) s) [EvFlagNew p v].

(** [delete p] *)
Definition delete_flag (site : Site) (p : FlagPtr) : M unit := fun s =>
  match storedFlags s !! p with
  | Some _ => Ok tt (set_storedFlags (delete p (storedFlags s)) s) [EvFlagDelete site p]
  | None => Stuck DanglingPointer s []
  end.

(** [p->load(o)] *)
Definition flag_load (site : Site) (p : FlagPtr) (o : memory_order) : M bool := fun s =>
  match storedFlags s !! p with
  | Some v => Ok v s [EvFlagLoad site p o v]
  | None => Stuck DanglingPointer s []
  end.

(** [p->store(v, o)] *)
Definition flag_store (site : Site) (p : option FlagPtr) (v : bool) (o : memory_order)
    : M unit := fun s =>
  match p with
  | None => Stuck NullPointer s []
  | Some q =>
      match storedFlags s !! q with
      | Some _ =>
          Ok tt (set_storedFlags (<[q := v]> (storedFlags s)) s)
             [EvFlagStore site q v o]
      | None => Stuck DanglingPointer s []
      end
  end.

(** [m_freeFibers[i].store(v, o)] *)
Definition free_store (site : Site) (i : Z) (v : bool) (o : memory_order) : M unit :=
  l ← gets m_freeFibers;
  _ ← array_get l i;
  modify (fun s => set_freeFibers (<[Z.to_nat i := v]> (m_freeFibers s)) s);;
  emit (EvFreeStore site i v o).

(** [m_fibers[from].SwitchToFiber(&m_fibers[to])]: the fiber array has
    [m_fiberPoolSize] entries. *)
Definition switch_fibers (from to : Z) : M unit :=
  n ← gets m_fiberPoolSize;
  if in_range from (Z.to_nat n) && in_range to (Z.to_nat n)
  then emit (EvSwitch (PoolFiber from) (PoolFiber to))
  else fail OutOfBounds.

(** [m_tls[idx].ThreadFiber.SwitchToFiber(&m_fibers[to])] *)
Definition switch_from_thread_fiber (idx to : Z) : M unit :=
  n ← gets m_fiberPoolSize;
  if in_range to (Z.to_nat n)
  then emit (EvSwitch (ThreadFiber idx) (PoolFiber to))
  else fail OutOfBounds.

(** [m_fibers[from].SwitchToFiber(&tls.ThreadFiber)] for the worker [idx]. *)
Definition switch_to_thread_fiber (from idx : Z) : M unit :=
  n ← gets m_fiberPoolSize;
  if in_range from (Z.to_nat n)
  then emit (EvSwitch (PoolFiber from) (ThreadFiber idx))
  else fail OutOfBounds.

(** ** TaskScheduler::GetCurrentThreadIndex *)

Fixpoint find_thread (tid : ThreadId) (threads : list ThreadId) (i : Z) : Z :=
  match threads with
  | [] => FTL_INVALID_INDEX
  | t :: rest => if decide (t = tid) then i else find_thread tid rest (i + 1)
  end.

(** The loop compares the calling thread with [m_threads[i]] for
    [i < m_numThreads]; [Run] sizes [m_threads] to [m_numThreads]. *)
Definition GetCurrentThreadIndex (tid : ThreadId) (s : TaskScheduler) : Z :=
  find_thread tid (take (Z.to_nat (m_numThreads s)) (m_threads s)) 0.

(** ** TaskScheduler::AddTask and TaskScheduler::AddTasks *)

Definition AddTask (tid : ThreadId) (task : Task) (counter : option CounterPtr) : M unit :=
  match counter with
  | Some c => Store c 1
  | None => mret tt
  end;;
  let bundle := mkTaskBundle task counter in
  idx ← gets (GetCurrentThreadIndex tid);
  tls_update idx (fun tls => set_TaskQueue (Push bundle (TaskQueue tls)) tls).

(** The body of the loop of [AddTasks], for [i], [i + 1], ... ([n] more
    rounds); [tasks] is the array behind the pointer. *)
Fixpoint AddTasks_loop (idx : Z) (tasks : list Task) (counter : option CounterPtr)
    (i : Z) (n : nat) : M unit :=
  match n with
  | O => mret tt
  | S n' =>
      task ← array_get tasks i;
      let bundle := mkTaskBundle task counter in
      tls_update idx (fun tls => set_TaskQueue (Push bundle (TaskQueue tls)) tls);;
      AddTasks_loop idx tasks counter (i + 1) n'
  end.

Definition AddTasks (tid : ThreadId) (numTasks : Z) (tasks : list Task)
    (counter : option CounterPtr) : M unit :=
  match counter with
  | Some c => Store c numTasks
  | None => mret tt
  end;;
  idx ← gets (GetCurrentThreadIndex tid);
  _ ← tls_at idx;
  AddTasks_loop idx tasks counter 0 (Z.to_nat numTasks).

(** ** TaskScheduler::GetNextTask *)

(** The steal loop from round [i] on ([n] more rounds). *)
Fixpoint steal_loop (currentThreadIndex threadIndex : Z) (i : Z) (n : nat)
    : M (option TaskBundle) :=
  match n with
  | O => mret None
  | S n' =>
      numThreads ← gets m_numThreads;
      let threadIndexToStealFrom :=
        ((threadIndex + i) mod size_t_modulus) mod numThreads in
      if threadIndexToStealFrom =? currentThreadIndex
      then steal_loop currentThreadIndex threadIndex (i + 1) n'
      else
        otherTLS ← tls_at threadIndexToStealFrom;
        match Steal (TaskQueue otherTLS) with
        | Some (b, q') =>
            tls_update threadIndexToStealFrom (set_TaskQueue q');;
            tls_update currentThreadIndex (set_LastSuccessfulSteal i);;
            mret (Some b)
        | None => steal_loop currentThreadIndex threadIndex (i + 1) n'
        end
  end.

Definition GetNextTask (tid : ThreadId) : M (option TaskBundle) :=
  currentThreadIndex ← gets (GetCurrentThreadIndex tid);
  tls ← tls_at currentThreadIndex;
  match Pop (TaskQueue tls) with
  | Some (b, q') =>
      tls_update currentThreadIndex (set_TaskQueue q');;
      mret (Some b)
  | None =>
      numThreads ← gets m_numThreads;
      steal_loop currentThreadIndex (LastSuccessfulSteal tls) 0 (Z.to_nat numThreads)
  end.

(** ** TaskScheduler::GetNextFreeFiberIndex *)

(** One pass of the inner loop over the flags from index [i] on: the first
    flag that is set passes both loads and the compare-exchange. *)
Fixpoint scan_free (flags : list bool) (i : Z) : option Z * list Event :=
  match flags with
  | [] => (None, [])
  | b :: rest =>
      if b then
        (Some i, [EvFreeLoad i Relaxed true; EvFreeLoad i Acquire true;
                  EvFreeCas i true false Release Relaxed])
      else
        let r := scan_free rest (i + 1) in
        (r.1, EvFreeLoad i Relaxed false :: r.2)
  end.

(** With no other worker running, a pass that finds no free fiber is
    followed by passes that find none: the call never returns. *)
Definition GetNextFreeFiberIndex : M Z := fun s =>
  match scan_free (take (Z.to_nat (m_fiberPoolSize s)) (m_freeFibers s)) 0 with
  | (Some i, ev) =>
      Ok i (set_freeFibers (<[Z.to_nat i := false]> (m_freeFibers s)) s) ev
  | (None, ev) => Stuck PoolExhausted s ev
  end.

(** ** TaskScheduler::ThreadStart and TaskScheduler::MainFiberStart *)

(** The worker [index], up to its switch to a fiber of the pool. *)
Definition ThreadStart (index : Z) : M unit :=
  initialized ← gets m_initialized;
  if (initialized : bool) then
    freeFiberIndex ← GetNextFreeFiberIndex;
    tls_update index (set_CurrentFiberIndex freeFiberIndex);;
    switch_from_thread_fiber index freeFiberIndex
  else fail NotInitialized.

(** The rest of [MainFiberStart] after the main task has returned, up to
    the switch to the thread fiber. *)
Definition MainFiberStart_mainTaskReturned (tid : ThreadId) : M unit :=
  modify (set_quit true);;
  idx ← gets (GetCurrentThreadIndex tid);
  tls ← tls_at idx;
  switch_to_thread_fiber (CurrentFiberIndex tls) idx.

(** ** TaskScheduler::CleanUpOldFiber *)

Definition CleanUpOldFiber (tid : ThreadId) : M unit :=
  idx ← gets (GetCurrentThreadIndex tid);
  tls ← tls_at idx;
  match OldFiberDestination tls with
  | ToPool =>
      free_store InCleanUpOldFiber (OldFiberIndex tls) true Release;;
      tls_update idx (fun t =>
        set_OldFiberIndex FTL_INVALID_INDEX (set_OldFiberDestination DestNone t))
  | ToWaiting =>
      flag_store InCleanUpOldFiber (OldFiberStoredFlag tls) true Relaxed;;
      tls_update idx (fun t =>
        set_OldFiberIndex FTL_INVALID_INDEX (set_OldFiberDestination DestNone t))
  | DestNone => mret tt
  end.

(** ** TaskScheduler::AddReadyFiber *)

Definition AddReadyFiber (tid : ThreadId) (fiberIndex : Z) (fiberStoredFlag : FlagPtr)
    : M unit :=
  idx ← gets (GetCurrentThreadIndex tid);
  tls_update idx (fun tls =>
    set_ReadyFibers (ReadyFibers tls ++ [(fiberIndex, fiberStoredFlag)]) tls).

Section Scheduler.

(** Modelled from the spec: the number of waiting slots of a counter, "a
    scheduler-wide sizing parameter" whose value the source files do not
    give. *)
Variable NUM_WAITING_FIBER_SLOTS : nat.

(** ** AtomicCounter *)

(** Modelled from the spec: AtomicCounter::AddFiberToWaitingList
    (ftl/atomic_counter.h is not among the source files): it "reserves a
    waiting slot, publishes the tuple, then re-reads the counter. If the
    current value already equals targetValue, the slot is released and true
    is returned. Otherwise false is returned; the slot remains active", and
    it "fails fatally if no waiting slot is available". *)
Definition AddFiberToWaitingList (c : CounterPtr) (fiberIndex targetValue : Z)
    (fiberStoredFlag : FlagPtr) : M bool :=
  cnt ← counter_at c;
  if decide (NUM_WAITING_FIBER_SLOTS ≤ length (m_waitingFibers cnt))%nat
  then fail WaitingSlotsFull
  else
    counter_put c (mkCounter (m_value cnt)
      (m_waitingFibers cnt ++ [mkSlot fiberIndex targetValue fiberStoredFlag]));;
    value ← Load c;
    if value =? targetValue
    then counter_put c (mkCounter value (m_waitingFibers cnt));; mret true
    else mret false.

(** Modelled from the spec: the scan of the active slots after a decrement:
    "For each slot whose targetValue equals the new value and whose
    storedFlag can be observed true, atomically claim the slot and enqueue
    (fiberIndex, storedFlagPtr) into some worker's ReadyFibers. If
    storedFlag is false, leave the slot".  The worker is the one that
    performed the decrement: the counter calls [AddReadyFiber], which takes
    no worker argument.  The result is the list of the slots that stay. *)
Fixpoint CheckWaitingFibers (tid : ThreadId) (value : Z) (slots : list WaitingFiberSlot)
    : M (list WaitingFiberSlot) :=
  match slots with
  | [] => mret []
  | slot :: rest =>
      if TargetValue slot =? value then
        stored ← flag_load InAtomicCounter (FiberStoredFlag slot) Acquire;
        if (stored : bool) then
          AddReadyFiber tid (FiberIndex slot) (FiberStoredFlag slot);;
          CheckWaitingFibers tid value rest
        else
          rest' ← CheckWaitingFibers tid value rest; mret (slot :: rest')
      else
        rest' ← CheckWaitingFibers tid value rest; mret (slot :: rest')
  end.

(** Modelled from the spec: AtomicCounter::FetchSub, called by the thread
    [tid]: the decrement, with the wrap-around of [uint], then the scan.
    The result is the value before the decrement. *)
Definition FetchSub (tid : ThreadId) (c : CounterPtr) (n : Z) : M Z :=
  cnt ← counter_at c;
  let value := (m_value cnt - n) mod uint_modulus in
  counter_put c (mkCounter value (m_waitingFibers cnt));;
  slots ← CheckWaitingFibers tid value (m_waitingFibers cnt);
  counter_put c (mkCounter value slots);;
  mret (m_value cnt).

(** ** TaskScheduler::WaitForCounter *)

(** How a call of [WaitForCounter] leaves the scheduler code: it returns to
    its caller, or it switches to another fiber (and goes on in
    [WaitForCounter_resumed] when its own fiber is switched to again). *)
Inductive WaitOutcome :=
  | WaitReturned
  | WaitSwitched (from to : Z).

(** [interference] is what the other workers do to the scheduler and the
    counters between the load of the fast path and the rest of the call. *)
Definition WaitForCounter_env (interference : TaskScheduler -> TaskScheduler)
    (tid : ThreadId) (counter : CounterPtr) (value : Z) (pinToCurrentThread : bool)
    : M WaitOutcome :=
  loaded ← Load counter;
  if loaded =? value then mret WaitReturned
  else
    modify interference;;
    idx ← gets (GetCurrentThreadIndex tid);
    tls ← tls_at idx;
    let currentFiberIndex := CurrentFiberIndex tls in
    freeFiberIndex ← GetNextFreeFiberIndex;
    if pinToCurrentThread then
      tls_update idx (fun t =>
        set_PinnedTasks (PinnedTasks t ++ [mkPinned currentFiberIndex counter value]) t);;
      switch_fibers currentFiberIndex freeFiberIndex;;
      mret (WaitSwitched currentFiberIndex freeFiberIndex)
    else
      fiberStoredFlag ← new_flag false;
      tls' ← tls_at idx;
      alreadyDone ← AddFiberToWaitingList counter (CurrentFiberIndex tls') value fiberStoredFlag;
      if (alreadyDone : bool) then
        delete_flag InWaitForCounter fiberStoredFlag;;
        free_store InWaitForCounter freeFiberIndex true Release;;
        mret WaitReturned
      else
        tls_update idx (fun t =>
          set_OldFiberStoredFlag (Some fiberStoredFlag)
            (set_OldFiberDestination ToWaiting
              (set_CurrentFiberIndex freeFiberIndex
                (set_OldFiberIndex currentFiberIndex t))));;
        switch_fibers currentFiberIndex freeFiberIndex;;
        mret (WaitSwitched currentFiberIndex freeFiberIndex).

(** The call with no step of another worker in between. *)
Definition WaitForCounter := WaitForCounter_env (fun s => s).

(** "And we're back": the rest of [WaitForCounter], run by the thread that
    resumes the parked fiber. *)
Definition WaitForCounter_resumed (tid : ThreadId) : M unit := CleanUpOldFiber tid.

(** ** TaskScheduler::FiberStart *)

(** The loop over [tls.PinnedTasks] from index [i] on; [all] is the whole
    list and [rest] its part from [i] on. *)
Fixpoint scan_pinned (idx : Z) (all : list PinnedWaitingFiberBundle) (i : nat)
    (rest : list PinnedWaitingFiberBundle) : M Z :=
  match rest with
  | [] => mret FTL_INVALID_INDEX
  | bundle :: rest' =>
      loaded ← Load (PinnedCounter bundle);
      if loaded =? PinnedTargetValue bundle then
        tls_update idx (set_PinnedTasks (delete i all));;
        mret (PinnedFiberIndex bundle)
      else scan_pinned idx all (S i) rest'
  end.

(** The loop over [tls.ReadyFibers], likewise. *)
Fixpoint scan_ready (idx : Z) (all : list (Z * FlagPtr)) (i : nat)
    (rest : list (Z * FlagPtr)) : M Z :=
  match rest with
  | [] => mret FTL_INVALID_INDEX
  | entry :: rest' =>
      stored ← flag_load InFiberStart entry.2 Relaxed;
      if negb stored then scan_ready idx all (S i) rest'
      else
        delete_flag InFiberStart entry.2;;
        tls_update idx (set_ReadyFibers (delete i all));;
        mret entry.1
  end.

(** How one round of the loop of [FiberStart] leaves the scheduler code. *)
Inductive LoopOutcome :=
  | LoopResumed (from to : Z)         (* switched to a waiting fiber *)
  | LoopExecute (b : TaskBundle)      (* calls the task's function *)
  | LoopIdle (b : EmptyQueueBehavior) (* found nothing to do *)
  | LoopQuit.                         (* m_quit: switched to the thread fiber *)

(** The test of the [while] and one round of its body, up to the fiber
    switch or the call of the task function. *)
Definition FiberStart_iter (tid : ThreadId) : M LoopOutcome :=
  quit ← gets m_quit;
  if (quit : bool) then
    idx ← gets (GetCurrentThreadIndex tid);
    tls ← tls_at idx;
    switch_to_thread_fiber (CurrentFiberIndex tls) idx;;
    mret LoopQuit
  else
    idx ← gets (GetCurrentThreadIndex tid);
    tls ← tls_at idx;
    pinned ← scan_pinned idx (PinnedTasks tls) 0 (PinnedTasks tls);
    waitingFiberIndex ←
      (if pinned =? FTL_INVALID_INDEX
       then scan_ready idx (ReadyFibers tls) 0 (ReadyFibers tls)
       else mret pinned);
    if negb (waitingFiberIndex =? FTL_INVALID_INDEX) then
      tls_update idx (fun t =>
        set_OldFiberDestination ToPool
          (set_CurrentFiberIndex waitingFiberIndex
            (set_OldFiberIndex (CurrentFiberIndex t) t)));;
      tls' ← tls_at idx;
      switch_fibers (OldFiberIndex tls') (CurrentFiberIndex tls');;
      mret (LoopResumed (OldFiberIndex tls') (CurrentFiberIndex tls'))
    else
      next ← GetNextTask tid;
      match next with
      | None =>
          behavior ← gets m_emptyQueueBehavior;
          match behavior with
          | Yield => emit EvYieldThread
          | Sleep | Spin => mret tt
          end;;
          mret (LoopIdle behavior)
      | Some nextTask => mret (LoopExecute nextTask)
      end.

(** "And we're back": the rest of the round after the switch. *)
Definition FiberStart_resumed (tid : ThreadId) : M unit := CleanUpOldFiber tid.

(** The rest of the round after the task's function has returned. *)
Definition FiberStart_taskReturned (tid : ThreadId) (nextTask : TaskBundle) : M unit :=
  match Counter nextTask with
  | Some c => _ ← FetchSub tid c 1; mret tt
  | None => mret tt
  end.

End Scheduler.

(** ** Scenarios and vocabulary of the properties *)

(** The tasks of a list submitted by one call of [AddTask] each, by the
    same thread and with the same counter. *)
Fixpoint AddTask_each (tid : ThreadId) (tasks : list Task) (counter : option CounterPtr)
    : M unit :=
  match tasks with
  | [] => mret tt
  | task :: rest => AddTask tid task counter;; AddTask_each tid rest counter
  end.

(** The thread [tid] is the registered worker [idx], whose thread-local
    storage is [tls]. *)
Definition worker (tid : ThreadId) (s : TaskScheduler) (idx : Z) (tls : ThreadLocalStorage)
    : Prop :=
  GetCurrentThreadIndex tid s = idx ∧ 0 <= idx ∧ m_tls s !! Z.to_nat idx = Some tls.

(** The sizes agree with the integer types that hold them and with the
    arrays that [Run] allocates. *)
Definition wf_sched (s : TaskScheduler) : Prop :=
  0 <= m_numThreads s < uint_modulus ∧
  length (m_tls s) = Z.to_nat (m_numThreads s) ∧
  length (m_threads s) = Z.to_nat (m_numThreads s) ∧
  0 <= m_fiberPoolSize s < uint_modulus ∧
  length (m_freeFibers s) = Z.to_nat (m_fiberPoolSize s).

(** The scheduler with the thread-local storage of worker [idx] replaced. *)
Definition with_tls (idx : Z) (t : ThreadLocalStorage) (s : TaskScheduler) : TaskScheduler :=
  set_tls (<[Z.to_nat idx := t]> (m_tls s)) s.

(** The scheduler with the value of the counter at [c] replaced. *)
Definition with_counter_value (c : CounterPtr) (v : Z) (s : TaskScheduler) : TaskScheduler :=
  match counters s !! c with
  | Some cnt => set_counters (<[c := mkCounter v (m_waitingFibers cnt)]> (counters s)) s
  | None => s
  end.

Definition counter_value (c : CounterPtr) (s : TaskScheduler) : option Z :=
  m_value <$> counters s !! c.

Definition res_log {A} (r : Res A) : list Event :=
  match r with
  | Ok _ _ l => l
  | Stuck _ _ l => l
  end.

Definition res_state {A} (r : Res A) : TaskScheduler :=
  match r with
  | Ok _ s _ => s
  | Stuck _ s _ => s
  end.

(** The calls into the scheduler code once [Run] has initialized it, each
    up to the point where it leaves the scheduler code. *)
Inductive Call :=
  | CallThreadStart (index : Z)
  | CallMainFiberStart_mainTaskReturned (tid : ThreadId)
  | CallFiberStart_entry (tid : ThreadId)
  | CallFiberStart_iter (tid : ThreadId)
  | CallFiberStart_resumed (tid : ThreadId)
  | CallFiberStart_taskReturned (tid : ThreadId) (nextTask : TaskBundle)
  | CallAddTask (tid : ThreadId) (task : Task) (counter : option CounterPtr)
  | CallAddTasks (tid : ThreadId) (numTasks : Z) (tasks : list Task)
      (counter : option CounterPtr)
  | CallGetNextTask (tid : ThreadId)
  | CallGetNextFreeFiberIndex
  | CallCleanUpOldFiber (tid : ThreadId)
  | CallAddReadyFiber (tid : ThreadId) (fiberIndex : Z) (fiberStoredFlag : FlagPtr)
  | CallWaitForCounter (interference : TaskScheduler -> TaskScheduler) (tid : ThreadId)
      (counter : CounterPtr) (value : Z) (pinToCurrentThread : bool)
  | CallWaitForCounter_resumed (tid : ThreadId).

(** The log of a call ([slots] is the number of waiting slots). *)
Definition log_of (slots : nat) (c : Call) (s : TaskScheduler) : list Event :=
  match c with
  | CallThreadStart index => res_log (ThreadStart index s)
  | CallMainFiberStart_mainTaskReturned tid =>
      res_log (MainFiberStart_mainTaskReturned tid s)
  | CallFiberStart_entry tid => res_log (CleanUpOldFiber tid s)
  | CallFiberStart_iter tid => res_log (FiberStart_iter tid s)
  | CallFiberStart_resumed tid => res_log (FiberStart_resumed tid s)
  | CallFiberStart_taskReturned tid b => res_log (FiberStart_taskReturned tid b s)
  | CallAddTask tid task counter => res_log (AddTask tid task counter s)
  | CallAddTasks tid n tasks counter => res_log (AddTasks tid n tasks counter s)
  | CallGetNextTask tid => res_log (GetNextTask tid s)
  | CallGetNextFreeFiberIndex => res_log (GetNextFreeFiberIndex s)
  | CallCleanUpOldFiber tid => res_log (CleanUpOldFiber tid s)
  | CallAddReadyFiber tid i f => res_log (AddReadyFiber tid i f s)
  | CallWaitForCounter interference tid c v pin =>
      res_log (WaitForCounter_env slots interference tid c v pin s)
  | CallWaitForCounter_resumed tid => res_log (WaitForCounter_resumed tid s)
  end.

(** The thread that runs [CleanUpOldFiber] in a call, if the call is one. *)
Definition cleanup_thread (c : Call) : option ThreadId :=
  match c with
  | CallFiberStart_entry tid | CallFiberStart_resumed tid
  | CallCleanUpOldFiber tid | CallWaitForCounter_resumed tid => Some tid
  | _ => None
  end.

(** A pinned bundle whose counter has reached its target value. *)
Definition pinned_done (s : TaskScheduler) (b : PinnedWaitingFiberBundle) : bool :=
  match counters s !! PinnedCounter b with
  | Some cnt => m_value cnt =? PinnedTargetValue b
  | None => false
  end.

(** A ready entry whose stored flag is set. *)
Definition ready_stored (s : TaskScheduler) (e : Z * FlagPtr) : bool :=
  match storedFlags s !! e.2 with
  | Some v => v
  | None => false
  end.

(** A slot that a decrement to [value] wakes. *)
Definition slot_woken (s : TaskScheduler) (value : Z) (slot : WaitingFiberSlot) : bool :=
  (TargetValue slot =? value) &&
  match storedFlags s !! FiberStoredFlag slot with
  | Some v => v
  | None => false
  end.

(** The ready-list entry of a waiting slot. *)
Definition slot_entry (slot : WaitingFiberSlot) : Z * FlagPtr :=
  (FiberIndex slot, FiberStoredFlag slot).

(** An access of the scan: a load or a compare-exchange of a free flag. *)
Definition is_probe (e : Event) : Prop :=
  match e with
  | EvFreeLoad _ _ _ | EvFreeCas _ _ _ _ _ => True
  | _ => False
  end.

(** An index of a fiber of the pool. *)
Definition is_fiber (s : TaskScheduler) (i : Z) : Prop :=
  0 <= i < m_fiberPoolSize s.

(** The thread-local storage after the bookkeeping of the resume step of
    the fiber loop. *)
Definition resume_tls (fiber : Z) (t : ThreadLocalStorage) : ThreadLocalStorage :=
  set_OldFiberDestination ToPool
    (set_CurrentFiberIndex fiber (set_OldFiberIndex (CurrentFiberIndex t) t)).

(** The load of the stored flag of a ready entry that finds it not set. *)
Definition poll_false (e : Z * FlagPtr) : Event :=
  EvFlagLoad InFiberStart e.2 Relaxed false.

(** The bundle that [AddTask] and [AddTasks] make of a task. *)
Definition bundle_with (counter : option CounterPtr) (task : Task) : TaskBundle :=
  mkTaskBundle task counter.

(** The scheduler with [bundles] pushed on the queue of worker [idx], whose
    thread-local storage was [tls]. *)
Definition enqueue (idx : Z) (tls : ThreadLocalStorage) (bundles : list TaskBundle)
    (s : TaskScheduler) : TaskScheduler :=
  with_tls idx (set_TaskQueue (TaskQueue tls ++ bundles) tls) s.

(** Fields of the thread-local storage of the worker at an index. *)
Definition current_fiber (idx : nat) (s : TaskScheduler) : option Z :=
  CurrentFiberIndex <$> m_tls s !! idx.

Definition last_successful_steal (idx : nat) (s : TaskScheduler) : option Z :=
  LastSuccessfulSteal <$> m_tls s !! idx.

Definition queue_of (idx : nat) (s : TaskScheduler) : option (list TaskBundle) :=
  TaskQueue <$> m_tls s !! idx.

(** ** Vocabulary of the logs *)

(** A store of true into a free-fiber flag. *)
Definition releases (e : Event) : Prop :=
  match e with
  | EvFreeStore _ _ true _ => True
  | _ => False
  end.

Definition is_switch (e : Event) : Prop :=
  match e with
  | EvSwitch _ _ => True
  | _ => False
  end.

(** Every event of the log of [m] satisfies [P], from whatever scheduler
    [m] starts and whether it returns or not. *)
Definition Emits {A} (P : Event -> Prop) (m : M A) : Prop :=
  forall s, Forall P (res_log (m s)).

Definition no_release (e : Event) : Prop := ¬ releases e.
Definition silent (e : Event) : Prop := ¬ releases e ∧ ¬ is_switch e.

(** The only release in the log, if any, is that of fiber [r] by
    [WaitForCounter], and then the log has no fiber switch. *)
Definition releases_only (r : Z) (l : list Event) : Prop :=
  forall site i o, EvFreeStore site i true o ∈ l ->
    site = InWaitForCounter ∧ i = r ∧ o = Release ∧ Forall (fun e => ¬ is_switch e) l.

Definition EmitsOnly {A} (r : Z) (m : M A) : Prop :=
  forall s, releases_only r (res_log (m s)).

(** A release in the log is by [WaitForCounter], of a fiber that this log
    shows being reserved, and then the log has no fiber switch. *)
Definition releases_reserved (l : list Event) : Prop :=
  forall site i o, EvFreeStore site i true o ∈ l ->
    site = InWaitForCounter ∧ o = Release ∧
    EvFreeCas i true false Release Relaxed ∈ l ∧ Forall (fun e => ¬ is_switch e) l.

Definition EmitsReserved {A} (m : M A) : Prop :=
  forall s, releases_reserved (res_log (m s)).

(** ** Example schedulers *)

(** The thread-local storage of a worker that runs [fiber] and has nothing
    queued, pinned or ready. *)
Definition fresh_tls (fiber : Z) : ThreadLocalStorage :=
  mkTLS fiber FTL_INVALID_INDEX DestNone None [] [] [] 1.

Definition task_a : Task := mkTask 1 0.
Definition task_b : Task := mkTask 2 0.

(** Four workers, the threads 10 to 13, running the fibers 0, 2, 3 and 4 of
    a pool of six; a counter at address 1 with the value 5. *)
Definition sched4 : TaskScheduler :=
  mkSched 4 6 [false; true; false; false; false; true]
    [fresh_tls 0; fresh_tls 2; fresh_tls 3; fresh_tls 4]
    [10%nat; 11%nat; 12%nat; 13%nat] true false Spin
    {[ 1%positive := mkCounter 5 [] ]} ∅.

(** Another worker sets the counter at address 1 to 0. *)
Definition counter_reaches_zero (s : TaskScheduler) : TaskScheduler :=
  with_counter_value 1%positive 0 s.

(** Worker 0 has executed a task whose counter, at address 1, has the value
    1; the fibers 1 and 5 are parked in its waiting slots for the value 0,
    fiber 1 with its stored flag (at address 7) set, fiber 5 with its
    stored flag (at address 8) not yet set. *)
Definition sched_waiting : TaskScheduler :=
  mkSched 4 6 [false; false; false; false; false; false]
    [fresh_tls 0; fresh_tls 2; fresh_tls 3; fresh_tls 4]
    [10%nat; 11%nat; 12%nat; 13%nat] true false Spin
    {[ 1%positive := mkCounter 1 [mkSlot 1 0 7%positive; mkSlot 5 0 8%positive] ]}
    {[ 7%positive := true; 8%positive := false ]}.

(** Worker 0 runs fiber 0; the workers 1 to 3 run the fibers 4, 6 and 7;
    fiber 8 is free.  Fiber 1 is pinned to worker 0 until the counter at
    address 2 (now 3) reaches 0, fiber 5 until the counter at address 1 (now
    5) reaches 5.  The ready list of worker 0 holds fiber 2, whose stored
    flag (at address 7) is not set, and fiber 3, whose stored flag (at
    address 8) is set.  Its queue holds one task. *)
Definition loop_tls : ThreadLocalStorage :=
  mkTLS 0 FTL_INVALID_INDEX DestNone None [mkTaskBundle task_a None]
    [mkPinned 1 2%positive 0; mkPinned 5 1%positive 5]
    [(2, 7%positive); (3, 8%positive)] 1.

Definition sched_loop : TaskScheduler :=
  mkSched 4 9 [false; false; false; false; false; false; false; false; true]
    [loop_tls; fresh_tls 4; fresh_tls 6; fresh_tls 7]
    [10%nat; 11%nat; 12%nat; 13%nat] true false Yield
    {[ 1%positive := mkCounter 5 []; 2%positive := mkCounter 3 [] ]}
    {[ 7%positive := false; 8%positive := true ]}.

(** The same with no pinned fiber whose counter is at its target. *)
Definition sched_loop_ready : TaskScheduler := with_counter_value 1%positive 4 sched_loop.

(** The same with no stored flag set either. *)
Definition sched_loop_task : TaskScheduler :=
  set_storedFlags {[ 7%positive := false; 8%positive := false ]} sched_loop_ready.

(** The scheduler after worker 0 (on fiber 0) has parked in a pinned
    [WaitForCounter] for the counter at address 1 to reach 0. *)
Definition sched4_pinned : TaskScheduler :=
  res_state (WaitForCounter 4 10%nat 1%positive 0 true sched4).

(** The same after an unpinned [WaitForCounter]. *)
Definition sched4_unpinned : TaskScheduler :=
  res_state (WaitForCounter 4 10%nat 1%positive 0 false sched4).

(** After the pinned wait, the counter reaches 0 and worker 0, now on the
    replacement fiber, runs a round of the fiber loop. *)
Definition sched4_pinned_resumed : TaskScheduler :=
  res_state (FiberStart_iter 10%nat (counter_reaches_zero sched4_pinned)).

(** Worker 0 finds its own queue empty; only worker 3 has tasks. *)
Definition sched_steal : TaskScheduler :=
  mkSched 4 6 [false; true; false; false; false; true]
    [fresh_tls 0; fresh_tls 2; fresh_tls 3;
     set_TaskQueue [mkTaskBundle task_a None; mkTaskBundle task_b None] (fresh_tls 4)]
    [10%nat; 11%nat; 12%nat; 13%nat] true false Spin ∅ ∅.

(** Worker 2 pushes a task on its own queue. *)
Definition worker2_pushes (s : TaskScheduler) : TaskScheduler :=
  res_state (AddTask 12%nat (mkTask 3 0) None s).

(** Worker 0 has switched away from fiber 1, which it parked on a counter
    with the stored flag at address 7. *)
Definition sched_parked : TaskScheduler :=
  mkSched 4 6 [false; false; false; false; false; false]
    [mkTLS 5 1 ToWaiting (Some 7%positive) [] [] [] 1;
     fresh_tls 2; fresh_tls 3; fresh_tls 4]
    [10%nat; 11%nat; 12%nat; 13%nat] true false Spin
    {[ 1%positive := mkCounter 2 [mkSlot 1 0 7%positive] ]}
    {[ 7%positive := false ]}.

(** Worker 0 has switched away from fiber 1, which goes back to the pool. *)
Definition sched_finished : TaskScheduler :=
  mkSched 4 6 [false; false; false; false; false; false]
    [mkTLS 5 1 ToPool None [] [] [] 1; fresh_tls 2; fresh_tls 3; fresh_tls 4]
    [10%nat; 11%nat; 12%nat; 13%nat] true false Spin ∅ ∅.

Definition set_initialized (b : bool) (s : TaskScheduler) :=
  mkSched (m_numThreads s) (m_fiberPoolSize s) (m_freeFibers s) (m_tls s)
          (m_threads s) b (m_quit s) (m_emptyQueueBehavior s)
          (counters s) (storedFlags s).

Definition set_emptyQueueBehavior (b : EmptyQueueBehavior) (s : TaskScheduler) :=
  mkSched (m_numThreads s) (m_fiberPoolSize s) (m_freeFibers s) (m_tls s)
          (m_threads s) (m_initialized s) (m_quit s) b
          (counters s) (storedFlags s).

Definition set_numThreads (n : Z) (s : TaskScheduler) :=
  mkSched n (m_fiberPoolSize s) (m_freeFibers s) (m_tls s)
          (m_threads s) (m_initialized s) (m_quit s) (m_emptyQueueBehavior s)
          (counters s) (storedFlags s).

Definition set_fiberPoolSize (n : Z) (s : TaskScheduler) :=
  mkSched (m_numThreads s) n (m_freeFibers s) (m_tls s)
          (m_threads s) (m_initialized s) (m_quit s) (m_emptyQueueBehavior s)
          (counters s) (storedFlags s).

Definition set_threads (l : list ThreadId) (s : TaskScheduler) :=
  mkSched (m_numThreads s) (m_fiberPoolSize s) (m_freeFibers s) (m_tls s)
          l (m_initialized s) (m_quit s) (m_emptyQueueBehavior s)
          (counters s) (storedFlags s).

(** ** TaskScheduler::Run *)

Section Run.

(** What the platform gives [Run]: the number of hardware threads, the
    handle of the calling thread, [CreateThread] for the core [i] (the
    handle of the new thread, or [None] when it fails), and the
    thread-local storage that the constructor of [ThreadLocalStorage]
    makes (the constructor is in a header that is not among the source
    files). *)
Variable GetNumHardwareThreads : Z.
Variable GetCurrentThread : ThreadId.
Variable CreateThread : Z -> option ThreadId.
Variable default_tls : ThreadLocalStorage.

(** How [Run] leaves the scheduler code: it switches to the fiber of the
    main task, or it returns because a thread could not be created. *)
Inductive RunOutcome :=
  | RunMainFiber (fiber : Z)
  | RunThreadCreationFailed (i : Z).

(** [m_threads[i] = h] *)
Definition threads_set (i : Z) (h : ThreadId) : M unit :=
  l ← gets m_threads;
  _ ← array_get l i;
  modify (fun s => set_threads (<[Z.to_nat i := h]> (m_threads s)) s).

(** The loop that creates the worker threads, from [i] on ([n] more
    rounds); the result is the index at which [CreateThread] failed. *)
Fixpoint Run_create_threads (i : Z) (n : nat) : M (option Z) :=
  match n with
  | O => mret None
  | S n' =>
      match CreateThread i with
      | None => mret (Some i)
      | Some h => threads_set i h;; Run_create_threads (i + 1) n'
      end
  end.

(** [Run] up to its switch to the fiber of the main task.  Until
    [m_initialized] is set the threads that [Run] has created only spin in
    [ThreadStart]; from then on they reserve fibers of their own, which is
    the step [interference] of the other workers.  The stores that
    initialize the flags precede every other access to them and are not
    logged: the log starts at the reservation of the fiber of the main
    task.  A handle that [resize] adds to [m_threads] is 0. *)
Definition Run_start (interference : TaskScheduler -> TaskScheduler)
    (fiberPoolSize threadPoolSize : Z) (behavior : EmptyQueueBehavior) : M RunOutcome :=
  modify (set_initialized false);;
  modify (set_quit false);;
  modify (set_emptyQueueBehavior behavior);;
  modify (set_fiberPoolSize fiberPoolSize);;
  modify (set_freeFibers (replicate (Z.to_nat fiberPoolSize) true));;
  modify (set_numThreads
            (if threadPoolSize =? 0 then GetNumHardwareThreads else threadPoolSize));;
  numThreads ← gets m_numThreads;
  modify (fun s => set_threads (resize (Z.to_nat numThreads) 0%nat (m_threads s)) s);;
  modify (set_tls (replicate (Z.to_nat numThreads) default_tls));;
  threads_set 0 GetCurrentThread;;
  failed ← Run_create_threads 1 (Z.to_nat (numThreads - 1));
  match failed with
  | Some i => mret (RunThreadCreationFailed i)
  | None =>
      modify (set_initialized true);;
      modify interference;;
      freeFiberIndex ← GetNextFreeFiberIndex;
      tls_update 0 (set_CurrentFiberIndex freeFiberIndex);;
      switch_from_thread_fiber 0 freeFiberIndex;;
      mret (RunMainFiber freeFiberIndex)
  end.

End Run.

(** The handles that the thread-creation loop stores from index [i] on. *)
Fixpoint created_handles (CreateThread : Z -> option ThreadId) (i : Z) (n : nat)
    : list ThreadId :=
  match n with
  | O => []
  | S n' => default 0%nat (CreateThread i) :: created_handles CreateThread (i + 1) n'
  end.

(** The number of workers that [Run] sets up. *)
Definition effective_threads (hardware threadPoolSize : Z) : Z :=
  if threadPoolSize =? 0 then hardware else threadPoolSize.

(** The scheduler when [Run] sets [m_initialized]: [n] workers with the
    thread-local storage of the constructor, and a pool of [pool] fibers
    that are all free. *)
Definition scheduler_initialized (cur : ThreadId) (create : Z -> option ThreadId)
    (default_tls : ThreadLocalStorage) (n pool : Z) (behavior : EmptyQueueBehavior)
    (s : TaskScheduler) : TaskScheduler :=
  mkSched n pool
    (replicate (Z.to_nat pool) true)
    (replicate (Z.to_nat n) default_tls)
    (cur :: created_handles create 1 (Z.to_nat n - 1))
    true false behavior (counters s) (storedFlags s).


(** ** Vocabulary of the properties of the scheduler as a whole *)

(** What [Run] sets up and no later call changes: the sizes, the thread
    handles, [m_initialized] and the empty-queue behaviour; [m_quit] is
    only ever set. *)
Definition same_setup (s0 s : TaskScheduler) : Prop :=
  m_numThreads s = m_numThreads s0 ∧
  m_fiberPoolSize s = m_fiberPoolSize s0 ∧
  m_threads s = m_threads s0 ∧
  m_initialized s = m_initialized s0 ∧
  m_emptyQueueBehavior s = m_emptyQueueBehavior s0 ∧
  length (m_tls s) = length (m_tls s0) ∧
  length (m_freeFibers s) = length (m_freeFibers s0) ∧
  (m_quit s0 = true -> m_quit s = true).

(** [m] keeps the invariant [I], whether it returns or not. *)
Definition Keeps {A} (I : TaskScheduler -> Prop) (m : M A) : Prop :=
  forall s, I s -> I (res_state (m s)).

(** The scheduler that a call leaves. *)
Definition state_after (slots : nat) (c : Call) (s : TaskScheduler) : TaskScheduler :=
  match c with
  | CallThreadStart index => res_state (ThreadStart index s)
  | CallMainFiberStart_mainTaskReturned tid =>
      res_state (MainFiberStart_mainTaskReturned tid s)
  | CallFiberStart_entry tid => res_state (CleanUpOldFiber tid s)
  | CallFiberStart_iter tid => res_state (FiberStart_iter tid s)
  | CallFiberStart_resumed tid => res_state (FiberStart_resumed tid s)
  | CallFiberStart_taskReturned tid b => res_state (FiberStart_taskReturned tid b s)
  | CallAddTask tid task counter => res_state (AddTask tid task counter s)
  | CallAddTasks tid n tasks counter => res_state (AddTasks tid n tasks counter s)
  | CallGetNextTask tid => res_state (GetNextTask tid s)
  | CallGetNextFreeFiberIndex => res_state (GetNextFreeFiberIndex s)
  | CallCleanUpOldFiber tid => res_state (CleanUpOldFiber tid s)
  | CallAddReadyFiber tid i f => res_state (AddReadyFiber tid i f s)
  | CallWaitForCounter interference tid c v pin =>
      res_state (WaitForCounter_env slots interference tid c v pin s)
  | CallWaitForCounter_resumed tid => res_state (WaitForCounter_resumed tid s)
  end.

(** The other workers' step of a call keeps the setup too. *)
Definition interference_keeps_setup (c : Call) : Prop :=
  match c with
  | CallWaitForCounter interference _ _ _ _ => forall s, same_setup s (interference s)
  | _ => True
  end.

(** The thread-local storage after [CleanUpOldFiber] has done its work. *)
Definition cleaned_tls (t : ThreadLocalStorage) : ThreadLocalStorage :=
  set_OldFiberIndex FTL_INVALID_INDEX (set_OldFiberDestination DestNone t).

(** The worker at [idx] has [fiber] as its [CurrentFiberIndex]. *)
Definition runs_fiber (idx : nat) (fiber : Z) (s : TaskScheduler) : Prop :=
  current_fiber idx s = Some fiber.

(** The worker that round [i] of the steal loop probes, for a scan that
    starts at [threadIndex]. *)
Definition steal_victim (s : TaskScheduler) (threadIndex i : Z) : Z :=
  ((threadIndex + i) mod size_t_modulus) mod m_numThreads s.

(** Round [i] steals nothing: it falls on the caller, or on a worker whose
    queue is empty. *)
Definition round_misses (s : TaskScheduler) (cur threadIndex i : Z) : Prop :=
  steal_victim s threadIndex i = cur ∨
  exists t, m_tls s !! Z.to_nat (steal_victim s threadIndex i) = Some t ∧ TaskQueue t = [].

(** One worker, the thread 10, on fiber 0 of a pool of two. *)
Definition sched1 : TaskScheduler :=
  mkSched 1 2 [false; true] [fresh_tls 0] [10%nat] true false Spin ∅ ∅.

(** ** A batch of tasks from submission to completion *)

(** [n] rounds of the fiber loop of a worker, for tasks whose functions
    return without a call into the scheduler: a round that takes a task is
    followed by the rest of the round after the function has returned.  The
    result lists the tasks in the order of their execution; the rounds end
    with the first one that takes no task. *)
Fixpoint run_rounds (tid : ThreadId) (n : nat) : M (list TaskBundle) :=
  match n with
  | O => mret []
  | S n' =>
      outcome ← FiberStart_iter tid;
      match outcome with
      | LoopExecute nextTask =>
          FiberStart_taskReturned tid nextTask;;
          rest ← run_rounds tid n';
          mret (nextTask :: rest)
      | _ => mret []
      end
  end.

(** The scheduler [s] with the queue of worker [idx] replaced by [q] and
    the counter at [c] by the value [v] with no fiber waiting. *)
Definition with_queue_and_counter (idx : Z) (tls : ThreadLocalStorage) (c : CounterPtr)
    (q : list TaskBundle) (v : Z) (s : TaskScheduler) : TaskScheduler :=
  set_counters (<[c := mkCounter v []]> (counters s))
    (with_tls idx (set_TaskQueue q tls) s).

(** * Properties *)

(** ** The monad *)
Lemma bind_unfold {A B} (m : M A) (k : A -> M B) s :
  (m ≫= k) s =
  match m s with
  | Ok a s1 l1 =>
      match k a s1 with
      | Ok b s2 l2 => Ok b s2 (l1 ++ l2)
      | Stuck f s2 l2 => Stuck f s2 (l1 ++ l2)
      end
  | Stuck f s1 l1 => Stuck f s1 l1
  end.
Proof. reflexivity. Qed.

Lemma bind_ok {A B} (m : M A) (k : A -> M B) s a s1 :
  m s = Ok a s1 [] -> (m ≫= k) s = k a s1.
Proof. intros H. rewrite bind_unfold, H. by destruct (k a s1). Qed.

Lemma bind_ok_log {A B} (m : M A) (k : A -> M B) s a s1 l1 :
  m s = Ok a s1 l1 ->
  (m ≫= k) s =
  match k a s1 with
  | Ok b s2 l2 => Ok b s2 (l1 ++ l2)
  | Stuck f s2 l2 => Stuck f s2 (l1 ++ l2)
  end.
Proof. intros H. by rewrite bind_unfold, H. Qed.

Lemma bind_stuck {A B} (m : M A) (k : A -> M B) s f s1 l1 :
  m s = Stuck f s1 l1 -> (m ≫= k) s = Stuck f s1 l1.
Proof. intros H. by rewrite bind_unfold, H. Qed.

Lemma res_log_bind {A B} (m : M A) (k : A -> M B) s :
  res_log ((m ≫= k) s) =
  match m s with
  | Ok a s1 l1 => l1 ++ res_log (k a s1)
  | Stuck _ _ l1 => l1
  end.
Proof. rewrite bind_unfold. destruct (m s); [|done]. by destruct (k a s0). Qed.

Lemma gets_ok {A} (f : TaskScheduler -> A) s : gets f s = Ok (f s) s [].
Proof. reflexivity. Qed.

Lemma in_range_true i n : 0 <= i -> (Z.to_nat i < n)%nat -> in_range i n = true.
Proof.
  intros. unfold in_range. apply andb_true_intro.
  split; [apply Z.leb_le|apply Z.ltb_lt]; lia.
Qed.

Lemma array_get_ok {A} (l : list A) i x s :
  0 <= i -> l !! Z.to_nat i = Some x -> array_get l i s = Ok x s [].
Proof.
  intros Hi Hl. unfold array_get.
  rewrite in_range_true; [|done|by eapply lookup_lt_Some].
  by rewrite Hl.
Qed.

Lemma array_get_out {A} (l : list A) i s :
  Z.of_nat (length l) <= i -> array_get l i s = Stuck OutOfBounds s [].
Proof.
  intros Hi. unfold array_get, in_range.
  replace (i <? Z.of_nat (length l)) with false; [by rewrite andb_false_r|].
  symmetry. apply Z.ltb_ge. lia.
Qed.

Lemma tls_at_ok i t s :
  0 <= i -> m_tls s !! Z.to_nat i = Some t -> tls_at i s = Ok t s [].
Proof.
  intros Hi Hl. unfold tls_at. rewrite (bind_ok _ _ _ _ _ (gets_ok _ _)).
  by apply array_get_ok.
Qed.

Lemma tls_update_ok i f t s :
  0 <= i -> m_tls s !! Z.to_nat i = Some t ->
  tls_update i f s = Ok tt (with_tls i (f t) s) [].
Proof.
  intros Hi Hl. unfold tls_update.
  by rewrite (bind_ok _ _ _ _ _ (tls_at_ok _ _ _ Hi Hl)).
Qed.

Lemma counter_at_ok c cnt s : counters s !! c = Some cnt -> counter_at c s = Ok cnt s [].
Proof. intros H. unfold counter_at. by rewrite H. Qed.

Lemma Load_ok c cnt s : counters s !! c = Some cnt -> Load c s = Ok (m_value cnt) s [].
Proof. intros H. unfold Load. by rewrite (bind_ok _ _ _ _ _ (counter_at_ok _ _ _ H)). Qed.

(** ** Thread-local storage of a worker *)

Lemma with_tls_same idx t s :
  m_tls s !! Z.to_nat idx = Some t -> with_tls idx t s = s.
Proof.
  intros H. unfold with_tls. rewrite list_insert_id by done. by destruct s.
Qed.

Lemma with_tls_twice idx t1 t2 s :
  with_tls idx t2 (with_tls idx t1 s) = with_tls idx t2 s.
Proof. unfold with_tls, set_tls. simpl. by rewrite list_insert_insert_eq. Qed.

Lemma with_tls_lookup idx t t0 s :
  m_tls s !! Z.to_nat idx = Some t0 ->
  m_tls (with_tls idx t s) !! Z.to_nat idx = Some t.
Proof.
  intros H. unfold with_tls. simpl. apply list_lookup_insert_eq.
  by eapply lookup_lt_Some.
Qed.

Lemma worker_with_tls tid s idx t0 t :
  worker tid s idx t0 -> worker tid (with_tls idx t s) idx t.
Proof.
  intros (Hg & Hi & Hl). repeat split; [done..|].
  by eapply with_tls_lookup.
Qed.

Lemma AddReadyFiber_ok tid fiberIndex flag s idx tls :
  worker tid s idx tls ->
  AddReadyFiber tid fiberIndex flag s =
  Ok tt (with_tls idx (set_ReadyFibers (ReadyFibers tls ++ [(fiberIndex, flag)]) tls) s) [].
Proof.
  intros (Hg & Hi & Hl). unfold AddReadyFiber.
  rewrite (bind_ok _ _ _ _ _ (gets_ok _ _)), Hg.
  by rewrite (tls_update_ok idx _ tls s Hi Hl).
Qed.

(** ** C5: the fast path of WaitForCounter *)

(** C5.  A call of [WaitForCounter] whose counter already holds [value]
    returns at once, whatever [pinToCurrentThread] is and whatever the other
    workers would do next: the scheduler it leaves is the one it found (the
    thread-local storage of every worker, the free-fiber flags, the stored
    flags and the counters included) and its log is empty, so that no fiber
    switch occurred and no free fiber was reserved. *)
Theorem WaitForCounter_fast_path slots interference tid counter value pin s cnt :
  counters s !! counter = Some cnt ->
  m_value cnt = value ->
  WaitForCounter_env slots interference tid counter value pin s = Ok WaitReturned s [].
Proof.
  intros Hc Hv. unfold WaitForCounter_env.
  rewrite (bind_ok _ _ _ _ _ (Load_ok _ _ _ Hc)).
  by rewrite Hv, Z.eqb_refl.
Qed.

Lemma WaitForCounter_fast_path_witness :
  WaitForCounter_env 4 counter_reaches_zero 10%nat 1%positive 5 true sched4
  = Ok WaitReturned sched4 [].
Proof.
  apply (WaitForCounter_fast_path 4 counter_reaches_zero 10%nat 1%positive 5 true sched4
           (mkCounter 5 [])); reflexivity.
Defined.

(** ** C10: AddReadyFiber and the delivery of woken fibers *)

Lemma CheckWaitingFibers_ok tid value idx slots : forall s tls,
  worker tid s idx tls ->
  Forall (fun slot => is_Some (storedFlags s !! FiberStoredFlag slot)) slots ->
  exists log,
    CheckWaitingFibers tid value slots s =
    Ok (filter (fun slot => ¬ slot_woken s value slot) slots)
       (with_tls idx
          (set_ReadyFibers
             (ReadyFibers tls ++
              map slot_entry (filter (fun slot => slot_woken s value slot) slots))
             tls) s)
       log.
Proof.
  induction slots as [|slot rest IH]; intros s tls Hw Hlive.
  - exists []. simpl. rewrite app_nil_r.
    destruct Hw as (_ & _ & Hl).
    rewrite with_tls_same; [done|]. by destruct tls.
  - apply Forall_cons in Hlive as [[v Hv] Hrest].
    assert (Hwoken : slot_woken s value slot = (TargetValue slot =? value) && v).
    { unfold slot_woken. by rewrite Hv. }
    simpl CheckWaitingFibers. rewrite !filter_cons.
    destruct (TargetValue slot =? value) eqn:Ht; simpl in Hwoken.
    + unfold flag_load at 1. rewrite bind_unfold, Hv. simpl.
      destruct v; simpl.
      * rewrite (bind_ok _ _ _ _ _ (AddReadyFiber_ok _ _ _ _ _ _ Hw)).
        set (tls1 := set_ReadyFibers _ tls).
        destruct (IH (with_tls idx tls1 s) tls1) as [log Hlog].
        { by eapply worker_with_tls. }
        { done. }
        rewrite Hlog. eexists.
        rewrite decide_False by (rewrite Hwoken; simpl; tauto).
        rewrite decide_True by (rewrite Hwoken; simpl; tauto).
        f_equal. rewrite with_tls_twice. unfold tls1. simpl.
        by rewrite <- app_assoc.
      * destruct (IH s tls Hw Hrest) as [log Hlog].
        rewrite (bind_ok_log _ _ _ _ _ _ Hlog). simpl. eexists.
        rewrite decide_True by (rewrite Hwoken; simpl; tauto).
        rewrite decide_False by (rewrite Hwoken; simpl; tauto).
        done.
    + destruct (IH s tls Hw Hrest) as [log Hlog].
      rewrite (bind_ok_log _ _ _ _ _ _ Hlog). simpl. eexists.
      rewrite decide_True by (rewrite Hwoken; simpl; tauto).
      rewrite decide_False by (rewrite Hwoken; simpl; tauto).
      done.
Qed.

Lemma counter_put_ok c cnt s :
  counter_put c cnt s = Ok tt (set_counters (<[c := cnt]> (counters s)) s) [].
Proof. reflexivity. Qed.

(** C10.  [AddReadyFiber] called by a worker appends the pair to the
    [ReadyFibers] of that worker's own thread-local storage and changes
    nothing else.  Hence a decrement of a counter delivers the fibers it
    wakes to the worker that decrements: after [FetchSub] the array of
    thread-local storages differs from the one before only in the entry of
    the calling worker, whose [ReadyFibers] have gained the woken fibers, in
    the order of their slots. *)
Theorem AddReadyFiber_own_thread tid fiberIndex flag s idx tls :
  worker tid s idx tls ->
  AddReadyFiber tid fiberIndex flag s =
    Ok tt (with_tls idx (set_ReadyFibers (ReadyFibers tls ++ [(fiberIndex, flag)]) tls) s) []
  ∧ forall c cnt n,
      counters s !! c = Some cnt ->
      Forall (fun slot => is_Some (storedFlags s !! FiberStoredFlag slot))
             (m_waitingFibers cnt) ->
      exists s' log,
        FetchSub tid c n s = Ok (m_value cnt) s' log ∧
        m_tls s' =
          <[Z.to_nat idx :=
              set_ReadyFibers
                (ReadyFibers tls ++
                 map slot_entry
                   (filter (fun slot => slot_woken s ((m_value cnt - n) mod uint_modulus) slot)
                           (m_waitingFibers cnt)))
                tls]> (m_tls s).
Proof.
  intros Hw. split; [by apply AddReadyFiber_ok|].
  intros c cnt n Hc Hlive. unfold FetchSub.
  rewrite (bind_ok _ _ _ _ _ (counter_at_ok _ _ _ Hc)).
  rewrite (bind_ok _ _ _ _ _ (counter_put_ok _ _ _)).
  set (value := (m_value cnt - n) mod uint_modulus).
  set (s1 := set_counters _ s).
  destruct (CheckWaitingFibers_ok tid value idx (m_waitingFibers cnt) s1 tls)
    as [log Hlog]; [done..|].
  rewrite (bind_ok_log _ _ _ _ _ _ Hlog).
  rewrite (bind_ok _ _ _ _ _ (counter_put_ok _ _ _)).
  simpl. eexists _, _. split; [reflexivity|]. reflexivity.
Qed.

Lemma AddReadyFiber_own_thread_witness :
  AddReadyFiber 10%nat 1 7%positive sched_waiting =
    Ok tt (with_tls 0 (set_ReadyFibers [(1, 7%positive)] (fresh_tls 0)) sched_waiting) []
  ∧ exists s' log,
      FetchSub 10%nat 1%positive 1 sched_waiting = Ok 1 s' log ∧
      m_tls s' =
        [set_ReadyFibers [(1, 7%positive)] (fresh_tls 0);
         fresh_tls 2; fresh_tls 3; fresh_tls 4].
Proof.
  assert (Hw : worker 10%nat sched_waiting 0 (fresh_tls 0)).
  { repeat split. done. }
  destruct (AddReadyFiber_own_thread 10%nat 1 7%positive sched_waiting 0 (fresh_tls 0) Hw)
    as [Hadd Hsub].
  split; [exact Hadd|].
  apply (Hsub 1%positive (mkCounter 1 [mkSlot 1 0 7%positive; mkSlot 5 0 8%positive]) 1).
  - reflexivity.
  - repeat constructor; eexists; reflexivity.
Defined.

(** ** The free-fiber scan *)

Lemma scan_free_probes flags : forall i, Forall is_probe (scan_free flags i).2.
Proof.
  induction flags as [|b rest IH]; intros i; simpl; [constructor|].
  destruct b; simpl.
  - repeat constructor.
  - constructor; [exact I|apply IH].
Qed.

Lemma scan_free_found flags : forall i r,
  (scan_free flags i).1 = Some r ->
  exists j : nat, r = i + Z.of_nat j ∧ flags !! j = Some true ∧
    EvFreeCas r true false Release Relaxed ∈ (scan_free flags i).2.
Proof.
  induction flags as [|b rest IH]; intros i r; simpl; [done|].
  destruct b; simpl.
  - intros [= <-]. exists 0%nat. split; [lia|]. split; [done|].
    set_solver.
  - intros H. destruct (IH _ _ H) as (j & -> & Hj & Hcas).
    exists (S j). split; [lia|]. split; [done|]. set_solver.
Qed.

Lemma scan_free_none flags : forall i,
  (scan_free flags i).1 = None -> forall j, flags !! j ≠ Some true.
Proof.
  induction flags as [|b rest IH]; intros i; simpl; [done|].
  destruct b; simpl; [done|].
  intros H [|j]; simpl; [done|]. by eapply IH.
Qed.

Lemma GetNextFreeFiberIndex_ok s (i : nat) :
  (i < Z.to_nat (m_fiberPoolSize s))%nat ->
  m_freeFibers s !! i = Some true ->
  exists (j : nat) ev,
    GetNextFreeFiberIndex s =
      Ok (Z.of_nat j) (set_freeFibers (<[j := false]> (m_freeFibers s)) s) ev ∧
    m_freeFibers s !! j = Some true ∧
    (j < Z.to_nat (m_fiberPoolSize s))%nat ∧
    Forall is_probe ev ∧
    EvFreeCas (Z.of_nat j) true false Release Relaxed ∈ ev.
Proof.
  intros Hi Hfree. unfold GetNextFreeFiberIndex.
  set (flags := take _ _).
  pose proof (scan_free_probes flags 0) as Hev.
  destruct (scan_free flags 0) as [[r|] ev] eqn:Hscan; simpl in Hev.
  - destruct (scan_free_found flags 0 r) as (j & -> & Hj & Hcas).
    { by rewrite Hscan. }
    rewrite Hscan in Hcas. simpl in Hcas.
    unfold flags in Hj. apply lookup_take_Some in Hj as [Hj Hlt].
    exists j, ev. rewrite Z.add_0_l, Nat2Z.id. done.
  - exfalso. eapply (scan_free_none flags 0); [by rewrite Hscan|].
    unfold flags. rewrite lookup_take_lt; done.
Qed.

(** ** C4: the counter is reached while the fiber is being parked *)

Lemma new_flag_fresh (m : gmap positive bool) : m !! fresh (dom m) = None.
Proof. apply not_elem_of_dom. apply is_fresh. Qed.

Lemma delete_flag_ok site p v s :
  storedFlags s !! p = Some v ->
  delete_flag site p s =
    Ok tt (set_storedFlags (delete p (storedFlags s)) s) [EvFlagDelete site p].
Proof. intros H. unfold delete_flag. by rewrite H. Qed.

Lemma flag_load_ok site p o v s :
  storedFlags s !! p = Some v ->
  flag_load site p o s = Ok v s [EvFlagLoad site p o v].
Proof. intros H. unfold flag_load. by rewrite H. Qed.

Lemma free_store_ok site (i : nat) v o b s :
  m_freeFibers s !! i = Some b ->
  free_store site (Z.of_nat i) v o s =
    Ok tt (set_freeFibers (<[i := v]> (m_freeFibers s)) s)
       [EvFreeStore site (Z.of_nat i) v o].
Proof.
  intros H. unfold free_store.
  rewrite (bind_ok _ _ _ _ _ (gets_ok _ _)).
  erewrite bind_ok; last first.
  { apply (array_get_ok _ (Z.of_nat i) b); [lia|]. by rewrite Nat2Z.id. }
  erewrite bind_ok; [|reflexivity].
  by rewrite Nat2Z.id.
Qed.

Lemma AddFiberToWaitingList_done slots c fiberIndex value flag s cnt :
  counters s !! c = Some cnt ->
  m_value cnt = value ->
  (length (m_waitingFibers cnt) < slots)%nat ->
  AddFiberToWaitingList slots c fiberIndex value flag s = Ok true s [].
Proof.
  intros Hc Hv Hslots. unfold AddFiberToWaitingList.
  rewrite (bind_ok _ _ _ _ _ (counter_at_ok _ _ _ Hc)).
  rewrite decide_False by lia.
  rewrite (bind_ok _ _ _ _ _ (counter_put_ok _ _ _)).
  erewrite bind_ok; last first.
  { apply Load_ok. simpl. apply lookup_insert_eq. }
  simpl m_value. rewrite Hv, Z.eqb_refl.
  rewrite (bind_ok _ _ _ _ _ (counter_put_ok _ _ _)).
  unfold mret, M_ret, ret. f_equal.
  unfold set_counters. simpl. rewrite insert_insert_eq.
  rewrite insert_id; [by destruct s|]. rewrite Hc. f_equal. destruct cnt. simpl in *. by subst.
Qed.

(** C4.  An unpinned [WaitForCounter] whose fast path misses, and for which
    the other workers bring the counter to [value] before the fiber is put
    on the waiting list, returns to its caller without a fiber switch.  The
    scheduler it leaves is the one the other workers left: the stored flag
    it allocated is deleted, the free flag of the replacement fiber it
    reserved is stored back to true, no waiting slot stays reserved and no
    thread-local storage is changed, so no fiber remains parked.  It needs
    a free fiber and a free waiting slot to get that far. *)
Theorem WaitForCounter_already_done slots interference tid counter value s
    cnt0 cnt idx tls (i : nat) :
  counters s !! counter = Some cnt0 ->
  m_value cnt0 ≠ value ->
  counters (interference s) !! counter = Some cnt ->
  m_value cnt = value ->
  (length (m_waitingFibers cnt) < slots)%nat ->
  worker tid (interference s) idx tls ->
  (i < Z.to_nat (m_fiberPoolSize (interference s)))%nat ->
  m_freeFibers (interference s) !! i = Some true ->
  exists (replacement : nat) probes,
    let flag := fresh (dom (storedFlags (interference s))) in
    let log := probes ++ [EvFlagNew flag false;
                          EvFlagDelete InWaitForCounter flag;
                          EvFreeStore InWaitForCounter (Z.of_nat replacement) true Release] in
    WaitForCounter_env slots interference tid counter value false s
      = Ok WaitReturned (interference s) log ∧
    Forall is_probe probes ∧
    EvFreeCas (Z.of_nat replacement) true false Release Relaxed ∈ probes ∧
    (forall a b, EvSwitch a b ∉ log).
Proof.
  intros Hc0 Hmiss Hc Hv Hslots Hw Hi Hfree.
  destruct (GetNextFreeFiberIndex_ok _ _ Hi Hfree) as (j & ev & Hget & Hj & Hjlt & Hev & Hcas).
  exists j, ev. cbv zeta. split; [|split; [done|split; [done|]]].
  - unfold WaitForCounter_env.
    rewrite (bind_ok _ _ _ _ _ (Load_ok _ _ _ Hc0)).
    replace (m_value cnt0 =? value) with false by (symmetry; by apply Z.eqb_neq).
    erewrite bind_ok; [|reflexivity].
    set (s1 := interference s) in *.
    destruct Hw as (Hg & Hidx & Htls).
    rewrite (bind_ok _ _ _ _ _ (gets_ok _ _)), Hg.
    rewrite (bind_ok _ _ _ _ _ (tls_at_ok _ _ _ Hidx Htls)).
    rewrite (bind_ok_log _ _ _ _ _ _ Hget).
    set (s2 := set_freeFibers _ s1).
    erewrite bind_ok_log; [|reflexivity].
    set (flag := fresh (dom (storedFlags s1))).
    set (s3 := set_storedFlags _ s2).
    erewrite (bind_ok _ _ s3); [|by apply (tls_at_ok idx tls s3)].
    erewrite bind_ok; [|by apply (AddFiberToWaitingList_done slots counter _ value flag s3 cnt)].
    assert (Hlive : storedFlags s3 !! flag = Some false) by apply lookup_insert_eq.
    change (fresh (dom (storedFlags s2))) with flag in *. cbv iota.
    rewrite (bind_ok_log _ _ _ _ _ _ (delete_flag_ok _ _ _ _ Hlive)).
    set (s4 := set_storedFlags _ s3).
    assert (Hres : m_freeFibers s4 !! j = Some false).
    { simpl. apply list_lookup_insert_eq. by eapply lookup_lt_Some. }
    rewrite (bind_ok_log _ _ _ _ _ _ (free_store_ok _ _ _ _ _ _ Hres)).
    simpl. f_equal.
    unfold set_freeFibers, set_storedFlags. simpl.
    rewrite list_insert_insert_eq, list_insert_id by done.
    rewrite delete_insert_eq, delete_id by apply new_flag_fresh.
    by destruct s1.
  - intros a b Hin. apply elem_of_app in Hin as [Hin|Hin].
    + rewrite Forall_forall in Hev. by apply Hev in Hin.
    + repeat (apply elem_of_cons in Hin as [Hin|Hin]; [discriminate|]).
      by apply elem_of_nil in Hin.
Qed.

Lemma WaitForCounter_already_done_witness :
  exists (replacement : nat) probes,
    let flag := fresh (dom (storedFlags (counter_reaches_zero sched4))) in
    let log := probes ++ [EvFlagNew flag false;
                          EvFlagDelete InWaitForCounter flag;
                          EvFreeStore InWaitForCounter (Z.of_nat replacement) true Release] in
    WaitForCounter_env 4 counter_reaches_zero 10%nat 1%positive 0 false sched4
      = Ok WaitReturned (counter_reaches_zero sched4) log ∧
    Forall is_probe probes ∧
    EvFreeCas (Z.of_nat replacement) true false Release Relaxed ∈ probes ∧
    (forall a b, EvSwitch a b ∉ log).
Proof.
  apply (WaitForCounter_already_done 4 counter_reaches_zero 10%nat 1%positive 0 sched4
           (mkCounter 5 []) (mkCounter 0 []) 0 (fresh_tls 0) 1).
  - reflexivity.
  - simpl. lia.
  - reflexivity.
  - reflexivity.
  - simpl. lia.
  - repeat split. done.
  - change (1 < 6)%nat. lia.
  - reflexivity.
Defined.


(** ** C6: the order of the fiber loop *)

Lemma scan_pinned_spec idx tls s all :
  0 <= idx -> m_tls s !! Z.to_nat idx = Some tls ->
  forall rest i,
  Forall (fun b => is_Some (counters s !! PinnedCounter b)) rest ->
  scan_pinned idx all i rest s =
  match list_find (fun b => pinned_done s b) rest with
  | Some (k, b) =>
      Ok (PinnedFiberIndex b)
         (with_tls idx (set_PinnedTasks (delete (i + k)%nat all) tls) s) []
  | None => Ok FTL_INVALID_INDEX s []
  end.
Proof.
  intros Hidx Htls. induction rest as [|bundle rest IH]; intros i Hlive; [done|].
  apply Forall_cons in Hlive as [[cnt Hcnt] Hrest].
  simpl scan_pinned. rewrite (bind_ok _ _ _ _ _ (Load_ok _ _ _ Hcnt)).
  assert (Hdone : pinned_done s bundle = (m_value cnt =? PinnedTargetValue bundle)).
  { unfold pinned_done. by rewrite Hcnt. }
  simpl list_find.
  destruct (m_value cnt =? PinnedTargetValue bundle) eqn:Heq.
  - rewrite decide_True by (rewrite Hdone; exact I). simpl.
    rewrite (bind_ok _ _ _ _ _ (tls_update_ok idx _ tls s Hidx Htls)).
    by rewrite Nat.add_0_r.
  - rewrite decide_False by (rewrite Hdone; simpl; tauto).
    rewrite (IH (S i) Hrest).
    destruct (list_find _ rest) as [[k b]|]; simpl; [|done].
    by rewrite Nat.add_succ_r.
Qed.

Lemma scan_ready_spec idx tls s all :
  0 <= idx -> m_tls s !! Z.to_nat idx = Some tls ->
  forall rest i,
  Forall (fun e : Z * FlagPtr => is_Some (storedFlags s !! e.2)) rest ->
  scan_ready idx all i rest s =
  match list_find (fun e => ready_stored s e) rest with
  | Some (k, e) =>
      Ok e.1
         (with_tls idx (set_ReadyFibers (delete (i + k)%nat all) tls)
            (set_storedFlags (delete e.2 (storedFlags s)) s))
         (map poll_false (take k rest) ++
          [EvFlagLoad InFiberStart e.2 Relaxed true; EvFlagDelete InFiberStart e.2])
  | None => Ok FTL_INVALID_INDEX s (map poll_false rest)
  end.
Proof.
  intros Hidx Htls. induction rest as [|entry rest IH]; intros i Hlive; [done|].
  apply Forall_cons in Hlive as [[v Hv] Hrest].
  simpl scan_ready. rewrite (bind_ok_log _ _ _ _ _ _ (flag_load_ok _ _ _ _ _ Hv)).
  assert (Hst : ready_stored s entry = v).
  { unfold ready_stored. by rewrite Hv. }
  simpl list_find.
  destruct v; cbv beta; unfold negb; cbv iota.
  - rewrite decide_True by (rewrite Hst; exact I). simpl.
    rewrite (bind_ok_log _ _ _ _ _ _ (delete_flag_ok _ _ _ _ Hv)).
    erewrite bind_ok; last first.
    { by apply (tls_update_ok idx _ tls). }
    by rewrite Nat.add_0_r.
  - rewrite decide_False by (rewrite Hst; simpl; tauto).
    rewrite (IH (S i) Hrest).
    destruct (list_find _ rest) as [[k e]|]; simpl; [|done].
    by rewrite Nat.add_succ_r.
Qed.
Lemma is_fiber_in_range s i :
  is_fiber s i -> in_range i (Z.to_nat (m_fiberPoolSize s)) = true.
Proof. intros [H0 H1]. apply in_range_true; lia. Qed.

Lemma is_fiber_valid s i :
  m_fiberPoolSize s < size_t_modulus -> is_fiber s i -> (i =? FTL_INVALID_INDEX) = false.
Proof. intros Hp [H0 H1]. apply Z.eqb_neq. unfold FTL_INVALID_INDEX. lia. Qed.

Lemma switch_fibers_ok s a b :
  is_fiber s a -> is_fiber s b ->
  switch_fibers a b s = Ok tt s [EvSwitch (PoolFiber a) (PoolFiber b)].
Proof.
  intros Ha Hb. unfold switch_fibers.
  rewrite (bind_ok _ _ _ _ _ (gets_ok _ _)).
  by rewrite !is_fiber_in_range.
Qed.

Lemma resume_switch idx tls1 fiber s1 t0 :
  0 <= idx -> m_tls s1 !! Z.to_nat idx = Some t0 ->
  is_fiber s1 (CurrentFiberIndex tls1) -> is_fiber s1 fiber ->
  (tls_update idx (fun t =>
      set_OldFiberDestination ToPool
        (set_CurrentFiberIndex fiber (set_OldFiberIndex (CurrentFiberIndex t) t)));;
   tls' ← tls_at idx;
   switch_fibers (OldFiberIndex tls') (CurrentFiberIndex tls');;
   mret (LoopResumed (OldFiberIndex tls') (CurrentFiberIndex tls')))
    (with_tls idx tls1 s1)
  = Ok (LoopResumed (CurrentFiberIndex tls1) fiber)
       (with_tls idx (resume_tls fiber tls1) s1)
       [EvSwitch (PoolFiber (CurrentFiberIndex tls1)) (PoolFiber fiber)].
Proof.
  intros Hidx Hl Hcur Hfib.
  pose proof (with_tls_lookup idx tls1 t0 s1 Hl) as Hl1.
  rewrite (bind_ok _ _ _ _ _ (tls_update_ok idx _ tls1 _ Hidx Hl1)).
  rewrite with_tls_twice.
  pose proof (with_tls_lookup idx (resume_tls fiber tls1) t0 s1 Hl) as Hl2.
  rewrite (bind_ok _ _ _ _ _ (tls_at_ok idx _ _ Hidx Hl2)).
  simpl OldFiberIndex. simpl CurrentFiberIndex.
  erewrite bind_ok_log; [|by apply switch_fibers_ok]. done.
Qed.

(** C6.  One round of the loop of [FiberStart], with [m_quit] not set, in a
    scheduler whose pinned and ready entries name fibers of the pool and
    live counters and stored flags.  If some pinned bundle has its counter
    at its target value, the first such bundle is erased from the pinned
    list and its fiber is switched to; no stored flag is read or written.
    Otherwise, if some ready entry has its stored flag set, the first such
    entry is erased from the ready list, its stored flag is deleted and its
    fiber is switched to.  Otherwise, and only then, [GetNextTask] is
    called, and the round calls the function of the task it returns, or
    applies the empty-queue behaviour if it returns none. *)
Theorem FiberStart_iter_priority tid s idx tls :
  m_quit s = false ->
  worker tid s idx tls ->
  m_fiberPoolSize s < size_t_modulus ->
  is_fiber s (CurrentFiberIndex tls) ->
  Forall (fun b => is_fiber s (PinnedFiberIndex b) ∧
                   is_Some (counters s !! PinnedCounter b)) (PinnedTasks tls) ->
  Forall (fun e : Z * FlagPtr => is_fiber s e.1 ∧ is_Some (storedFlags s !! e.2))
         (ReadyFibers tls) ->
  let current := CurrentFiberIndex tls in
  match list_find (fun b => pinned_done s b) (PinnedTasks tls) with
  | Some (k, bundle) =>
      FiberStart_iter tid s =
      Ok (LoopResumed current (PinnedFiberIndex bundle))
         (with_tls idx
            (resume_tls (PinnedFiberIndex bundle)
               (set_PinnedTasks (delete k (PinnedTasks tls)) tls)) s)
         [EvSwitch (PoolFiber current) (PoolFiber (PinnedFiberIndex bundle))]
  | None =>
      match list_find (fun e => ready_stored s e) (ReadyFibers tls) with
      | Some (k, entry) =>
          FiberStart_iter tid s =
          Ok (LoopResumed current entry.1)
             (with_tls idx
                (resume_tls entry.1 (set_ReadyFibers (delete k (ReadyFibers tls)) tls))
                (set_storedFlags (delete entry.2 (storedFlags s)) s))
             (map poll_false (take k (ReadyFibers tls)) ++
              [EvFlagLoad InFiberStart entry.2 Relaxed true;
               EvFlagDelete InFiberStart entry.2;
               EvSwitch (PoolFiber current) (PoolFiber entry.1)])
      | None =>
          FiberStart_iter tid s =
          match GetNextTask tid s with
          | Ok (Some nextTask) s' l =>
              Ok (LoopExecute nextTask) s' (map poll_false (ReadyFibers tls) ++ l)
          | Ok None s' l =>
              Ok (LoopIdle (m_emptyQueueBehavior s')) s'
                 (map poll_false (ReadyFibers tls) ++ l ++
                  match m_emptyQueueBehavior s' with
                  | Yield => [EvYieldThread]
                  | Sleep | Spin => []
                  end)
          | Stuck f s' l => Stuck f s' (map poll_false (ReadyFibers tls) ++ l)
          end
      end
  end.
Proof.
  intros Hquit (Hg & Hidx & Htls) Hpool Hcur Hpinned Hready current.
  unfold FiberStart_iter.
  rewrite (bind_ok _ _ _ _ _ (gets_ok _ _)), Hquit.
  rewrite (bind_ok _ _ _ _ _ (gets_ok _ _)), Hg.
  rewrite (bind_ok _ _ _ _ _ (tls_at_ok _ _ _ Hidx Htls)).
  rewrite bind_unfold.
  rewrite (scan_pinned_spec idx tls s _ Hidx Htls); last first.
  { eapply Forall_impl; [exact Hpinned|]. by intros b [_ H]. }
  destruct (list_find _ (PinnedTasks tls)) as [[k bundle]|] eqn:Hfind.
  - apply list_find_Some in Hfind as (Hk & _ & _).
    rewrite Forall_lookup in Hpinned. destruct (Hpinned _ _ Hk) as [Hfib _].
    rewrite (is_fiber_valid _ _ Hpool Hfib).
    erewrite bind_ok; [|reflexivity]. rewrite (is_fiber_valid _ _ Hpool Hfib).
    unfold negb. cbv iota. rewrite Nat.add_0_l.
    rewrite (resume_switch idx _ _ s tls); done.
  - rewrite Z.eqb_refl.
    rewrite bind_unfold.
    rewrite (scan_ready_spec idx tls s _ Hidx Htls); last first.
    { eapply Forall_impl; [exact Hready|]. by intros b [_ H]. }
    destruct (list_find _ (ReadyFibers tls)) as [[k entry]|] eqn:Hfind2.
    + apply list_find_Some in Hfind2 as (Hk & _ & _).
      rewrite Forall_lookup in Hready. destruct (Hready _ _ Hk) as [Hfib _].
      rewrite (is_fiber_valid _ _ Hpool Hfib). unfold negb. cbv iota. rewrite Nat.add_0_l.
      set (s1 := set_storedFlags _ s).
      rewrite (resume_switch idx _ _ s1 tls); [|done..].
      simpl. by rewrite <- app_assoc.
    + rewrite Z.eqb_refl. unfold negb. cbv iota.
      rewrite bind_unfold.
      destruct (GetNextTask tid s) as [[nextTask|] s' l|f s' l]; simpl.
      * by rewrite !app_nil_r.
      * rewrite (bind_ok _ _ _ _ _ (gets_ok _ _)).
        destruct (m_emptyQueueBehavior s'); simpl; by rewrite ?app_nil_r.
      * by rewrite ?app_nil_r.
Qed.

Lemma FiberStart_iter_priority_witness :
  FiberStart_iter 10%nat sched_loop =
    Ok (LoopResumed 0 5)
       (with_tls 0 (resume_tls 5 (set_PinnedTasks [mkPinned 1 2%positive 0] loop_tls))
          sched_loop)
       [EvSwitch (PoolFiber 0) (PoolFiber 5)]
  ∧ FiberStart_iter 10%nat sched_loop_ready =
    Ok (LoopResumed 0 3)
       (with_tls 0 (resume_tls 3 (set_ReadyFibers [(2, 7%positive)] loop_tls))
          (set_storedFlags {[ 7%positive := false ]} sched_loop_ready))
       [EvFlagLoad InFiberStart 7%positive Relaxed false;
        EvFlagLoad InFiberStart 8%positive Relaxed true;
        EvFlagDelete InFiberStart 8%positive;
        EvSwitch (PoolFiber 0) (PoolFiber 3)]
  ∧ FiberStart_iter 10%nat sched_loop_task =
    Ok (LoopExecute (mkTaskBundle task_a None))
       (with_tls 0 (set_TaskQueue [] loop_tls) sched_loop_task)
       [EvFlagLoad InFiberStart 7%positive Relaxed false;
        EvFlagLoad InFiberStart 8%positive Relaxed false].
Proof.
  assert (Hhyp : forall s,
    m_tls s = m_tls sched_loop -> m_threads s = m_threads sched_loop ->
    m_numThreads s = 4 -> m_fiberPoolSize s = 9 ->
    (forall c, c = 1%positive ∨ c = 2%positive -> is_Some (counters s !! c)) ->
    (forall f, f = 7%positive ∨ f = 8%positive -> is_Some (storedFlags s !! f)) ->
    worker 10%nat s 0 loop_tls ∧
    m_fiberPoolSize s < size_t_modulus ∧
    is_fiber s (CurrentFiberIndex loop_tls) ∧
    Forall (fun b => is_fiber s (PinnedFiberIndex b) ∧
                     is_Some (counters s !! PinnedCounter b)) (PinnedTasks loop_tls) ∧
    Forall (fun e : Z * FlagPtr => is_fiber s e.1 ∧ is_Some (storedFlags s !! e.2))
           (ReadyFibers loop_tls)).
  { intros s Htls Hthreads Hn Hpool Hc Hf.
    unfold worker, GetCurrentThreadIndex, is_fiber.
    rewrite Htls, Hthreads, Hn, Hpool. simpl.
    repeat split; try done; repeat constructor; simpl; try lia; auto. }
  split; [|split].
  - assert (Hc : forall c, c = 1%positive ∨ c = 2%positive ->
                is_Some (counters sched_loop !! c))
      by (intros c [->| ->]; eexists; reflexivity).
    assert (Hf : forall f, f = 7%positive ∨ f = 8%positive ->
                is_Some (storedFlags sched_loop !! f))
      by (intros f [->| ->]; eexists; reflexivity).
    destruct (Hhyp sched_loop eq_refl eq_refl eq_refl eq_refl Hc Hf)
      as (H1 & H2 & H3 & H4 & H5).
    exact (FiberStart_iter_priority 10%nat sched_loop 0 loop_tls eq_refl H1 H2 H3 H4 H5).
  - assert (Hc : forall c, c = 1%positive ∨ c = 2%positive ->
                is_Some (counters sched_loop_ready !! c))
      by (intros c [->| ->]; eexists; reflexivity).
    assert (Hf : forall f, f = 7%positive ∨ f = 8%positive ->
                is_Some (storedFlags sched_loop_ready !! f))
      by (intros f [->| ->]; eexists; reflexivity).
    destruct (Hhyp sched_loop_ready eq_refl eq_refl eq_refl eq_refl Hc Hf)
      as (H1 & H2 & H3 & H4 & H5).
    exact (FiberStart_iter_priority 10%nat sched_loop_ready 0 loop_tls eq_refl H1 H2 H3 H4 H5).
  - assert (Hc : forall c, c = 1%positive ∨ c = 2%positive ->
                is_Some (counters sched_loop_task !! c))
      by (intros c [->| ->]; eexists; reflexivity).
    assert (Hf : forall f, f = 7%positive ∨ f = 8%positive ->
                is_Some (storedFlags sched_loop_task !! f))
      by (intros f [->| ->]; eexists; reflexivity).
    destruct (Hhyp sched_loop_task eq_refl eq_refl eq_refl eq_refl Hc Hf)
      as (H1 & H2 & H3 & H4 & H5).
    exact (FiberStart_iter_priority 10%nat sched_loop_task 0 loop_tls eq_refl H1 H2 H3 H4 H5).
Defined.

(** ** C3: AddTask for each task, and AddTasks *)

Lemma Store_ok c v cnt s :
  counters s !! c = Some cnt -> 0 <= v < uint_modulus ->
  Store c v s = Ok tt (set_counters (<[c := mkCounter v (m_waitingFibers cnt)]> (counters s)) s) [].
Proof.
  intros Hc Hv. unfold Store.
  rewrite (bind_ok _ _ _ _ _ (counter_at_ok _ _ _ Hc)).
  by rewrite Z.mod_small.
Qed.

Lemma one_is_uint : 0 <= 1 < uint_modulus.
Proof. unfold uint_modulus. lia. Qed.

Lemma AddTask_ok tid task c s idx tls cnt :
  worker tid s idx tls -> counters s !! c = Some cnt ->
  AddTask tid task (Some c) s =
  Ok tt (set_counters (<[c := mkCounter 1 (m_waitingFibers cnt)]> (counters s))
           (enqueue idx tls [bundle_with (Some c) task] s)) [].
Proof.
  intros (Hg & Hidx & Htls) Hc. unfold AddTask.
  rewrite (bind_ok _ _ _ _ _ (Store_ok _ _ _ _ Hc one_is_uint)).
  rewrite (bind_ok _ _ _ _ _ (gets_ok _ _)).
  change (GetCurrentThreadIndex tid (set_counters _ s)) with (GetCurrentThreadIndex tid s).
  rewrite Hg.
  erewrite tls_update_ok; [reflexivity|done|exact Htls].
Qed.

Lemma AddTask_each_ok tid c idx rest : forall task s tls cnt,
  worker tid s idx tls -> counters s !! c = Some cnt ->
  AddTask_each tid (task :: rest) (Some c) s =
  Ok tt (set_counters (<[c := mkCounter 1 (m_waitingFibers cnt)]> (counters s))
           (enqueue idx tls (map (bundle_with (Some c)) (task :: rest)) s)) [].
Proof.
  induction rest as [|task' rest IH]; intros task s tls cnt Hw Hc.
  - simpl AddTask_each. rewrite (bind_ok _ _ _ _ _ (AddTask_ok _ _ _ _ _ _ _ Hw Hc)).
    done.
  - change (AddTask_each tid (task :: task' :: rest) (Some c))
      with (AddTask tid task (Some c);; AddTask_each tid (task' :: rest) (Some c)).
    rewrite (bind_ok _ _ _ _ _ (AddTask_ok _ _ _ _ _ _ _ Hw Hc)).
    set (tls1 := set_TaskQueue (TaskQueue tls ++ [bundle_with (Some c) task]) tls).
    set (s1 := set_counters _ _).
    rewrite (IH task' s1 tls1 (mkCounter 1 (m_waitingFibers cnt))).
    + f_equal. unfold s1. simpl counters. rewrite insert_insert_eq.
      destruct Hw as (_ & _ & Htls).
      unfold enqueue, with_tls, set_counters, set_tls. simpl.
      rewrite list_insert_insert_eq. by rewrite <- app_assoc.
    + destruct Hw as (Hg & Hidx & Htls). repeat split; [done..|].
      simpl. apply list_lookup_insert_eq. by eapply lookup_lt_Some.
    + simpl. apply lookup_insert_eq.
Qed.

Lemma AddTasks_loop_ok idx tasks counter rest : forall prefix s tls,
  tasks = prefix ++ rest ->
  0 <= idx -> m_tls s !! Z.to_nat idx = Some tls ->
  AddTasks_loop idx tasks counter (Z.of_nat (length prefix)) (length rest) s =
  Ok tt (enqueue idx tls (map (bundle_with counter) rest) s) [].
Proof.
  induction rest as [|task rest IH]; intros prefix s tls Htasks Hidx Htls.
  - simpl. unfold enqueue. rewrite app_nil_r.
    rewrite with_tls_same; [done|]. by destruct tls.
  - simpl AddTasks_loop.
    erewrite bind_ok; last first.
    { apply (array_get_ok _ _ task); [lia|].
      rewrite Nat2Z.id, Htasks. by rewrite list_lookup_middle. }
    rewrite (bind_ok _ _ _ _ _ (tls_update_ok idx _ tls _ Hidx Htls)).
    replace (Z.of_nat (length prefix) + 1) with (Z.of_nat (length (prefix ++ [task])))
      by (rewrite length_app; simpl; lia).
    set (tls1 := set_TaskQueue _ tls).
    rewrite (IH (prefix ++ [task]) (with_tls idx tls1 s) tls1).
    + f_equal. unfold enqueue, tls1. rewrite with_tls_twice.
      unfold Push, set_TaskQueue. simpl. by rewrite <- app_assoc.
    + by rewrite <- app_assoc.
    + done.
    + by eapply with_tls_lookup.
Qed.

Lemma AddTasks_ok tid tasks c s idx tls cnt :
  Z.of_nat (length tasks) < uint_modulus ->
  worker tid s idx tls -> counters s !! c = Some cnt ->
  AddTasks tid (Z.of_nat (length tasks)) tasks (Some c) s =
  Ok tt (set_counters
           (<[c := mkCounter (Z.of_nat (length tasks)) (m_waitingFibers cnt)]> (counters s))
           (enqueue idx tls (map (bundle_with (Some c)) tasks) s)) [].
Proof.
  intros Hn (Hg & Hidx & Htls) Hc. unfold AddTasks.
  erewrite bind_ok; [|apply (Store_ok _ _ cnt); [done|lia]].
  rewrite (bind_ok _ _ _ _ _ (gets_ok _ _)).
  change (GetCurrentThreadIndex tid (set_counters _ s)) with (GetCurrentThreadIndex tid s).
  rewrite Hg.
  erewrite bind_ok; [|by apply (tls_at_ok idx tls)].
  rewrite Nat2Z.id.
  by rewrite (AddTasks_loop_ok idx tasks (Some c) tasks [] _ tls).
Qed.

(** C3, as amended.  For a non-empty list of tasks and a counter C, one
    call of [AddTask] per task pushes the same bundles, in the same order,
    on the queue of the calling worker as one call of [AddTasks] for the
    whole list, and the two leave everything else but the value of C alike;
    but every [AddTask] stores 1 into C, so that C holds 1 after the
    separate calls, where it holds the number of tasks after [AddTasks]. *)
Theorem AddTask_each_vs_AddTasks tid tasks c s idx tls cnt :
  tasks ≠ [] ->
  Z.of_nat (length tasks) < uint_modulus ->
  worker tid s idx tls ->
  counters s !! c = Some cnt ->
  let queued := enqueue idx tls (map (bundle_with (Some c)) tasks) s in
  let holding v := set_counters (<[c := mkCounter v (m_waitingFibers cnt)]> (counters s)) queued in
  AddTasks tid (Z.of_nat (length tasks)) tasks (Some c) s
    = Ok tt (holding (Z.of_nat (length tasks))) []
  ∧ AddTask_each tid tasks (Some c) s = Ok tt (holding 1) [].
Proof.
  intros Hne Hn Hw Hc. cbv zeta. split.
  - by apply AddTasks_ok.
  - destruct tasks as [|task rest]; [done|]. by apply AddTask_each_ok.
Qed.

Lemma AddTask_each_vs_AddTasks_witness :
  AddTasks 10%nat 2 [task_a; task_b] (Some 1%positive) sched4
    = Ok tt (set_counters {[ 1%positive := mkCounter 2 [] ]}
               (enqueue 0 (fresh_tls 0)
                  [mkTaskBundle task_a (Some 1%positive);
                   mkTaskBundle task_b (Some 1%positive)] sched4)) []
  ∧ AddTask_each 10%nat [task_a; task_b] (Some 1%positive) sched4
    = Ok tt (set_counters {[ 1%positive := mkCounter 1 [] ]}
               (enqueue 0 (fresh_tls 0)
                  [mkTaskBundle task_a (Some 1%positive);
                   mkTaskBundle task_b (Some 1%positive)] sched4)) [].
Proof.
  apply (AddTask_each_vs_AddTasks 10%nat [task_a; task_b] 1%positive sched4 0
           (fresh_tls 0) (mkCounter 5 [])).
  - discriminate.
  - unfold uint_modulus. simpl. lia.
  - repeat split. done.
  - reflexivity.
Defined.

(** C3 fails as stated: after two calls of [AddTask] with the counter at
    address 1 the counter holds 1, after [AddTasks] with the same two tasks
    it holds 2, with the same bundles queued. *)
Lemma AddTask_each_counter_differs :
  counter_value 1%positive
    (res_state (AddTask_each 10%nat [task_a; task_b] (Some 1%positive) sched4)) = Some 1
  ∧ counter_value 1%positive
      (res_state (AddTasks 10%nat 2 [task_a; task_b] (Some 1%positive) sched4)) = Some 2
  ∧ m_tls (res_state (AddTask_each 10%nat [task_a; task_b] (Some 1%positive) sched4))
    = m_tls (res_state (AddTasks 10%nat 2 [task_a; task_b] (Some 1%positive) sched4))
  ∧ AddTask_each 10%nat [task_a; task_b] (Some 1%positive) sched4
    ≠ AddTasks 10%nat 2 [task_a; task_b] (Some 1%positive) sched4.
Proof.
  split; [reflexivity|]. split; [reflexivity|]. split; [reflexivity|].
  intros H.
  apply (f_equal (fun r => counter_value 1%positive (res_state r))) in H.
  vm_compute in H. discriminate.
Qed.

(** ** C8: AddTask called by a thread that is not a worker *)

Lemma find_thread_absent tid threads : forall i,
  tid ∉ threads -> find_thread tid threads i = FTL_INVALID_INDEX.
Proof.
  induction threads as [|t rest IH]; intros i Hnot; [done|].
  simpl. apply not_elem_of_cons in Hnot as [Hne Hrest].
  rewrite decide_False by done. by apply IH.
Qed.

Lemma sentinel_out_of_bounds s :
  wf_sched s -> Z.of_nat (length (m_tls s)) <= FTL_INVALID_INDEX.
Proof.
  intros (Hn & Hl & _). rewrite Hl.
  unfold FTL_INVALID_INDEX, size_t_modulus, uint_modulus in *. lia.
Qed.

Lemma tls_at_sentinel s :
  wf_sched s -> tls_at FTL_INVALID_INDEX s = Stuck OutOfBounds s [].
Proof.
  intros Hwf. unfold tls_at. rewrite (bind_ok _ _ _ _ _ (gets_ok _ _)).
  apply array_get_out. by apply sentinel_out_of_bounds.
Qed.

Lemma tls_update_sentinel f s :
  wf_sched s -> tls_update FTL_INVALID_INDEX f s = Stuck OutOfBounds s [].
Proof.
  intros Hwf. unfold tls_update. by rewrite (bind_stuck _ _ _ _ _ _ (tls_at_sentinel _ Hwf)).
Qed.

Lemma wf_sched_counters c s : wf_sched s -> wf_sched (set_counters c s).
Proof. done. Qed.

(** C8, as amended.  For a thread that is not a registered worker,
    [GetCurrentThreadIndex] returns the sentinel [FTL_INVALID_INDEX], which
    is not below [m_numThreads].  [AddTask] does not test for it: it
    enqueues nothing, but it first stores 1 into the counter when one is
    given, and then indexes the array of thread-local storages with the
    sentinel, outside its bounds. *)
Theorem AddTask_outside_worker tid task s :
  wf_sched s ->
  tid ∉ take (Z.to_nat (m_numThreads s)) (m_threads s) ->
  GetCurrentThreadIndex tid s = FTL_INVALID_INDEX
  ∧ m_numThreads s <= FTL_INVALID_INDEX
  ∧ AddTask tid task None s = Stuck OutOfBounds s []
  ∧ forall c cnt, counters s !! c = Some cnt ->
      AddTask tid task (Some c) s = Stuck OutOfBounds (with_counter_value c 1 s) [].
Proof.
  intros Hwf Hnot.
  assert (Hg : GetCurrentThreadIndex tid s = FTL_INVALID_INDEX)
    by (by apply find_thread_absent).
  split; [done|]. split.
  { pose proof (sentinel_out_of_bounds s Hwf) as H.
    destruct Hwf as (Hn & Hl & _). lia. }
  split.
  - unfold AddTask. erewrite bind_ok; [|reflexivity].
    rewrite (bind_ok _ _ _ _ _ (gets_ok _ _)), Hg.
    by apply tls_update_sentinel.
  - intros c cnt Hc. unfold AddTask.
    rewrite (bind_ok _ _ _ _ _ (Store_ok _ _ _ _ Hc one_is_uint)).
    rewrite (bind_ok _ _ _ _ _ (gets_ok _ _)).
    change (GetCurrentThreadIndex tid (set_counters _ s)) with (GetCurrentThreadIndex tid s).
    rewrite Hg. unfold with_counter_value. rewrite Hc.
    apply tls_update_sentinel. by apply wf_sched_counters.
Qed.

Lemma AddTask_outside_worker_witness :
  GetCurrentThreadIndex 99%nat sched4 = FTL_INVALID_INDEX
  ∧ m_numThreads sched4 <= FTL_INVALID_INDEX
  ∧ AddTask 99%nat task_a None sched4 = Stuck OutOfBounds sched4 []
  ∧ forall c cnt, counters sched4 !! c = Some cnt ->
      AddTask 99%nat task_a (Some c) sched4
      = Stuck OutOfBounds (with_counter_value c 1 sched4) [].
Proof.
  apply (AddTask_outside_worker 99%nat task_a sched4).
  - unfold wf_sched, uint_modulus. simpl. repeat split; lia.
  - simpl. intros H. repeat (apply elem_of_cons in H as [H|H]; [discriminate|]).
    by apply elem_of_nil in H.
Defined.

(** C8 fails as stated: the call from the unregistered thread 99 changes
    the counter at address 1 from 5 to 1 and then reads the array of
    thread-local storages outside its bounds. *)
Lemma AddTask_outside_worker_not_silent :
  GetCurrentThreadIndex 99%nat sched4 = FTL_INVALID_INDEX
  ∧ AddTask 99%nat task_a (Some 1%positive) sched4
    = Stuck OutOfBounds (with_counter_value 1%positive 1 sched4) []
  ∧ counter_value 1%positive sched4 = Some 5
  ∧ counter_value 1%positive
      (res_state (AddTask 99%nat task_a (Some 1%positive) sched4)) = Some 1
  ∧ AddTask 99%nat task_a (Some 1%positive) sched4 ≠ Ok tt sched4 [].
Proof. repeat split; try reflexivity. discriminate. Qed.

(** ** C2: the stores that release a fiber to the pool *)

(** *** Logs whose events all satisfy a predicate *)

Section Emits.
Context (P : Event -> Prop).

Lemma Emits_ret {A} (a : A) : Emits P (mret a).
Proof. intros s. constructor. Qed.

Lemma Emits_bind {A B} (m : M A) (k : A -> M B) :
  Emits P m -> (forall a, Emits P (k a)) -> Emits P (m ≫= k).
Proof.
  intros Hm Hk s. rewrite res_log_bind. specialize (Hm s).
  destruct (m s) as [a s1 l1|f s1 l1]; simpl in Hm; [|done].
  apply Forall_app. split; [done|apply Hk].
Qed.

Lemma Emits_gets {A} (f : TaskScheduler -> A) : Emits P (gets f).
Proof. intros s. constructor. Qed.

Lemma Emits_modify f : Emits P (modify f).
Proof. intros s. constructor. Qed.

Lemma Emits_fail {A} f : Emits P (@fail A f).
Proof. intros s. constructor. Qed.

Lemma Emits_emit e : P e -> Emits P (emit e).
Proof. intros He s. by repeat constructor. Qed.

Lemma Emits_array_get {A} (l : list A) i : Emits P (array_get l i).
Proof.
  unfold array_get. destruct (in_range _ _); [|apply Emits_fail].
  destruct (l !! _); [apply Emits_ret|apply Emits_fail].
Qed.

Lemma Emits_counter_at c : Emits P (counter_at c).
Proof. intros s. unfold counter_at. destruct (counters s !! c); constructor. Qed.

Lemma Emits_impl {A} (Q : Event -> Prop) (m : M A) :
  (forall e, Q e -> P e) -> Emits Q m -> Emits P m.
Proof. intros HQ Hm s. eapply Forall_impl; [apply Hm|done]. Qed.
End Emits.

Lemma silent_no_release {A} (m : M A) : Emits silent m -> Emits no_release m.
Proof. apply Emits_impl. by intros e [H _]. Qed.

Create HintDb emits discriminated.

#[export] Hint Resolve Emits_ret Emits_gets Emits_modify Emits_fail Emits_array_get
  Emits_counter_at silent_no_release : emits.

(** Splits a computation along its binds and its case distinctions. *)
Ltac emits_step :=
  match goal with
  | |- Emits _ (_ ≫= _) => apply Emits_bind; [|intros ?]
  | |- Emits _ (match ?x with _ => _ end) => destruct x
  | |- Emits _ (emit _) => apply Emits_emit; try (split; intros []); try (intros [])
  | |- Emits _ _ => solve [eauto with emits]
  end.

Ltac emits := repeat emits_step.

(** *** Calls that neither release a fiber nor switch fibers *)

Lemma silent_tls_at i : Emits silent (tls_at i).
Proof. unfold tls_at. emits. Qed.
#[export] Hint Resolve silent_tls_at : emits.

Lemma silent_tls_update i f : Emits silent (tls_update i f).
Proof. unfold tls_update. emits. Qed.
#[export] Hint Resolve silent_tls_update : emits.

Lemma silent_counter_put c cnt : Emits silent (counter_put c cnt).
Proof. unfold counter_put. emits. Qed.
#[export] Hint Resolve silent_counter_put : emits.

Lemma silent_Load c : Emits silent (Load c).
Proof. unfold Load. emits. Qed.

Lemma silent_Store c v : Emits silent (Store c v).
Proof. unfold Store. emits. Qed.
#[export] Hint Resolve silent_Load silent_Store : emits.

Lemma silent_new_flag v : Emits silent (new_flag v).
Proof. intros s. repeat constructor; intros []. Qed.

Lemma silent_delete_flag site p : Emits silent (delete_flag site p).
Proof.
  intros s. unfold delete_flag. destruct (storedFlags s !! p); repeat constructor; intros [].
Qed.

Lemma silent_flag_load site p o : Emits silent (flag_load site p o).
Proof.
  intros s. unfold flag_load. destruct (storedFlags s !! p); repeat constructor; intros [].
Qed.

Lemma silent_flag_store site p v o : Emits silent (flag_store site p v o).
Proof.
  intros s. unfold flag_store. destruct p as [q|]; [|constructor].
  destruct (storedFlags s !! q); repeat constructor; intros [].
Qed.
#[export] Hint Resolve silent_new_flag silent_delete_flag silent_flag_load
  silent_flag_store : emits.

Lemma Forall_probe (l : list Event) : Forall is_probe l -> Forall silent l.
Proof.
  intros Hl. eapply Forall_impl; [exact Hl|].
  intros e He. destruct e; try done; split; intros [].
Qed.

Lemma silent_GetNextFreeFiberIndex : Emits silent GetNextFreeFiberIndex.
Proof.
  intros s. unfold GetNextFreeFiberIndex.
  pose proof (scan_free_probes (take (Z.to_nat (m_fiberPoolSize s)) (m_freeFibers s)) 0) as H.
  destruct (scan_free _ _) as [[r|] ev]; simpl in *; by apply Forall_probe.
Qed.
#[export] Hint Resolve silent_GetNextFreeFiberIndex : emits.

Lemma silent_AddTask tid task counter : Emits silent (AddTask tid task counter).
Proof. unfold AddTask. emits. Qed.

Lemma silent_AddTasks_loop idx tasks counter n : forall i,
  Emits silent (AddTasks_loop idx tasks counter i n).
Proof. induction n as [|n IH]; intros i; simpl; emits. Qed.
#[export] Hint Resolve silent_AddTasks_loop : emits.

Lemma silent_AddTasks tid n tasks counter : Emits silent (AddTasks tid n tasks counter).
Proof. unfold AddTasks. emits. Qed.

Lemma silent_steal_loop cur threadIndex n : forall i,
  Emits silent (steal_loop cur threadIndex i n).
Proof. induction n as [|n IH]; intros i; simpl; emits. Qed.
#[export] Hint Resolve silent_steal_loop : emits.

Lemma silent_GetNextTask tid : Emits silent (GetNextTask tid).
Proof. unfold GetNextTask. emits. Qed.
#[export] Hint Resolve silent_GetNextTask : emits.

Lemma silent_AddReadyFiber tid i f : Emits silent (AddReadyFiber tid i f).
Proof. unfold AddReadyFiber. emits. Qed.
#[export] Hint Resolve silent_AddReadyFiber : emits.

Lemma silent_CheckWaitingFibers tid value slots :
  Emits silent (CheckWaitingFibers tid value slots).
Proof. induction slots as [|slot rest IH]; simpl; emits. Qed.
#[export] Hint Resolve silent_CheckWaitingFibers : emits.

Lemma silent_FetchSub tid c n : Emits silent (FetchSub tid c n).
Proof. unfold FetchSub. emits. Qed.
#[export] Hint Resolve silent_FetchSub : emits.

Lemma silent_FiberStart_taskReturned tid b : Emits silent (FiberStart_taskReturned tid b).
Proof. unfold FiberStart_taskReturned. emits. Qed.

Lemma silent_AddFiberToWaitingList slots c i v f :
  Emits silent (AddFiberToWaitingList slots c i v f).
Proof. unfold AddFiberToWaitingList. emits. Qed.

#[export] Hint Resolve silent_AddTask silent_AddTasks silent_FiberStart_taskReturned
  silent_AddFiberToWaitingList : emits.

(** *** Calls that never release a fiber *)

Lemma quiet_switch_fibers a b : Emits no_release (switch_fibers a b).
Proof. unfold switch_fibers. emits. Qed.

Lemma quiet_switch_from_thread_fiber a b : Emits no_release (switch_from_thread_fiber a b).
Proof. unfold switch_from_thread_fiber. emits. Qed.

Lemma quiet_switch_to_thread_fiber a b : Emits no_release (switch_to_thread_fiber a b).
Proof. unfold switch_to_thread_fiber. emits. Qed.

#[export] Hint Resolve quiet_switch_fibers quiet_switch_from_thread_fiber
  quiet_switch_to_thread_fiber : emits.

Lemma quiet_ThreadStart index : Emits no_release (ThreadStart index).
Proof. unfold ThreadStart. emits. Qed.

Lemma quiet_MainFiberStart_mainTaskReturned tid :
  Emits no_release (MainFiberStart_mainTaskReturned tid).
Proof. unfold MainFiberStart_mainTaskReturned. emits. Qed.

Lemma quiet_scan_pinned idx all rest : forall i,
  Emits no_release (scan_pinned idx all i rest).
Proof. induction rest as [|b rest IH]; intros i; simpl; emits. Qed.

Lemma quiet_scan_ready idx all rest : forall i,
  Emits no_release (scan_ready idx all i rest).
Proof. induction rest as [|b rest IH]; intros i; simpl; emits. Qed.

#[export] Hint Resolve quiet_scan_pinned quiet_scan_ready : emits.

Lemma quiet_FiberStart_iter tid : Emits no_release (FiberStart_iter tid).
Proof. unfold FiberStart_iter. emits. Qed.

#[export] Hint Resolve quiet_ThreadStart quiet_MainFiberStart_mainTaskReturned
  quiet_FiberStart_iter : emits.

(** *** The release in CleanUpOldFiber *)

Lemma elem_of_log_bind {A B} (m : M A) (k : A -> M B) s e :
  e ∈ res_log ((m ≫= k) s) ->
  e ∈ res_log (m s) ∨ exists a s1 l1, m s = Ok a s1 l1 ∧ e ∈ res_log (k a s1).
Proof.
  rewrite res_log_bind. destruct (m s) as [a s1 l1|f s1 l1]; simpl; [|by left].
  intros [H|H]%elem_of_app; [by left|right; eauto].
Qed.

Lemma Emits_elem_of {A} P (m : M A) s e : Emits P m -> e ∈ res_log (m s) -> P e.
Proof. intros Hm He. specialize (Hm s). rewrite Forall_forall in Hm. by apply Hm. Qed.

Lemma silent_not_release {A} (m : M A) s site i o :
  Emits silent m -> EvFreeStore site i true o ∉ res_log (m s).
Proof. intros Hm He. destruct (Emits_elem_of _ _ _ _ Hm He) as [H _]. by apply H. Qed.

Lemma quiet_not_release {A} (m : M A) s site i o :
  Emits no_release m -> EvFreeStore site i true o ∉ res_log (m s).
Proof. intros Hm He. by apply (Emits_elem_of _ _ _ _ Hm He). Qed.

Lemma tls_at_inv i s t s1 l :
  tls_at i s = Ok t s1 l -> s1 = s ∧ l = [] ∧ m_tls s !! Z.to_nat i = Some t.
Proof.
  unfold tls_at. rewrite (bind_ok _ _ _ _ _ (gets_ok _ _)). unfold array_get.
  destruct (in_range _ _); [|done].
  destruct (m_tls s !! Z.to_nat i) as [x|] eqn:Hl; [|done].
  by intros [= -> -> <-].
Qed.

Lemma free_store_log site i v o s e :
  e ∈ res_log (free_store site i v o s) -> e = EvFreeStore site i v o.
Proof.
  unfold free_store. rewrite (bind_ok _ _ _ _ _ (gets_ok _ _)).
  rewrite res_log_bind. unfold array_get.
  destruct (in_range _ _); [|by intros ?%elem_of_nil].
  destruct (m_freeFibers s !! Z.to_nat i); [|by intros ?%elem_of_nil].
  simpl. by intros ?%list_elem_of_singleton.
Qed.

Lemma CleanUpOldFiber_release tid s site i o :
  EvFreeStore site i true o ∈ res_log (CleanUpOldFiber tid s) ->
  site = InCleanUpOldFiber ∧ o = Release ∧
  exists tls, m_tls s !! Z.to_nat (GetCurrentThreadIndex tid s) = Some tls ∧
              OldFiberDestination tls = ToPool ∧ OldFiberIndex tls = i.
Proof.
  unfold CleanUpOldFiber. rewrite (bind_ok _ _ _ _ _ (gets_ok _ _)).
  intros [H|(tls & s1 & l1 & Htls & H)]%elem_of_log_bind.
  { by apply silent_not_release in H; [|apply silent_tls_at]. }
  apply tls_at_inv in Htls as (-> & -> & Htls).
  destruct (OldFiberDestination tls) eqn:Hdest.
  - by apply elem_of_nil in H.
  - apply elem_of_log_bind in H as [H|(a & s2 & l2 & _ & H)].
    + apply free_store_log in H. injection H as -> -> ->.
      split; [done|]. split; [done|]. by exists tls.
    + by apply silent_not_release in H; [|apply silent_tls_update].
  - apply elem_of_log_bind in H as [H|(a & s2 & l2 & _ & H)].
    + by apply silent_not_release in H; [|apply silent_flag_store].
    + by apply silent_not_release in H; [|apply silent_tls_update].
Qed.

(** *** The release in WaitForCounter *)

Lemma silent_no_switch l : Forall silent l -> Forall (fun e => ¬ is_switch e) l.
Proof. intros H. eapply Forall_impl; [exact H|]. by intros e [_ He]. Qed.

Lemma silent_has_no_release l site i o : Forall silent l -> EvFreeStore site i true o ∉ l.
Proof.
  intros H Hin. rewrite Forall_forall in H. destruct (H _ Hin) as [Hr _]. by apply Hr.
Qed.

Lemma EmitsOnly_quiet {A} r (m : M A) : Emits no_release m -> EmitsOnly r m.
Proof. intros Hm s site i o Hin. by apply quiet_not_release in Hin. Qed.

Lemma EmitsOnly_bind {A B} r (m : M A) (k : A -> M B) :
  Emits silent m -> (forall a, EmitsOnly r (k a)) -> EmitsOnly r (m ≫= k).
Proof.
  intros Hm Hk s site i o. rewrite res_log_bind. specialize (Hm s).
  destruct (m s) as [a s1 l1|f s1 l1]; simpl in *.
  - intros [Hin|Hin]%elem_of_app; [by apply silent_has_no_release in Hin|].
    destruct (Hk a s1 site i o Hin) as (-> & -> & -> & Hsw).
    repeat split; [done..|]. apply Forall_app. split; [by apply silent_no_switch|done].
  - intros Hin. by apply silent_has_no_release in Hin.
Qed.

Lemma EmitsOnly_release r :
  EmitsOnly r (free_store InWaitForCounter r true Release;; mret WaitReturned).
Proof.
  intros s site i o Hin.
  assert (Hall : forall e, e ∈ res_log ((free_store InWaitForCounter r true Release;;
                                          mret WaitReturned) s) ->
                           e = EvFreeStore InWaitForCounter r true Release).
  { intros e [H|(a & s1 & l1 & _ & H)]%elem_of_log_bind.
    - by apply free_store_log in H.
    - by apply elem_of_nil in H. }
  pose proof (Hall _ Hin) as [= -> -> ->]. repeat split; [done..|].
  apply Forall_forall. intros e He. apply Hall in He as ->. intros [].
Qed.

Lemma EmitsOnly_parking slots (counter : CounterPtr) (value : Z) pin idx current r :
  EmitsOnly r
    (if (pin : bool) then
       tls_update idx (fun t =>
         set_PinnedTasks (PinnedTasks t ++ [mkPinned current counter value]) t);;
       switch_fibers current r;;
       mret (WaitSwitched current r)
     else
       fiberStoredFlag ← new_flag false;
       tls' ← tls_at idx;
       alreadyDone ← AddFiberToWaitingList slots counter (CurrentFiberIndex tls') value
                       fiberStoredFlag;
       if (alreadyDone : bool) then
         delete_flag InWaitForCounter fiberStoredFlag;;
         free_store InWaitForCounter r true Release;;
         mret WaitReturned
       else
         tls_update idx (fun t =>
           set_OldFiberStoredFlag (Some fiberStoredFlag)
             (set_OldFiberDestination ToWaiting
               (set_CurrentFiberIndex r (set_OldFiberIndex current t))));;
         switch_fibers current r;;
         mret (WaitSwitched current r)).
Proof.
  destruct pin.
  - apply EmitsOnly_quiet. emits.
  - apply EmitsOnly_bind; [apply silent_new_flag|intros flag].
    apply EmitsOnly_bind; [apply silent_tls_at|intros tls'].
    apply EmitsOnly_bind; [apply silent_AddFiberToWaitingList|intros [|]].
    + apply EmitsOnly_bind; [apply silent_delete_flag|intros _].
      apply EmitsOnly_release.
    + apply EmitsOnly_quiet. emits.
Qed.

Lemma GetNextFreeFiberIndex_inv s r s1 ev :
  GetNextFreeFiberIndex s = Ok r s1 ev ->
  Forall is_probe ev ∧ EvFreeCas r true false Release Relaxed ∈ ev.
Proof.
  unfold GetNextFreeFiberIndex.
  set (flags := take _ _).
  pose proof (scan_free_probes flags 0) as Hev.
  destruct (scan_free flags 0) as [[r'|] ev'] eqn:Hscan; [|done].
  intros [= -> _ ->]. split; [done|].
  destruct (scan_free_found flags 0 r) as (j & _ & _ & Hcas); [by rewrite Hscan|].
  by rewrite Hscan in Hcas.
Qed.

Lemma EmitsReserved_quiet {A} (m : M A) : Emits no_release m -> EmitsReserved m.
Proof. intros Hm s site i o Hin. by apply quiet_not_release in Hin. Qed.

Lemma EmitsReserved_bind {A B} (m : M A) (k : A -> M B) :
  Emits silent m -> (forall a, EmitsReserved (k a)) -> EmitsReserved (m ≫= k).
Proof.
  intros Hm Hk s site i o. rewrite res_log_bind. specialize (Hm s).
  destruct (m s) as [a s1 l1|f s1 l1]; simpl in *.
  - intros [Hin|Hin]%elem_of_app; [by apply silent_has_no_release in Hin|].
    destruct (Hk a s1 site i o Hin) as (-> & -> & Hcas & Hsw).
    repeat split; [done..| |].
    + apply elem_of_app. by right.
    + apply Forall_app. split; [by apply silent_no_switch|done].
  - intros Hin. by apply silent_has_no_release in Hin.
Qed.

Lemma EmitsReserved_reserve {A} (k : Z -> M A) :
  (forall r, EmitsOnly r (k r)) -> EmitsReserved (GetNextFreeFiberIndex ≫= k).
Proof.
  intros Hk s site i o. rewrite res_log_bind.
  pose proof (silent_GetNextFreeFiberIndex s) as Hsilent.
  destruct (GetNextFreeFiberIndex s) as [r s1 ev|f s1 ev] eqn:Hget; simpl in *.
  - apply GetNextFreeFiberIndex_inv in Hget as [_ Hcas].
    intros [Hin|Hin]%elem_of_app; [by apply silent_has_no_release in Hin|].
    destruct (Hk r s1 site i o Hin) as (-> & -> & -> & Hsw).
    repeat split; [done..| |].
    + apply elem_of_app. by left.
    + apply Forall_app. split; [by apply silent_no_switch|done].
  - intros Hin. by apply silent_has_no_release in Hin.
Qed.

Lemma WaitForCounter_release slots interference tid counter value pin :
  EmitsReserved (WaitForCounter_env slots interference tid counter value pin).
Proof.
  unfold WaitForCounter_env.
  apply EmitsReserved_bind; [apply silent_Load|intros loaded].
  destruct (loaded =? value).
  { apply EmitsReserved_quiet. emits. }
  apply EmitsReserved_bind; [apply Emits_modify|intros _].
  apply EmitsReserved_bind; [apply Emits_gets|intros idx].
  apply EmitsReserved_bind; [apply silent_tls_at|intros tls].
  apply EmitsReserved_reserve. intros r.
  apply EmitsOnly_parking.
Qed.

Lemma quiet_WaitForCounter_pinned slots interference tid counter value :
  Emits no_release (WaitForCounter_env slots interference tid counter value true).
Proof. unfold WaitForCounter_env. emits. Qed.

(** *** The two releases *)

(** C2, as amended.  In the log of any call into the scheduler code after
    its initialization, a store of true into a free-fiber flag has release
    ordering and is one of two: the store of [CleanUpOldFiber], in its
    [ToPool] case, into the flag of the fiber that [OldFiberIndex] of the
    calling thread names; or the store of an unpinned [WaitForCounter] into
    the flag of the replacement fiber that this same call has reserved, in
    a call that switches to no fiber.  No other code of the scheduler
    stores true into a free-fiber flag. *)
Theorem free_flag_release_sites slots call s site i o :
  EvFreeStore site i true o ∈ log_of slots call s ->
  o = Release ∧
  ((site = InCleanUpOldFiber ∧
    exists tid tls,
      cleanup_thread call = Some tid ∧
      m_tls s !! Z.to_nat (GetCurrentThreadIndex tid s) = Some tls ∧
      OldFiberDestination tls = ToPool ∧ OldFiberIndex tls = i)
   ∨
   (site = InWaitForCounter ∧
    (exists interference tid counter value,
      call = CallWaitForCounter interference tid counter value false) ∧
    EvFreeCas i true false Release Relaxed ∈ log_of slots call s ∧
    Forall (fun e => ¬ is_switch e) (log_of slots call s))).
Proof.
  assert (Hclean : forall tid,
    cleanup_thread call = Some tid ->
    EvFreeStore site i true o ∈ res_log (CleanUpOldFiber tid s) ->
    o = Release ∧
    ((site = InCleanUpOldFiber ∧
      exists tid tls,
        cleanup_thread call = Some tid ∧
        m_tls s !! Z.to_nat (GetCurrentThreadIndex tid s) = Some tls ∧
        OldFiberDestination tls = ToPool ∧ OldFiberIndex tls = i)
     ∨
     (site = InWaitForCounter ∧
      (exists interference tid counter value,
        call = CallWaitForCounter interference tid counter value false) ∧
      EvFreeCas i true false Release Relaxed ∈ log_of slots call s ∧
      Forall (fun e => ¬ is_switch e) (log_of slots call s)))).
  { intros tid Hcall (-> & -> & tls & Htls & Hdest & Hidx)%CleanUpOldFiber_release.
    split; [done|]. left. split; [done|]. by exists tid, tls. }
  destruct call as [index|tid|tid|tid|tid|tid b|tid task counter|tid n tasks counter|tid
                    | |tid|tid fi fl|interference tid counter value pin|tid];
    simpl log_of; intros Hin;
    try (by eapply Hclean);
    try solve [exfalso; revert Hin; apply quiet_not_release; eauto with emits].
  destruct (WaitForCounter_release slots interference tid counter value pin
              s site i o Hin) as (-> & -> & Hcas & Hsw).
  split; [done|]. right. split; [done|]. split; [|done].
  destruct pin; [|by eauto].
  exfalso. revert Hin. apply quiet_not_release, quiet_WaitForCounter_pinned.
Qed.

Lemma free_flag_release_sites_witness :
  Release = Release ∧
  ((InWaitForCounter = InCleanUpOldFiber ∧
    exists tid tls,
      cleanup_thread (CallWaitForCounter counter_reaches_zero 10%nat 1%positive 0 false)
        = Some tid ∧
      m_tls sched4 !! Z.to_nat (GetCurrentThreadIndex tid sched4) = Some tls ∧
      OldFiberDestination tls = ToPool ∧ OldFiberIndex tls = 1)
   ∨
   (InWaitForCounter = InWaitForCounter ∧
    (exists interference tid counter value,
      CallWaitForCounter counter_reaches_zero 10%nat 1%positive 0 false
      = CallWaitForCounter interference tid counter value false) ∧
    EvFreeCas 1 true false Release Relaxed ∈
      log_of 4 (CallWaitForCounter counter_reaches_zero 10%nat 1%positive 0 false) sched4 ∧
    Forall (fun e => ¬ is_switch e)
      (log_of 4 (CallWaitForCounter counter_reaches_zero 10%nat 1%positive 0 false) sched4))).
Proof.
  apply (free_flag_release_sites 4
           (CallWaitForCounter counter_reaches_zero 10%nat 1%positive 0 false) sched4).
  vm_compute. repeat constructor.
Defined.

(** C2 fails as stated: the call of [WaitForCounter] that finds its counter
    reached while it parks stores true into the free flag of fiber 1, and
    it is not a call of [CleanUpOldFiber]. *)
Lemma WaitForCounter_releases_replacement :
  EvFreeStore InWaitForCounter 1 true Release ∈
    log_of 4 (CallWaitForCounter counter_reaches_zero 10%nat 1%positive 0 false) sched4
  ∧ cleanup_thread (CallWaitForCounter counter_reaches_zero 10%nat 1%positive 0 false) = None.
Proof. split; [|reflexivity]. vm_compute. repeat constructor. Qed.

(** ** C1: CurrentFiberIndex across the pinned park *)

(** The pinned park of a worker with a free fiber at hand: the fiber is
    appended to the pinned list and the replacement is switched to, with
    [CurrentFiberIndex] as it was. *)
Lemma WaitForCounter_pinned_park slots tid counter value s cnt idx tls (i : nat) :
  counters s !! counter = Some cnt ->
  m_value cnt ≠ value ->
  worker tid s idx tls ->
  is_fiber s (CurrentFiberIndex tls) ->
  (i < Z.to_nat (m_fiberPoolSize s))%nat ->
  m_freeFibers s !! i = Some true ->
  exists (replacement : nat) probes,
    let current := CurrentFiberIndex tls in
    let parked :=
      set_PinnedTasks (PinnedTasks tls ++ [mkPinned current counter value]) tls in
    WaitForCounter slots tid counter value true s
      = Ok (WaitSwitched current (Z.of_nat replacement))
           (with_tls idx parked
              (set_freeFibers (<[replacement := false]> (m_freeFibers s)) s))
           (probes ++ [EvSwitch (PoolFiber current) (PoolFiber (Z.of_nat replacement))])
    ∧ m_freeFibers s !! replacement = Some true
    ∧ CurrentFiberIndex parked = current.
Proof.
  intros Hc Hmiss (Hg & Hidx & Htls) Hcur Hi Hfree.
  destruct (GetNextFreeFiberIndex_ok _ _ Hi Hfree) as (j & ev & Hget & Hj & Hjlt & _ & _).
  exists j, ev. cbv zeta. split; [|done].
  unfold WaitForCounter, WaitForCounter_env.
  rewrite (bind_ok _ _ _ _ _ (Load_ok _ _ _ Hc)).
  replace (m_value cnt =? value) with false by (symmetry; by apply Z.eqb_neq).
  erewrite bind_ok; [|reflexivity].
  rewrite (bind_ok _ _ _ _ _ (gets_ok _ _)), Hg.
  rewrite (bind_ok _ _ _ _ _ (tls_at_ok _ _ _ Hidx Htls)).
  rewrite (bind_ok_log _ _ _ _ _ _ Hget). cbv iota.
  set (s1 := set_freeFibers _ s).
  rewrite (bind_ok _ _ _ _ _ (tls_update_ok idx _ tls s1 Hidx Htls)).
  erewrite bind_ok_log; last first.
  { apply switch_fibers_ok; [done|]. split; simpl; lia. }
  done.
Qed.

(** C1, on the code.  Worker 0 runs fiber 0 and calls [WaitForCounter] with
    [pinToCurrentThread] set, for a counter that is not at its target.  The
    call reserves fiber 1 and switches to it, but leaves [CurrentFiberIndex]
    at 0, where the unpinned call sets it to 1: after the switch the
    thread runs fiber 1 and [CurrentFiberIndex] names the parked fiber 0.
    When the counter is reached, the fiber loop on fiber 1 takes the stale
    index for the fiber it leaves: it switches "from fiber 0 to fiber 0",
    and the cleanup of the resumed fiber 0 stores true into the free flag
    of fiber 0, the fiber that is running, while the flag of fiber 1 is
    never set again. *)
Theorem WaitForCounter_pinned_stale_CurrentFiberIndex :
  WaitForCounter 4 10%nat 1%positive 0 true sched4
    = Ok (WaitSwitched 0 1) sched4_pinned
         [EvFreeLoad 0 Relaxed false; EvFreeLoad 1 Relaxed true;
          EvFreeLoad 1 Acquire true; EvFreeCas 1 true false Release Relaxed;
          EvSwitch (PoolFiber 0) (PoolFiber 1)]
  ∧ current_fiber 0 sched4 = Some 0
  ∧ current_fiber 0 sched4_pinned = Some 0
  ∧ current_fiber 0 sched4_unpinned = Some 1
  ∧ FiberStart_iter 10%nat (counter_reaches_zero sched4_pinned)
    = Ok (LoopResumed 0 0) sched4_pinned_resumed [EvSwitch (PoolFiber 0) (PoolFiber 0)]
  ∧ WaitForCounter_resumed 10%nat sched4_pinned_resumed
    = Ok tt (set_freeFibers [true; false; false; false; false; true]
               (with_tls 0 (set_PinnedTasks [] (fresh_tls 0)) (counter_reaches_zero sched4)))
         [EvFreeStore InCleanUpOldFiber 0 true Release].
Proof. repeat split; vm_compute; reflexivity. Qed.

(** ** C7: the steal scan *)

(** The own queue comes first: a successful pop is the result, and no
    other worker is touched. *)
Lemma GetNextTask_own_queue tid s idx tls b q' :
  worker tid s idx tls ->
  Pop (TaskQueue tls) = Some (b, q') ->
  GetNextTask tid s = Ok (Some b) (with_tls idx (set_TaskQueue q' tls) s) [].
Proof.
  intros (Hg & Hidx & Htls) Hpop. unfold GetNextTask.
  rewrite (bind_ok _ _ _ _ _ (gets_ok _ _)), Hg.
  rewrite (bind_ok _ _ _ _ _ (tls_at_ok _ _ _ Hidx Htls)), Hpop.
  by rewrite (bind_ok _ _ _ _ _ (tls_update_ok idx _ tls s Hidx Htls)).
Qed.

Lemma steal_loop_all_empty cur threadIndex s n :
  0 < m_numThreads s ->
  length (m_tls s) = Z.to_nat (m_numThreads s) ->
  Forall (fun t => TaskQueue t = []) (m_tls s) ->
  forall i, steal_loop cur threadIndex i n s = Ok None s [].
Proof.
  intros Hn Hlen Hempty. induction n as [|n IH]; intros i; [done|].
  simpl steal_loop. rewrite (bind_ok _ _ _ _ _ (gets_ok _ _)).
  set (victim := ((threadIndex + i) `mod` size_t_modulus) `mod` m_numThreads s).
  destruct (victim =? cur); [apply IH|].
  assert (Hv : 0 <= victim < m_numThreads s) by (apply Z.mod_pos_bound; lia).
  destruct (lookup_lt_is_Some_2 (m_tls s) (Z.to_nat victim)) as [t Ht]; [lia|].
  rewrite (bind_ok _ _ _ _ _ (tls_at_ok _ _ _ (proj1 Hv) Ht)).
  rewrite Forall_lookup in Hempty. rewrite (Hempty _ _ Ht). simpl. apply IH.
Qed.

(** When every queue is empty the result is false and nothing changes. *)
Lemma GetNextTask_all_empty tid s idx tls :
  worker tid s idx tls ->
  0 < m_numThreads s ->
  length (m_tls s) = Z.to_nat (m_numThreads s) ->
  Forall (fun t => TaskQueue t = []) (m_tls s) ->
  GetNextTask tid s = Ok None s [].
Proof.
  intros (Hg & Hidx & Htls) Hn Hlen Hempty. unfold GetNextTask.
  rewrite (bind_ok _ _ _ _ _ (gets_ok _ _)), Hg.
  rewrite (bind_ok _ _ _ _ _ (tls_at_ok _ _ _ Hidx Htls)).
  rewrite Forall_lookup in Hempty. rewrite (Hempty _ _ Htls). simpl.
  rewrite (bind_ok _ _ _ _ _ (gets_ok _ _)).
  apply steal_loop_all_empty; [done..|]. by apply Forall_lookup.
Qed.

(** A steal that succeeds in round [i] stores [i], whatever the victim. *)
Lemma steal_loop_steals cur threadIndex i n s t b q' tls :
  let victim := ((threadIndex + i) `mod` size_t_modulus) `mod` m_numThreads s in
  victim ≠ cur ->
  0 <= victim -> m_tls s !! Z.to_nat victim = Some t ->
  TaskQueue t = b :: q' ->
  0 <= cur -> m_tls s !! Z.to_nat cur = Some tls ->
  steal_loop cur threadIndex i (S n) s =
  Ok (Some b)
     (with_tls cur (set_LastSuccessfulSteal i tls)
        (with_tls victim (set_TaskQueue q' t) s)) [].
Proof.
  intros victim Hne Hv Ht Hq Hcur Htls. simpl steal_loop.
  rewrite (bind_ok _ _ _ _ _ (gets_ok _ _)). fold victim.
  replace (victim =? cur) with false by (symmetry; by apply Z.eqb_neq).
  rewrite (bind_ok _ _ _ _ _ (tls_at_ok _ _ _ Hv Ht)), Hq. simpl.
  rewrite (bind_ok _ _ _ _ _ (tls_update_ok victim _ t s Hv Ht)).
  erewrite bind_ok; [done|].
  apply tls_update_ok; [done|]. simpl.
  rewrite list_lookup_insert_ne; [done|]. lia.
Qed.

(** C7, on the code.  Worker 0 of four has an empty queue and
    [LastSuccessfulSteal] 1; only worker 3 has tasks.  [GetNextTask] probes
    the workers 1, 2 and 3, steals from worker 3 in round 2 of its loop and
    stores the round, 2, into [LastSuccessfulSteal], not the victim, 3.
    The next scan therefore starts at worker 2: when worker 2 has pushed a
    task in between, it is that task that is stolen, while the victim of
    the last steal still has one. *)
Theorem GetNextTask_stores_offset :
  GetNextTask 10%nat sched_steal
    = Ok (Some (mkTaskBundle task_a None))
         (with_tls 0 (set_LastSuccessfulSteal 2 (fresh_tls 0))
            (with_tls 3 (set_TaskQueue [mkTaskBundle task_b None] (fresh_tls 4)) sched_steal))
         []
  ∧ last_successful_steal 0 sched_steal = Some 1
  ∧ last_successful_steal 0 (res_state (GetNextTask 10%nat sched_steal)) = Some 2
  ∧ queue_of 2 (res_state (GetNextTask 10%nat sched_steal)) = Some []
  ∧ queue_of 3 (res_state (GetNextTask 10%nat sched_steal))
    = Some [mkTaskBundle task_b None]
  ∧ GetNextTask 10%nat (worker2_pushes (res_state (GetNextTask 10%nat sched_steal)))
    = Ok (Some (mkTaskBundle (mkTask 3 0) None))
         (with_tls 0 (set_LastSuccessfulSteal 0 (fresh_tls 0))
            (with_tls 3 (set_TaskQueue [mkTaskBundle task_b None] (fresh_tls 4)) sched_steal))
         [].
Proof. repeat split; vm_compute; reflexivity. Qed.

(** ** C9: the memory order of the stored flag *)

(** C9, on the code.  [CleanUpOldFiber] in its [ToWaiting] case stores true
    into the stored flag with relaxed ordering, where its [ToPool] case
    stores into the free flag with release ordering; and the fiber loop
    reads the stored flag of a ready entry with relaxed ordering before it
    deletes the flag and switches to the fiber. *)
Theorem stored_flag_accesses_relaxed :
  CleanUpOldFiber 10%nat sched_parked
    = Ok tt (set_storedFlags {[ 7%positive := true ]}
               (with_tls 0 (mkTLS 5 FTL_INVALID_INDEX DestNone (Some 7%positive) [] [] [] 1)
                  sched_parked))
         [EvFlagStore InCleanUpOldFiber 7%positive true Relaxed]
  ∧ res_log (CleanUpOldFiber 10%nat sched_finished)
    = [EvFreeStore InCleanUpOldFiber 1 true Release]
  ∧ res_log (FiberStart_iter 10%nat sched_loop_ready)
    = [EvFlagLoad InFiberStart 7%positive Relaxed false;
       EvFlagLoad InFiberStart 8%positive Relaxed true;
       EvFlagDelete InFiberStart 8%positive;
       EvSwitch (PoolFiber 0) (PoolFiber 3)].
Proof. repeat split; vm_compute; reflexivity. Qed.

(** * Further properties of the scheduler *)

(** ** GetCurrentThreadIndex *)

Lemma find_thread_first tid threads : forall i,
  ((tid ∉ threads) ∧ find_thread tid threads i = FTL_INVALID_INDEX) ∨
  (exists k : nat,
     find_thread tid threads i = i + Z.of_nat k ∧ threads !! k = Some tid ∧
     forall j : nat, (j < k)%nat -> threads !! j ≠ Some tid).
Proof.
  induction threads as [|t rest IH]; intros i.
  - left. split; [apply not_elem_of_nil|done].
  - simpl. destruct (decide (t = tid)) as [->|Hne].
    + right. exists 0%nat. split; [lia|]. split; [done|]. intros j Hj. lia.
    + destruct (IH (i + 1)) as [[Hnot Hr]|(k & Hr & Hk & Hfirst)].
      * left. split; [|done]. by apply not_elem_of_cons.
      * right. exists (S k). split; [lia|]. split; [done|].
        intros [|j] Hj; simpl; [congruence|]. apply Hfirst. lia.
Qed.

(** X1.  In a scheduler whose arrays have the sizes that [Run] gave them,
    [GetCurrentThreadIndex] returns [FTL_INVALID_INDEX] exactly for a
    thread that is not in [m_threads]; for a thread that is, it returns the
    first index that holds its handle, which is below [m_numThreads] and
    has a thread-local storage: the thread is a worker. *)
Theorem GetCurrentThreadIndex_first tid s :
  wf_sched s ->
  ((tid ∉ m_threads s) ∧ GetCurrentThreadIndex tid s = FTL_INVALID_INDEX) ∨
  (exists k : nat,
     GetCurrentThreadIndex tid s = Z.of_nat k ∧
     Z.of_nat k < m_numThreads s ∧
     m_threads s !! k = Some tid ∧
     (forall j : nat, (j < k)%nat -> m_threads s !! j ≠ Some tid) ∧
     exists tls, worker tid s (Z.of_nat k) tls).
Proof.
  intros (Hn & Htls & Hthreads & _). unfold GetCurrentThreadIndex.
  rewrite <- Hthreads, firstn_all.
  destruct (find_thread_first tid (m_threads s) 0) as [H|(k & Hr & Hk & Hfirst)];
    [by left|right].
  exists k. rewrite Z.add_0_l in Hr.
  pose proof (lookup_lt_Some _ _ _ Hk) as Hlt.
  split; [done|]. split; [lia|]. split; [done|]. split; [done|].
  destruct (lookup_lt_is_Some_2 (m_tls s) k) as [tls Ht]; [lia|].
  exists tls. unfold worker, GetCurrentThreadIndex.
  rewrite <- Hthreads, firstn_all, Hr, Nat2Z.id. split; [done|]. split; [lia|done].
Qed.

Lemma GetCurrentThreadIndex_first_witness :
  ((13%nat ∉ m_threads sched4) ∧ GetCurrentThreadIndex 13%nat sched4 = FTL_INVALID_INDEX) ∨
  (exists k : nat,
     GetCurrentThreadIndex 13%nat sched4 = Z.of_nat k ∧
     Z.of_nat k < m_numThreads sched4 ∧
     m_threads sched4 !! k = Some 13%nat ∧
     (forall j : nat, (j < k)%nat -> m_threads sched4 !! j ≠ Some 13%nat) ∧
     exists tls, worker 13%nat sched4 (Z.of_nat k) tls).
Proof.
  apply (GetCurrentThreadIndex_first 13%nat sched4).
  unfold wf_sched, uint_modulus. simpl. repeat split; lia.
Defined.

(** ** GetNextFreeFiberIndex *)

Lemma scan_free_first flags : forall i,
  match scan_free flags i with
  | (Some r, _) =>
      exists k : nat, r = i + Z.of_nat k ∧ flags !! k = Some true ∧
        forall j : nat, (j < k)%nat -> flags !! j = Some false
  | (None, _) => Forall (fun b => b = false) flags
  end.
Proof.
  induction flags as [|b rest IH]; intros i; simpl; [constructor|].
  destruct b; simpl.
  - exists 0%nat. split; [lia|]. split; [done|]. intros j Hj. lia.
  - specialize (IH (i + 1)). destruct (scan_free rest (i + 1)) as [[r|] ev]; simpl.
    + destruct IH as (k & -> & Hk & Hfirst). exists (S k).
      split; [lia|]. split; [done|]. intros [|j] Hj; simpl; [done|]. apply Hfirst. lia.
    + by constructor.
Qed.





(** ** What no call changes *)

Section Keeps.
Context (I : TaskScheduler -> Prop).

Lemma Keeps_ret {A} (a : A) : Keeps I (mret a).
Proof. by intros s. Qed.

Lemma Keeps_bind {A B} (m : M A) (k : A -> M B) :
  Keeps I m -> (forall a, Keeps I (k a)) -> Keeps I (m ≫= k).
Proof.
  intros Hm Hk s Hs. rewrite bind_unfold. specialize (Hm s Hs).
  destruct (m s) as [a s1 l1|f s1 l1]; simpl in Hm; [|done].
  specialize (Hk a s1 Hm). by destruct (k a s1).
Qed.

Lemma Keeps_gets {A} (f : TaskScheduler -> A) : Keeps I (gets f).
Proof. by intros s. Qed.

Lemma Keeps_fail {A} f : Keeps I (@fail A f).
Proof. by intros s. Qed.

Lemma Keeps_emit e : Keeps I (emit e).
Proof. by intros s. Qed.

Lemma Keeps_modify f : (forall s, I s -> I (f s)) -> Keeps I (modify f).
Proof. intros Hf s Hs. by apply Hf. Qed.

Lemma Keeps_array_get {A} (l : list A) i : Keeps I (array_get l i).
Proof.
  unfold array_get. destruct (in_range _ _); [|apply Keeps_fail].
  destruct (l !! _); [apply Keeps_ret|apply Keeps_fail].
Qed.

Lemma Keeps_counter_at c : Keeps I (counter_at c).
Proof. intros s Hs. unfold counter_at. by destruct (counters s !! c). Qed.
End Keeps.

Create HintDb keeps discriminated.

#[export] Hint Resolve Keeps_ret Keeps_gets Keeps_fail Keeps_emit Keeps_array_get
  Keeps_counter_at : keeps.

Ltac keeps_step :=
  match goal with
  | |- Keeps _ (_ ≫= _) => apply Keeps_bind; [|intros ?]
  | |- Keeps _ (match ?x with _ => _ end) => destruct x
  | |- Keeps _ _ => solve [eauto with keeps]
  end.

Ltac keeps := repeat keeps_step.

Lemma same_setup_refl s : same_setup s s.
Proof. by repeat split. Qed.

Lemma same_setup_trans s0 s1 s2 :
  same_setup s0 s1 -> same_setup s1 s2 -> same_setup s0 s2.
Proof.
  intros (H1 & H2 & H3 & H4 & H5 & H6 & H7 & H8) (K1 & K2 & K3 & K4 & K5 & K6 & K7 & K8).
  repeat split; try congruence. auto.
Qed.

Section Setup.
Context (s0 : TaskScheduler).

Lemma setup_tls_at i : Keeps (same_setup s0) (tls_at i).
Proof. unfold tls_at. keeps. Qed.
Hint Resolve setup_tls_at : keeps.

Lemma setup_tls_update i f : Keeps (same_setup s0) (tls_update i f).
Proof.
  unfold tls_update. keeps. apply Keeps_modify.
  intros s (H1 & H2 & H3 & H4 & H5 & H6 & H7 & H8).
  repeat split; try done. simpl. by rewrite length_insert.
Qed.

Lemma setup_counter_put c cnt : Keeps (same_setup s0) (counter_put c cnt).
Proof. unfold counter_put. by apply Keeps_modify. Qed.
Hint Resolve setup_tls_update setup_counter_put : keeps.

Lemma setup_Load c : Keeps (same_setup s0) (Load c).
Proof. unfold Load. keeps. Qed.

Lemma setup_Store c v : Keeps (same_setup s0) (Store c v).
Proof. unfold Store. keeps. Qed.

Lemma setup_new_flag v : Keeps (same_setup s0) (new_flag v).
Proof. by intros s Hs. Qed.

Lemma setup_delete_flag site p : Keeps (same_setup s0) (delete_flag site p).
Proof. intros s Hs. unfold delete_flag. by destruct (storedFlags s !! p). Qed.

Lemma setup_flag_load site p o : Keeps (same_setup s0) (flag_load site p o).
Proof. intros s Hs. unfold flag_load. by destruct (storedFlags s !! p). Qed.

Lemma setup_flag_store site p v o : Keeps (same_setup s0) (flag_store site p v o).
Proof.
  intros s Hs. unfold flag_store. destruct p as [q|]; [|done].
  by destruct (storedFlags s !! q).
Qed.

Lemma setup_free_store site i v o : Keeps (same_setup s0) (free_store site i v o).
Proof.
  unfold free_store. keeps. apply Keeps_modify.
  intros s (H1 & H2 & H3 & H4 & H5 & H6 & H7 & H8).
  repeat split; try done. simpl. by rewrite length_insert.
Qed.

Lemma setup_GetNextFreeFiberIndex : Keeps (same_setup s0) GetNextFreeFiberIndex.
Proof.
  intros s (H1 & H2 & H3 & H4 & H5 & H6 & H7 & H8). unfold GetNextFreeFiberIndex.
  destruct (scan_free _ _) as [[r|] ev]; simpl; repeat split; try done.
  simpl. by rewrite length_insert.
Qed.

Lemma setup_switch_fibers a b : Keeps (same_setup s0) (switch_fibers a b).
Proof. unfold switch_fibers. keeps. Qed.

Lemma setup_switch_from_thread_fiber a b :
  Keeps (same_setup s0) (switch_from_thread_fiber a b).
Proof. unfold switch_from_thread_fiber. keeps. Qed.

Lemma setup_switch_to_thread_fiber a b :
  Keeps (same_setup s0) (switch_to_thread_fiber a b).
Proof. unfold switch_to_thread_fiber. keeps. Qed.

Hint Resolve setup_Load setup_Store setup_new_flag setup_delete_flag setup_flag_load
  setup_flag_store setup_free_store setup_GetNextFreeFiberIndex setup_switch_fibers
  setup_switch_from_thread_fiber setup_switch_to_thread_fiber : keeps.

Lemma setup_AddTask tid task counter : Keeps (same_setup s0) (AddTask tid task counter).
Proof. unfold AddTask. keeps. Qed.

Lemma setup_AddTasks_loop idx tasks counter n : forall i,
  Keeps (same_setup s0) (AddTasks_loop idx tasks counter i n).
Proof. induction n as [|n IH]; intros i; simpl; keeps. Qed.
Hint Resolve setup_AddTasks_loop : keeps.

Lemma setup_AddTasks tid n tasks counter :
  Keeps (same_setup s0) (AddTasks tid n tasks counter).
Proof. unfold AddTasks. keeps. Qed.

Lemma setup_steal_loop cur threadIndex n : forall i,
  Keeps (same_setup s0) (steal_loop cur threadIndex i n).
Proof. induction n as [|n IH]; intros i; simpl; keeps. Qed.
Hint Resolve setup_steal_loop : keeps.

Lemma setup_GetNextTask tid : Keeps (same_setup s0) (GetNextTask tid).
Proof. unfold GetNextTask. keeps. Qed.

Lemma setup_ThreadStart index : Keeps (same_setup s0) (ThreadStart index).
Proof. unfold ThreadStart. keeps. Qed.

Lemma setup_MainFiberStart_mainTaskReturned tid :
  Keeps (same_setup s0) (MainFiberStart_mainTaskReturned tid).
Proof.
  unfold MainFiberStart_mainTaskReturned. keeps. apply Keeps_modify.
  intros s (H1 & H2 & H3 & H4 & H5 & H6 & H7 & H8). by repeat split.
Qed.

Lemma setup_CleanUpOldFiber tid : Keeps (same_setup s0) (CleanUpOldFiber tid).
Proof. unfold CleanUpOldFiber. keeps. Qed.

Lemma setup_AddReadyFiber tid i f : Keeps (same_setup s0) (AddReadyFiber tid i f).
Proof. unfold AddReadyFiber. keeps. Qed.
Hint Resolve setup_GetNextTask setup_AddReadyFiber : keeps.

Lemma setup_CheckWaitingFibers tid value slots :
  Keeps (same_setup s0) (CheckWaitingFibers tid value slots).
Proof. induction slots as [|slot rest IH]; simpl; keeps. Qed.
Hint Resolve setup_CheckWaitingFibers : keeps.

Lemma setup_FetchSub tid c n : Keeps (same_setup s0) (FetchSub tid c n).
Proof. unfold FetchSub. keeps. Qed.
Hint Resolve setup_FetchSub : keeps.

Lemma setup_FiberStart_taskReturned tid b :
  Keeps (same_setup s0) (FiberStart_taskReturned tid b).
Proof. unfold FiberStart_taskReturned. keeps. Qed.

Lemma setup_AddFiberToWaitingList slots c i v f :
  Keeps (same_setup s0) (AddFiberToWaitingList slots c i v f).
Proof. unfold AddFiberToWaitingList. keeps. Qed.
Hint Resolve setup_AddFiberToWaitingList : keeps.

Lemma setup_scan_pinned idx all rest : forall i,
  Keeps (same_setup s0) (scan_pinned idx all i rest).
Proof. induction rest as [|b rest IH]; intros i; simpl; keeps. Qed.

Lemma setup_scan_ready idx all rest : forall i,
  Keeps (same_setup s0) (scan_ready idx all i rest).
Proof. induction rest as [|b rest IH]; intros i; simpl; keeps. Qed.
Hint Resolve setup_scan_pinned setup_scan_ready : keeps.

Lemma setup_FiberStart_iter tid : Keeps (same_setup s0) (FiberStart_iter tid).
Proof. unfold FiberStart_iter. keeps. Qed.

Lemma setup_WaitForCounter_env slots interference tid c v pin :
  (forall s, same_setup s (interference s)) ->
  Keeps (same_setup s0) (WaitForCounter_env slots interference tid c v pin).
Proof.
  intros Hkeeps. unfold WaitForCounter_env. keeps.
  apply Keeps_modify. intros s Hs. eapply same_setup_trans; [exact Hs|apply Hkeeps].
Qed.
End Setup.

Lemma same_setup_wf s s' : same_setup s s' -> wf_sched s -> wf_sched s'.
Proof.
  intros (H1 & H2 & H3 & H4 & H5 & H6 & H7 & H8) (W1 & W2 & W3 & W4 & W5).
  unfold wf_sched. rewrite H1, H2, H3, H6, H7. done.
Qed.

Lemma same_setup_thread_index s s' tid :
  same_setup s s' -> GetCurrentThreadIndex tid s' = GetCurrentThreadIndex tid s.
Proof. intros (H1 & _ & H3 & _). unfold GetCurrentThreadIndex. by rewrite H1, H3. Qed.

(** X4.  No call into the scheduler changes what [Run] has set up: the
    sizes of the pool and of the arrays, the thread handles,
    [m_initialized] and the empty-queue behaviour stay, and [m_quit] is
    never reset, whether the call returns or not.  So the sizes stay
    consistent and every thread keeps its worker index. *)
Theorem setup_is_kept slots call s :
  interference_keeps_setup call ->
  let s' := state_after slots call s in
  same_setup s s' ∧
  (wf_sched s -> wf_sched s') ∧
  (forall tid, GetCurrentThreadIndex tid s' = GetCurrentThreadIndex tid s).
Proof.
  intros Hkeeps s'.
  assert (Hsetup : same_setup s s').
  { unfold s'. destruct call; simpl state_after;
    [ apply setup_ThreadStart | apply setup_MainFiberStart_mainTaskReturned
    | apply setup_CleanUpOldFiber | apply setup_FiberStart_iter
    | apply setup_CleanUpOldFiber | apply setup_FiberStart_taskReturned
    | apply setup_AddTask | apply setup_AddTasks | apply setup_GetNextTask
    | apply setup_GetNextFreeFiberIndex | apply setup_CleanUpOldFiber
    | apply setup_AddReadyFiber | apply setup_WaitForCounter_env; [exact Hkeeps|]
    | apply setup_CleanUpOldFiber ]; apply same_setup_refl. }
  split; [done|]. split; [by apply same_setup_wf|].
  intros tid. by apply same_setup_thread_index.
Qed.

Lemma setup_is_kept_witness :
  let s' := state_after 4 (CallWaitForCounter counter_reaches_zero 10%nat 1%positive 0 false)
              sched4 in
  same_setup sched4 s' ∧
  (wf_sched sched4 -> wf_sched s') ∧
  (forall tid, GetCurrentThreadIndex tid s' = GetCurrentThreadIndex tid sched4).
Proof.
  apply (setup_is_kept 4 (CallWaitForCounter counter_reaches_zero 10%nat 1%positive 0 false)
           sched4).
  intros s. unfold counter_reaches_zero, with_counter_value.
  case_match; by repeat split.
Defined.

(** ** Calls that return *)

Lemma bind_inv {A B} (m : M A) (k : A -> M B) s b s' l :
  (m ≫= k) s = Ok b s' l ->
  exists a s1 l1 l2, m s = Ok a s1 l1 ∧ k a s1 = Ok b s' l2 ∧ l = l1 ++ l2.
Proof.
  rewrite bind_unfold. destruct (m s) as [a s1 l1|]; [|done].
  destruct (k a s1) as [b' s2 l2|] eqn:Hk; [|done].
  intros [= -> -> <-]. by exists a, s1, l1, l2.
Qed.

Lemma in_range_inv i n : in_range i n = true -> 0 <= i ∧ (Z.to_nat i < n)%nat.
Proof.
  unfold in_range. intros [H1 H2]%andb_prop.
  apply Z.leb_le in H1. apply Z.ltb_lt in H2. lia.
Qed.

Lemma array_get_inv {A} (l : list A) i s x s1 log :
  array_get l i s = Ok x s1 log ->
  0 <= i ∧ l !! Z.to_nat i = Some x ∧ s1 = s ∧ log = [].
Proof.
  unfold array_get. destruct (in_range i (length l)) eqn:Hr; [|done].
  apply in_range_inv in Hr as [Hi _].
  destruct (l !! Z.to_nat i) as [y|]; [|done]. by intros [= -> -> <-].
Qed.

Lemma tls_at_Ok i s t s1 log :
  tls_at i s = Ok t s1 log ->
  0 <= i ∧ m_tls s !! Z.to_nat i = Some t ∧ s1 = s ∧ log = [].
Proof.
  unfold tls_at. rewrite (bind_ok _ _ _ _ _ (gets_ok _ _)). apply array_get_inv.
Qed.

Lemma tls_update_inv i f s u s1 log :
  tls_update i f s = Ok u s1 log ->
  exists t, 0 <= i ∧ m_tls s !! Z.to_nat i = Some t ∧ s1 = with_tls i (f t) s ∧ log = [].
Proof.
  unfold tls_update. intros (t & s0 & l1 & l2 & Ht & Hm & ->)%bind_inv.
  apply tls_at_Ok in Ht as (Hi & Hl & -> & ->).
  injection Hm as <- <-. by exists t.
Qed.

Lemma free_store_inv site i v o s u s1 log :
  free_store site i v o s = Ok u s1 log ->
  0 <= i ∧ (Z.to_nat i < length (m_freeFibers s))%nat ∧
  s1 = set_freeFibers (<[Z.to_nat i := v]> (m_freeFibers s)) s ∧
  log = [EvFreeStore site i v o].
Proof.
  unfold free_store. rewrite (bind_ok _ _ _ _ _ (gets_ok _ _)).
  intros (b & s0 & l1 & l2 & Hget & Hrest & ->)%bind_inv.
  apply array_get_inv in Hget as (Hi & Hl & -> & ->).
  apply lookup_lt_Some in Hl.
  erewrite bind_ok in Hrest; [|reflexivity]. by injection Hrest as <- <-.
Qed.

Lemma flag_store_inv site p v o s u s1 log :
  flag_store site p v o s = Ok u s1 log ->
  exists q, p = Some q ∧ is_Some (storedFlags s !! q) ∧
    s1 = set_storedFlags (<[q := v]> (storedFlags s)) s ∧
    log = [EvFlagStore site q v o].
Proof.
  unfold flag_store. destruct p as [q|]; [|done].
  destruct (storedFlags s !! q) eqn:Hq; [|done].
  intros [= <- <- <-]. exists q. by rewrite Hq.
Qed.

Lemma GetNextFreeFiberIndex_Ok s r s1 ev :
  GetNextFreeFiberIndex s = Ok r s1 ev ->
  exists k : nat, r = Z.of_nat k ∧ (k < length (m_freeFibers s))%nat ∧
    r < m_fiberPoolSize s ∧
    m_freeFibers s !! k = Some true ∧
    s1 = set_freeFibers (<[k := false]> (m_freeFibers s)) s.
Proof.
  unfold GetNextFreeFiberIndex.
  pose proof (scan_free_first (take (Z.to_nat (m_fiberPoolSize s)) (m_freeFibers s)) 0) as H.
  destruct (scan_free _ _) as [[r'|] ev']; [|done].
  destruct H as (k & -> & Hk & _). intros [= <- <- <-].
  apply lookup_take_Some in Hk as [Hk Hlt]. exists k.
  rewrite Z.add_0_l, Nat2Z.id. split; [done|]. split; [by eapply lookup_lt_Some|].
  split; [lia|done].
Qed.

(** ** CleanUpOldFiber *)

Lemma CleanUpOldFiber_ToPool tid s idx tls (k : nat) b :
  worker tid s idx tls ->
  OldFiberDestination tls = ToPool ->
  OldFiberIndex tls = Z.of_nat k ->
  m_freeFibers s !! k = Some b ->
  CleanUpOldFiber tid s =
  Ok tt (with_tls idx (cleaned_tls tls)
           (set_freeFibers (<[k := true]> (m_freeFibers s)) s))
     [EvFreeStore InCleanUpOldFiber (Z.of_nat k) true Release].
Proof.
  intros (Hg & Hidx & Htls) Hdest Hold Hk. unfold CleanUpOldFiber.
  rewrite (bind_ok _ _ _ _ _ (gets_ok _ _)), Hg.
  rewrite (bind_ok _ _ _ _ _ (tls_at_ok _ _ _ Hidx Htls)), Hdest, Hold.
  rewrite (bind_ok_log _ _ _ _ _ _ (free_store_ok _ _ _ _ _ _ Hk)).
  erewrite tls_update_ok; [done|done|exact Htls].
Qed.

Lemma CleanUpOldFiber_ToWaiting tid s idx tls flag b :
  worker tid s idx tls ->
  OldFiberDestination tls = ToWaiting ->
  OldFiberStoredFlag tls = Some flag ->
  storedFlags s !! flag = Some b ->
  CleanUpOldFiber tid s =
  Ok tt (with_tls idx (cleaned_tls tls)
           (set_storedFlags (<[flag := true]> (storedFlags s)) s))
     [EvFlagStore InCleanUpOldFiber flag true Relaxed].
Proof.
  intros (Hg & Hidx & Htls) Hdest Hflag Hb. unfold CleanUpOldFiber.
  rewrite (bind_ok _ _ _ _ _ (gets_ok _ _)), Hg.
  rewrite (bind_ok _ _ _ _ _ (tls_at_ok _ _ _ Hidx Htls)), Hdest, Hflag.
  erewrite bind_ok_log; last first.
  { unfold flag_store. by rewrite Hb. }
  erewrite tls_update_ok; [done|done|exact Htls].
Qed.

Lemma CleanUpOldFiber_nothing tid s idx tls :
  worker tid s idx tls ->
  OldFiberDestination tls = DestNone ->
  CleanUpOldFiber tid s = Ok tt s [].
Proof.
  intros (Hg & Hidx & Htls) Hdest. unfold CleanUpOldFiber.
  rewrite (bind_ok _ _ _ _ _ (gets_ok _ _)), Hg.
  by rewrite (bind_ok _ _ _ _ _ (tls_at_ok _ _ _ Hidx Htls)), Hdest.
Qed.

(** X5.  [CleanUpOldFiber] does its work once: called again on the
    scheduler that it left, it changes nothing and makes no atomic
    access. *)
Theorem CleanUpOldFiber_idempotent tid s s' log :
  CleanUpOldFiber tid s = Ok tt s' log ->
  CleanUpOldFiber tid s' = Ok tt s' [].
Proof.
  intros Hrun. pose proof Hrun as Hinv. unfold CleanUpOldFiber in Hinv.
  rewrite (bind_ok _ _ _ _ _ (gets_ok _ _)) in Hinv.
  apply bind_inv in Hinv as (tls & s0 & l1 & l2 & Htls & Hrest & ->).
  apply tls_at_Ok in Htls as (Hidx & Htls & -> & ->).
  assert (Hsame : GetCurrentThreadIndex tid s' = GetCurrentThreadIndex tid s).
  { apply same_setup_thread_index.
    change s' with (res_state (Ok tt s' (@nil Event ++ l2))). rewrite <- Hrun.
    apply setup_CleanUpOldFiber, same_setup_refl. }
  destruct (OldFiberDestination tls) eqn:Hdest.
  - injection Hrest as <- <-.
    by apply (CleanUpOldFiber_nothing tid s (GetCurrentThreadIndex tid s) tls).
  - apply bind_inv in Hrest as (u & s1 & l3 & l4 & Hfree & Hupd & ->).
    apply free_store_inv in Hfree as (_ & _ & -> & ->).
    apply tls_update_inv in Hupd as (t & _ & Ht & -> & ->).
    apply (CleanUpOldFiber_nothing tid _ (GetCurrentThreadIndex tid s) (cleaned_tls t));
      [|done].
    split; [exact Hsame|]. split; [done|]. by eapply with_tls_lookup.
  - apply bind_inv in Hrest as (u & s1 & l3 & l4 & Hflag & Hupd & ->).
    apply flag_store_inv in Hflag as (q & _ & _ & -> & ->).
    apply tls_update_inv in Hupd as (t & _ & Ht & -> & ->).
    apply (CleanUpOldFiber_nothing tid _ (GetCurrentThreadIndex tid s) (cleaned_tls t));
      [|done].
    split; [exact Hsame|]. split; [done|]. by eapply with_tls_lookup.
Qed.

Lemma CleanUpOldFiber_idempotent_witness :
  CleanUpOldFiber 10%nat (res_state (CleanUpOldFiber 10%nat sched_parked))
  = Ok tt (res_state (CleanUpOldFiber 10%nat sched_parked)) [].
Proof.
  eapply (CleanUpOldFiber_idempotent 10%nat sched_parked). reflexivity.
Defined.

(** ** The fiber loop resumes a fiber *)

Lemma runs_fiber_tls_update k c i f :
  (forall t, CurrentFiberIndex (f t) = CurrentFiberIndex t) ->
  Keeps (runs_fiber k c) (tls_update i f).
Proof.
  intros Hf s Hs. destruct (tls_update i f s) as [u s1 l|] eqn:Hupd; [|simpl].
  - apply tls_update_inv in Hupd as (t & Hi & Ht & -> & ->). simpl.
    unfold runs_fiber, current_fiber, with_tls in *. simpl.
    destruct (decide (k = Z.to_nat i)) as [->|Hne].
    + rewrite list_lookup_insert_eq by (by eapply lookup_lt_Some).
      rewrite Ht in Hs. simpl in *. by rewrite Hf.
    + by rewrite list_lookup_insert_ne.
  - unfold tls_update in Hupd. rewrite bind_unfold in Hupd.
    destruct (tls_at i s) as [t s1 l|f' s1 l] eqn:Ht; [done|].
    injection Hupd as <- <- <-.
    unfold tls_at in Ht. rewrite (bind_ok _ _ _ _ _ (gets_ok _ _)) in Ht.
    unfold array_get in Ht. destruct (in_range _ _); [|by injection Ht as <- <- <-].
    destruct (m_tls s !! _); [done|by injection Ht as <- <- <-].
Qed.

Lemma runs_fiber_Load k c p : Keeps (runs_fiber k c) (Load p).
Proof. unfold Load. keeps. Qed.

Lemma runs_fiber_flag_load k c site p o : Keeps (runs_fiber k c) (flag_load site p o).
Proof. intros s Hs. unfold flag_load. by destruct (storedFlags s !! p). Qed.

Lemma runs_fiber_delete_flag k c site p : Keeps (runs_fiber k c) (delete_flag site p).
Proof. intros s Hs. unfold delete_flag. by destruct (storedFlags s !! p). Qed.

Lemma runs_fiber_scan_pinned k c idx all rest : forall i,
  Keeps (runs_fiber k c) (scan_pinned idx all i rest).
Proof.
  induction rest as [|b rest IH]; intros i; simpl; [apply Keeps_ret|].
  apply Keeps_bind; [apply runs_fiber_Load|intros loaded].
  destruct (loaded =? _); [|apply IH].
  apply Keeps_bind; [by apply runs_fiber_tls_update|intros _; apply Keeps_ret].
Qed.

Lemma runs_fiber_scan_ready k c idx all rest : forall i,
  Keeps (runs_fiber k c) (scan_ready idx all i rest).
Proof.
  induction rest as [|b rest IH]; intros i; simpl; [apply Keeps_ret|].
  apply Keeps_bind; [apply runs_fiber_flag_load|intros stored].
  destruct (negb stored); [apply IH|].
  apply Keeps_bind; [apply runs_fiber_delete_flag|intros _].
  apply Keeps_bind; [by apply runs_fiber_tls_update|intros _; apply Keeps_ret].
Qed.

Lemma Keeps_Ok {A} I (m : M A) s a s1 l : Keeps I m -> I s -> m s = Ok a s1 l -> I s1.
Proof. intros Hm Hs Hrun. specialize (Hm s Hs). by rewrite Hrun in Hm. Qed.

Lemma switch_fibers_inv a b s u s1 l :
  switch_fibers a b s = Ok u s1 l ->
  is_fiber s a ∧ is_fiber s b ∧ s1 = s ∧ l = [EvSwitch (PoolFiber a) (PoolFiber b)].
Proof.
  unfold switch_fibers. rewrite (bind_ok _ _ _ _ _ (gets_ok _ _)).
  destruct (in_range a _) eqn:Ha; [|done]. destruct (in_range b _) eqn:Hb; [|done].
  simpl. intros [= <- <-].
  apply in_range_inv in Ha as [Ha1 Ha2]. apply in_range_inv in Hb as [Hb1 Hb2].
  unfold is_fiber. repeat split; try done; lia.
Qed.

(** X6.  When a round of the fiber loop switches to a fiber that is ready
    again, it leaves the fiber that the worker was running, and the
    [CleanUpOldFiber] that runs next on that worker gives exactly that fiber
    back to the pool, with one release store to its free flag; the worker
    then runs the resumed fiber and has nothing left to clean up. *)
Theorem FiberStart_resume_then_cleanup tid s from to s1 log :
  wf_sched s ->
  FiberStart_iter tid s = Ok (LoopResumed from to) s1 log ->
  let idx := GetCurrentThreadIndex tid s in
  current_fiber (Z.to_nat idx) s = Some from ∧
  exists s2 tls2,
    CleanUpOldFiber tid s1 = Ok tt s2 [EvFreeStore InCleanUpOldFiber from true Release] ∧
    m_freeFibers s2 = <[Z.to_nat from := true]> (m_freeFibers s1) ∧
    m_freeFibers s2 !! Z.to_nat from = Some true ∧
    worker tid s2 idx tls2 ∧
    CurrentFiberIndex tls2 = to ∧
    OldFiberDestination tls2 = DestNone ∧
    OldFiberIndex tls2 = FTL_INVALID_INDEX.
Proof.
  intros Hwf Hrun idx. unfold FiberStart_iter in Hrun.
  rewrite (bind_ok _ _ _ _ _ (gets_ok _ _)) in Hrun.
  destruct (m_quit s).
  { apply bind_inv in Hrun as (? & ? & ? & ? & _ & Hrun & _).
    apply bind_inv in Hrun as (? & ? & ? & ? & _ & Hrun & _).
    apply bind_inv in Hrun as (? & ? & ? & ? & _ & Hrun & _). done. }
  rewrite (bind_ok _ _ _ _ _ (gets_ok _ _)) in Hrun. fold idx in Hrun.
  apply bind_inv in Hrun as (tls0 & s0 & l0 & l0' & Htls0 & Hrun & ->).
  apply tls_at_Ok in Htls0 as (Hidx & Htls0 & -> & ->).
  assert (Hc0 : runs_fiber (Z.to_nat idx) (CurrentFiberIndex tls0) s).
  { unfold runs_fiber, current_fiber. by rewrite Htls0. }
  apply bind_inv in Hrun as (pinned & sA & lA & lA' & HA & Hrun & ->).
  pose proof (Keeps_Ok _ _ _ _ _ _ (setup_scan_pinned s _ _ _ _) (same_setup_refl s) HA) as HsA.
  pose proof (Keeps_Ok _ _ _ _ _ _ (runs_fiber_scan_pinned _ _ _ _ _ _) Hc0 HA) as HcA.
  apply bind_inv in Hrun as (w & sB & lB & lB' & HB & Hrun & ->).
  assert (HsB : same_setup s sB ∧ runs_fiber (Z.to_nat idx) (CurrentFiberIndex tls0) sB).
  { destruct (pinned =? FTL_INVALID_INDEX).
    - split.
      + exact (Keeps_Ok _ _ _ _ _ _ (setup_scan_ready s _ _ _ _) HsA HB).
      + exact (Keeps_Ok _ _ _ _ _ _ (runs_fiber_scan_ready _ _ _ _ _ _) HcA HB).
    - by injection HB as <- <- <-. }
  destruct HsB as [HsB HcB].
  destruct (negb (w =? FTL_INVALID_INDEX)); last first.
  { apply bind_inv in Hrun as ([b|] & ? & ? & ? & _ & Hrun & _); [done|].
    apply bind_inv in Hrun as (? & ? & ? & ? & _ & Hrun & _).
    apply bind_inv in Hrun as (? & ? & ? & ? & _ & Hrun & _). done. }
  apply bind_inv in Hrun as (u & sC & lC & lC' & HC & Hrun & ->).
  apply tls_update_inv in HC as (t & _ & Ht & -> & ->).
  apply bind_inv in Hrun as (tls' & sD & lD & lD' & HD & Hrun & ->).
  apply tls_at_Ok in HD as (_ & HD & -> & ->).
  rewrite (with_tls_lookup _ _ _ _ Ht) in HD. injection HD as <-.
  apply bind_inv in Hrun as (u' & sE & lE & lE' & HE & Hrun & ->).
  apply switch_fibers_inv in HE as (Hfrom & Hto & -> & ->).
  injection Hrun as <- <- <- <-. simpl OldFiberIndex in *. simpl CurrentFiberIndex in *.
  assert (Hct : CurrentFiberIndex t = CurrentFiberIndex tls0).
  { unfold runs_fiber, current_fiber in HcB. rewrite Ht in HcB. by injection HcB. }
  split; [by rewrite <- Hct in Hc0|].
  set (s1 := with_tls idx _ sB).
  assert (Hs1 : same_setup s s1).
  { eapply same_setup_trans; [exact HsB|]. unfold s1, with_tls.
    repeat split; try done. simpl. by rewrite length_insert. }
  assert (Hw1 : worker tid s1 idx (resume_tls w t)).
  { split; [by apply same_setup_thread_index|]. split; [done|].
    by eapply with_tls_lookup. }
  destruct Hfrom as [Hf0 Hf1]. simpl in Hf1.
  destruct Hwf as (_ & _ & _ & _ & Hlen).
  destruct HsB as (_ & HpoolB & _ & _ & _ & _ & HlenB & _).
  destruct (lookup_lt_is_Some_2 (m_freeFibers s1) (Z.to_nat (CurrentFiberIndex t)))
    as [b Hb].
  { simpl. lia. }
  pose proof (CleanUpOldFiber_ToPool tid s1 idx (resume_tls w t)
                (Z.to_nat (CurrentFiberIndex t)) b Hw1 eq_refl) as Hclean.
  rewrite Z2Nat.id in Hclean by done. specialize (Hclean eq_refl Hb).
  eexists _, (cleaned_tls (resume_tls w t)). split; [exact Hclean|].
  split; [done|]. split.
  { simpl. apply list_lookup_insert_eq. simpl in Hb. by eapply lookup_lt_Some. }
  split; [|done].
  destruct Hw1 as (Hg1 & _ & Hl1).
  split; [exact Hg1|]. split; [done|]. by eapply with_tls_lookup.
Qed.

Lemma FiberStart_resume_then_cleanup_witness :
  let idx := GetCurrentThreadIndex 10%nat sched_loop in
  let s1 := res_state (FiberStart_iter 10%nat sched_loop) in
  current_fiber (Z.to_nat idx) sched_loop = Some 0 ∧
  exists s2 tls2,
    CleanUpOldFiber 10%nat s1 = Ok tt s2 [EvFreeStore InCleanUpOldFiber 0 true Release] ∧
    m_freeFibers s2 = <[Z.to_nat 0 := true]> (m_freeFibers s1) ∧
    m_freeFibers s2 !! Z.to_nat 0 = Some true ∧
    worker 10%nat s2 idx tls2 ∧
    CurrentFiberIndex tls2 = 5 ∧
    OldFiberDestination tls2 = DestNone ∧
    OldFiberIndex tls2 = FTL_INVALID_INDEX.
Proof.
  apply (FiberStart_resume_then_cleanup 10%nat sched_loop 0 5
           (res_state (FiberStart_iter 10%nat sched_loop))
           (res_log (FiberStart_iter 10%nat sched_loop))).
  - unfold wf_sched, uint_modulus. simpl. repeat split; lia.
  - reflexivity.
Defined.

(** ** WaitForCounter parks a fiber *)

Lemma counter_at_inv c s cnt s1 l :
  counter_at c s = Ok cnt s1 l -> counters s !! c = Some cnt ∧ s1 = s ∧ l = [].
Proof.
  unfold counter_at. destruct (counters s !! c) as [x|]; [|done]. by intros [= -> -> <-].
Qed.

Lemma Load_inv c s v s1 l :
  Load c s = Ok v s1 l ->
  exists cnt, counters s !! c = Some cnt ∧ v = m_value cnt ∧ s1 = s ∧ l = [].
Proof.
  unfold Load. intros (cnt & s0 & l1 & l2 & Hc & Hret & ->)%bind_inv.
  apply counter_at_inv in Hc as (Hc & -> & ->). injection Hret as <- <- <-.
  by exists cnt.
Qed.

Lemma AddFiberToWaitingList_parked slots c fiberIndex value flag s s1 l :
  AddFiberToWaitingList slots c fiberIndex value flag s = Ok false s1 l ->
  exists cnt,
    counters s !! c = Some cnt ∧ m_value cnt ≠ value ∧
    (length (m_waitingFibers cnt) < slots)%nat ∧
    s1 = set_counters
           (<[c := mkCounter (m_value cnt)
                     (m_waitingFibers cnt ++ [mkSlot fiberIndex value flag])]> (counters s))
           s ∧
    l = [].
Proof.
  unfold AddFiberToWaitingList.
  intros (cnt & s0 & l1 & l2 & Hc & Hrest & ->)%bind_inv.
  apply counter_at_inv in Hc as (Hc & -> & ->).
  destruct (decide (slots ≤ length (m_waitingFibers cnt))%nat) as [|Hfree]; [done|].
  rewrite (bind_ok _ _ _ _ _ (counter_put_ok _ _ _)) in Hrest.
  erewrite bind_ok in Hrest; last first.
  { apply Load_ok. simpl. apply lookup_insert_eq. }
  cbv beta in Hrest. cbn [m_value] in Hrest.
  destruct (m_value cnt =? value) eqn:Heq; cbv iota in Hrest.
  - rewrite (bind_ok _ _ _ _ _ (counter_put_ok _ _ _)) in Hrest. done.
  - injection Hrest as <- <-. exists cnt. apply Z.eqb_neq in Heq.
    repeat split; try done. lia.
Qed.

(** X7.  When an unpinned [WaitForCounter] switches away, the fiber it
    leaves is in the last waiting slot of the counter, with the awaited
    value and a stored flag that is still false; the [CleanUpOldFiber] that
    runs next on that worker sets this stored flag, with one relaxed store,
    and the worker runs the replacement fiber, which stays reserved. *)
Theorem WaitForCounter_park_then_cleanup slots interference tid counter value s
    from to s1 log :
  WaitForCounter_env slots interference tid counter value false s
    = Ok (WaitSwitched from to) s1 log ->
  let idx := GetCurrentThreadIndex tid (interference s) in
  current_fiber (Z.to_nat idx) (interference s) = Some from ∧
  exists flag s2 cnt tls2,
    storedFlags s1 !! flag = Some false ∧
    CleanUpOldFiber tid s1 = Ok tt s2 [EvFlagStore InCleanUpOldFiber flag true Relaxed] ∧
    storedFlags s2 !! flag = Some true ∧
    counters s2 !! counter = Some cnt ∧
    m_value cnt ≠ value ∧
    last (m_waitingFibers cnt) = Some (mkSlot from value flag) ∧
    worker tid s2 idx tls2 ∧
    CurrentFiberIndex tls2 = to ∧
    OldFiberDestination tls2 = DestNone ∧
    m_freeFibers s2 !! Z.to_nat to = Some false.
Proof.
  intros Hrun idx. unfold WaitForCounter_env in Hrun.
  apply bind_inv in Hrun as (loaded & sx1 & la1 & lb1 & Hload & Hrun & ->).
  apply Load_inv in Hload as (cnt0 & Hc0 & -> & -> & ->).
  destruct (m_value cnt0 =? value); [done|].
  erewrite bind_ok in Hrun; [|reflexivity].
  set (sI := interference s) in *.
  rewrite (bind_ok _ _ _ _ _ (gets_ok _ _)) in Hrun. fold idx in Hrun.
  apply bind_inv in Hrun as (tls & sx2 & la2 & lb2 & Htls & Hrun & ->).
  apply tls_at_Ok in Htls as (Hidx & Htls & -> & ->).
  apply bind_inv in Hrun as (r & s2 & la3 & lb3 & Hget & Hrun & ->).
  apply GetNextFreeFiberIndex_Ok in Hget as (k & -> & Hk & Hpool & Hfree & ->).
  cbv iota in Hrun.
  apply bind_inv in Hrun as (flag & s3 & la4 & lb4 & Hnew & Hrun & ->).
  unfold new_flag in Hnew. injection Hnew as <- <- <-.
  set (flag := fresh _) in *. set (s3 := set_storedFlags _ _) in *.
  apply bind_inv in Hrun as (tls' & sx5 & la5 & lb5 & Htls' & Hrun & ->).
  apply tls_at_Ok in Htls' as (_ & Htls' & -> & ->).
  change (m_tls s3) with (m_tls sI) in Htls'. rewrite Htls in Htls'. injection Htls' as <-.
  apply bind_inv in Hrun as (alreadyDone & s4 & la6 & lb6 & Hadd & Hrun & ->).
  destruct alreadyDone.
  { apply bind_inv in Hrun as (? & ? & ? & ? & _ & Hrun & _).
    apply bind_inv in Hrun as (? & ? & ? & ? & _ & Hrun & _). done. }
  apply AddFiberToWaitingList_parked in Hadd as (cnt & Hcnt & Hne & _ & -> & ->).
  apply bind_inv in Hrun as (u & s5 & la7 & lb7 & Hupd & Hrun & ->).
  apply tls_update_inv in Hupd as (t & _ & Ht & -> & ->).
  change (m_tls (set_counters _ s3)) with (m_tls sI) in Ht.
  rewrite Htls in Ht. injection Ht as <-.
  apply bind_inv in Hrun as (u' & s6 & la8 & lb8 & Hsw & Hrun & ->).
  apply switch_fibers_inv in Hsw as (_ & _ & -> & ->).
  injection Hrun as <- <- <- <-.
  split; [unfold current_fiber; by rewrite Htls|].
  set (parked := set_OldFiberStoredFlag _ _).
  set (s1 := with_tls idx parked _).
  assert (Hlive : storedFlags s1 !! flag = Some false) by apply lookup_insert_eq.
  assert (Hw1 : worker tid s1 idx parked).
  { split; [done|]. split; [done|]. simpl. apply list_lookup_insert_eq.
    by eapply lookup_lt_Some. }
  exists flag. eexists _, _, (cleaned_tls parked).
  split; [exact Hlive|]. split.
  { by apply (CleanUpOldFiber_ToWaiting tid s1 idx parked flag false). }
  split; [apply lookup_insert_eq|].
  split; [apply lookup_insert_eq|].
  split; [done|]. split; [simpl; by rewrite last_snoc|].
  split.
  { split; [done|]. split; [done|]. simpl. apply list_lookup_insert_eq.
    rewrite length_insert. by eapply lookup_lt_Some. }
  split; [done|]. split; [done|].
  simpl. rewrite Nat2Z.id. by apply list_lookup_insert_eq.
Qed.

Lemma WaitForCounter_park_then_cleanup_witness :
  let s1 := res_state (WaitForCounter 4 10%nat 1%positive 0 false sched4) in
  let idx := GetCurrentThreadIndex 10%nat sched4 in
  current_fiber (Z.to_nat idx) sched4 = Some 0 ∧
  exists flag s2 cnt tls2,
    storedFlags s1 !! flag = Some false ∧
    CleanUpOldFiber 10%nat s1 = Ok tt s2 [EvFlagStore InCleanUpOldFiber flag true Relaxed] ∧
    storedFlags s2 !! flag = Some true ∧
    counters s2 !! 1%positive = Some cnt ∧
    m_value cnt ≠ 0 ∧
    last (m_waitingFibers cnt) = Some (mkSlot 0 0 flag) ∧
    worker 10%nat s2 idx tls2 ∧
    CurrentFiberIndex tls2 = 1 ∧
    OldFiberDestination tls2 = DestNone ∧
    m_freeFibers s2 !! Z.to_nat 1 = Some false.
Proof.
  apply (WaitForCounter_park_then_cleanup 4 (fun s => s) 10%nat 1%positive 0 sched4 0 1
           (res_state (WaitForCounter 4 10%nat 1%positive 0 false sched4))
           (res_log (WaitForCounter 4 10%nat 1%positive 0 false sched4))).
  reflexivity.
Defined.

(** ** AddTask and GetNextTask *)

Lemma Pop_Push b q : Pop (Push b q) = Some (b, q).
Proof. unfold Pop, Push. by rewrite last_snoc, removelast_last. Qed.

Lemma Pop_None q : Pop q = None -> q = [].
Proof.
  unfold Pop. destruct (last q) eqn:Hl; [done|]. intros _. by apply last_None.
Qed.

Lemma Pop_Some q b q' : Pop q = Some (b, q') -> q = q' ++ [b].
Proof.
  unfold Pop. destruct (last q) as [x|] eqn:Hl; [|done]. intros [= <- <-].
  destruct (decide (q = [])) as [->|Hne]; [done|].
  destruct (exists_last Hne) as (q0 & y & ->).
  rewrite last_snoc in Hl. injection Hl as ->. by rewrite removelast_last.
Qed.

(** X8.  A worker that adds a task and then asks for the next task gets
    that task back, with its counter, and its queue is as it was before:
    the own queue is served last in, first out. *)
Theorem AddTask_then_GetNextTask tid task counter s s1 l :
  AddTask tid task counter s = Ok tt s1 l ->
  exists s2,
    GetNextTask tid s1 = Ok (Some (mkTaskBundle task counter)) s2 [] ∧
    m_tls s2 = m_tls s ∧
    counters s2 = counters s1 ∧
    m_freeFibers s2 = m_freeFibers s.
Proof.
  intros Hadd.
  assert (Hs1 : same_setup s s1).
  { change s1 with (res_state (Ok tt s1 l)). rewrite <- Hadd.
    apply setup_AddTask, same_setup_refl. }
  unfold AddTask in Hadd.
  apply bind_inv in Hadd as (u & s0 & l0 & l0' & Hstore & Hadd & ->).
  assert (H0 : m_tls s0 = m_tls s ∧ m_freeFibers s0 = m_freeFibers s ∧
               GetCurrentThreadIndex tid s0 = GetCurrentThreadIndex tid s).
  { destruct counter as [c|]; [|by injection Hstore as <- <-].
    unfold Store in Hstore.
    apply bind_inv in Hstore as (cnt & sx & lx & ly & Hc & Hput & ->).
    apply counter_at_inv in Hc as (_ & -> & ->). by injection Hput as <- <-. }
  destruct H0 as (Htls0 & Hfree0 & Hidx0).
  rewrite (bind_ok _ _ _ _ _ (gets_ok _ _)) in Hadd.
  apply tls_update_inv in Hadd as (t & Hidx & Ht & -> & ->).
  set (idx := GetCurrentThreadIndex tid s0) in *.
  set (t1 := set_TaskQueue _ t).
  assert (Hw : worker tid (with_tls idx t1 s0) idx t1).
  { split; [done|]. split; [done|]. by eapply with_tls_lookup. }
  eexists. split.
  { apply (GetNextTask_own_queue tid _ idx t1 _ (TaskQueue t) Hw). apply Pop_Push. }
  rewrite with_tls_twice.
  replace (set_TaskQueue (TaskQueue t) t1) with t by (by destruct t).
  simpl. rewrite list_insert_id by done. done.
Qed.

Lemma AddTask_then_GetNextTask_witness :
  exists s2,
    GetNextTask 10%nat (res_state (AddTask 10%nat task_a (Some 1%positive) sched4))
      = Ok (Some (mkTaskBundle task_a (Some 1%positive))) s2 [] ∧
    m_tls s2 = m_tls sched4 ∧
    counters s2 = counters (res_state (AddTask 10%nat task_a (Some 1%positive) sched4)) ∧
    m_freeFibers s2 = m_freeFibers sched4.
Proof.
  eapply (AddTask_then_GetNextTask 10%nat task_a (Some 1%positive) sched4). reflexivity.
Defined.

(** ** The steal loop *)

Lemma steal_loop_spec cur threadIndex s tls n :
  0 < m_numThreads s ->
  length (m_tls s) = Z.to_nat (m_numThreads s) ->
  0 <= cur -> m_tls s !! Z.to_nat cur = Some tls ->
  forall i,
  (steal_loop cur threadIndex i n s = Ok None s [] ∧
   forall j, i <= j < i + Z.of_nat n -> round_misses s cur threadIndex j)
  ∨
  (exists round t b q,
     i <= round < i + Z.of_nat n ∧
     (forall j, i <= j < round -> round_misses s cur threadIndex j) ∧
     steal_victim s threadIndex round ≠ cur ∧
     m_tls s !! Z.to_nat (steal_victim s threadIndex round) = Some t ∧
     TaskQueue t = b :: q ∧
     steal_loop cur threadIndex i n s =
     Ok (Some b)
        (with_tls cur (set_LastSuccessfulSteal round tls)
           (with_tls (steal_victim s threadIndex round) (set_TaskQueue q t) s)) []).
Proof.
  intros Hn Hlen Hcur Htls. induction n as [|n IH]; intros i.
  - left. split; [done|]. intros j Hj. lia.
  - assert (Hv : 0 <= steal_victim s threadIndex i < m_numThreads s)
      by (apply Z.mod_pos_bound; lia).
    destruct (decide (steal_victim s threadIndex i = cur)) as [Heq|Hne].
    + assert (Hstep : steal_loop cur threadIndex i (S n) s
                      = steal_loop cur threadIndex (i + 1) n s).
      { simpl steal_loop. rewrite (bind_ok _ _ _ _ _ (gets_ok _ _)).
        fold (steal_victim s threadIndex i). rewrite Heq, Z.eqb_refl. done. }
      rewrite Hstep.
      destruct (IH (i + 1)) as [[Hnone Hmiss]|(round & t & b & q & Hr & Hmiss & Hrest)].
      * left. split; [done|]. intros j Hj.
        destruct (decide (j = i)) as [->|]; [by left|]. apply Hmiss. lia.
      * right. exists round, t, b, q. split; [lia|]. split; [|done].
        intros j Hj. destruct (decide (j = i)) as [->|]; [by left|]. apply Hmiss. lia.
    + destruct (lookup_lt_is_Some_2 (m_tls s) (Z.to_nat (steal_victim s threadIndex i)))
        as [t Ht]; [lia|].
      destruct (TaskQueue t) as [|b q] eqn:Hq.
      * assert (Hstep : steal_loop cur threadIndex i (S n) s
                        = steal_loop cur threadIndex (i + 1) n s).
        { simpl steal_loop. rewrite (bind_ok _ _ _ _ _ (gets_ok _ _)).
          fold (steal_victim s threadIndex i).
          replace (steal_victim s threadIndex i =? cur) with false
            by (symmetry; by apply Z.eqb_neq).
          rewrite (bind_ok _ _ _ _ _ (tls_at_ok _ _ _ (proj1 Hv) Ht)). by rewrite Hq. }
        rewrite Hstep.
        destruct (IH (i + 1)) as [[Hnone Hmiss]|(round & t' & b & q & Hr & Hmiss & Hrest)].
        -- left. split; [done|]. intros j Hj.
           destruct (decide (j = i)) as [->|]; [right; eauto|]. apply Hmiss. lia.
        -- right. exists round, t', b, q. split; [lia|]. split; [|done].
           intros j Hj. destruct (decide (j = i)) as [->|]; [right; eauto|].
           apply Hmiss. lia.
      * right. exists i, t, b, q. split; [lia|]. split; [intros j Hj; lia|].
        split; [done|]. split; [done|]. split; [done|].
        pose proof (steal_loop_steals cur threadIndex i n s t b q tls) as Hsteal.
        cbv zeta in Hsteal. fold (steal_victim s threadIndex i) in Hsteal.
        apply Hsteal; [done|lia|done..].
Qed.

(** X9.  What [GetNextTask] does, in full.  When the worker's own queue
    holds a task it pops the newest one and touches no other worker.  When
    it is empty the steal loop goes round the workers from
    [LastSuccessfulSteal] on: it takes the oldest task of the first worker
    other than the caller whose queue is not empty and stores the number of
    that round in [LastSuccessfulSteal]; when all rounds miss it returns
    false and changes nothing. *)
Theorem GetNextTask_takes_one tid s idx tls :
  wf_sched s ->
  worker tid s idx tls ->
  let start := LastSuccessfulSteal tls in
  (TaskQueue tls = [] ∧
   GetNextTask tid s = Ok None s [] ∧
   forall j, 0 <= j < m_numThreads s -> round_misses s idx start j)
  ∨
  (exists b q,
     TaskQueue tls = q ++ [b] ∧
     GetNextTask tid s = Ok (Some b) (with_tls idx (set_TaskQueue q tls) s) [])
  ∨
  (exists round t b q,
     TaskQueue tls = [] ∧
     0 <= round < m_numThreads s ∧
     (forall j, 0 <= j < round -> round_misses s idx start j) ∧
     steal_victim s start round ≠ idx ∧
     m_tls s !! Z.to_nat (steal_victim s start round) = Some t ∧
     TaskQueue t = b :: q ∧
     GetNextTask tid s =
     Ok (Some b)
        (with_tls idx (set_LastSuccessfulSteal round tls)
           (with_tls (steal_victim s start round) (set_TaskQueue q t) s)) []).
Proof.
  intros (Hn & Hlen & _) Hw start.
  destruct (Pop (TaskQueue tls)) as [[b q]|] eqn:Hpop.
  - right. left. exists b, q. split; [by apply Pop_Some|].
    by apply (GetNextTask_own_queue tid s idx tls).
  - apply Pop_None in Hpop as Hempty.
    destruct Hw as (Hg & Hidx & Htls).
    assert (Hpos : 0 < m_numThreads s).
    { apply lookup_lt_Some in Htls. lia. }
    assert (Hrun : GetNextTask tid s
                   = steal_loop idx start 0 (Z.to_nat (m_numThreads s)) s).
    { unfold GetNextTask. rewrite (bind_ok _ _ _ _ _ (gets_ok _ _)), Hg.
      rewrite (bind_ok _ _ _ _ _ (tls_at_ok _ _ _ Hidx Htls)), Hpop.
      by rewrite (bind_ok _ _ _ _ _ (gets_ok _ _)). }
    rewrite Hrun.
    destruct (steal_loop_spec idx start s tls (Z.to_nat (m_numThreads s))
                Hpos Hlen Hidx Htls 0)
      as [[Hnone Hmiss]|(round & t & b & q & Hr & Hmiss & Hne & Ht & Hq & Hsteal)].
    + left. split; [done|]. split; [done|]. intros j Hj. apply Hmiss. lia.
    + right. right. exists round, t, b, q.
      split; [done|]. split; [lia|]. done.
Qed.

Lemma GetNextTask_takes_one_witness :
  let start := LastSuccessfulSteal (fresh_tls 0) in
  (TaskQueue (fresh_tls 0) = [] ∧
   GetNextTask 10%nat sched_steal = Ok None sched_steal [] ∧
   forall j, 0 <= j < m_numThreads sched_steal -> round_misses sched_steal 0 start j)
  ∨
  (exists b q,
     TaskQueue (fresh_tls 0) = q ++ [b] ∧
     GetNextTask 10%nat sched_steal
     = Ok (Some b) (with_tls 0 (set_TaskQueue q (fresh_tls 0)) sched_steal) [])
  ∨
  (exists round t b q,
     TaskQueue (fresh_tls 0) = [] ∧
     0 <= round < m_numThreads sched_steal ∧
     (forall j, 0 <= j < round -> round_misses sched_steal 0 start j) ∧
     steal_victim sched_steal start round ≠ 0 ∧
     m_tls sched_steal !! Z.to_nat (steal_victim sched_steal start round) = Some t ∧
     TaskQueue t = b :: q ∧
     GetNextTask 10%nat sched_steal =
     Ok (Some b)
        (with_tls 0 (set_LastSuccessfulSteal round (fresh_tls 0))
           (with_tls (steal_victim sched_steal start round) (set_TaskQueue q t)
              sched_steal)) []).
Proof.
  apply (GetNextTask_takes_one 10%nat sched_steal 0 (fresh_tls 0)).
  - unfold wf_sched, uint_modulus. simpl. repeat split; lia.
  - repeat split. done.
Defined.

(** X10.  With a single worker there is nobody to steal from: when its
    own queue is empty [GetNextTask] returns false and changes nothing. *)
Theorem GetNextTask_single_worker tid s idx tls :
  wf_sched s ->
  m_numThreads s = 1 ->
  worker tid s idx tls ->
  TaskQueue tls = [] ->
  idx = 0 ∧ GetNextTask tid s = Ok None s [].
Proof.
  intros (Hn & Hlen & _) Hone (Hg & Hidx & Htls) Hempty.
  assert (Hzero : idx = 0).
  { apply lookup_lt_Some in Htls. lia. }
  split; [done|]. rewrite Hzero in Hg, Htls, Hidx.
  unfold GetNextTask. rewrite (bind_ok _ _ _ _ _ (gets_ok _ _)), Hg.
  rewrite (bind_ok _ _ _ _ _ (tls_at_ok _ _ _ Hidx Htls)), Hempty. simpl.
  rewrite (bind_ok _ _ _ _ _ (gets_ok _ _)), Hone. simpl.
  rewrite (bind_ok _ _ _ _ _ (gets_ok _ _)), Hone.
  by rewrite Z.mod_1_r.
Qed.

Lemma GetNextTask_single_worker_witness :
  0 = 0 ∧ GetNextTask 10%nat sched1 = Ok None sched1 [].
Proof.
  apply (GetNextTask_single_worker 10%nat sched1 0 (fresh_tls 0)).
  - unfold wf_sched, uint_modulus. simpl. repeat split; lia.
  - reflexivity.
  - repeat split. done.
  - reflexivity.
Defined.

(** ** Shutdown *)

Lemma switch_to_thread_fiber_ok s a idx :
  is_fiber s a ->
  switch_to_thread_fiber a idx s = Ok tt s [EvSwitch (PoolFiber a) (ThreadFiber idx)].
Proof.
  intros Ha. unfold switch_to_thread_fiber.
  rewrite (bind_ok _ _ _ _ _ (gets_ok _ _)). by rewrite is_fiber_in_range.
Qed.

(** X11.  When the main task has returned, [MainFiberStart] only sets
    [m_quit] before it switches to its thread fiber; from then on a round
    of the fiber loop of any worker takes no task and resumes no fiber, it
    switches from the worker's current fiber to its thread fiber. *)
Theorem quit_stops_every_worker tid0 s s1 log :
  MainFiberStart_mainTaskReturned tid0 s = Ok tt s1 log ->
  s1 = set_quit true s ∧
  forall tid idx tls,
    worker tid s1 idx tls ->
    is_fiber s1 (CurrentFiberIndex tls) ->
    FiberStart_iter tid s1
    = Ok LoopQuit s1 [EvSwitch (PoolFiber (CurrentFiberIndex tls)) (ThreadFiber idx)].
Proof.
  intros Hrun. unfold MainFiberStart_mainTaskReturned in Hrun.
  erewrite bind_ok in Hrun; [|reflexivity].
  rewrite (bind_ok _ _ _ _ _ (gets_ok _ _)) in Hrun.
  apply bind_inv in Hrun as (tls0 & sx & la & lb & Htls0 & Hrun & ->).
  apply tls_at_Ok in Htls0 as (_ & _ & -> & ->).
  unfold switch_to_thread_fiber in Hrun.
  rewrite (bind_ok _ _ _ _ _ (gets_ok _ _)) in Hrun.
  destruct (in_range _ _); [|done]. injection Hrun as <- <-.
  split; [done|]. intros tid idx tls (Hg & Hidx & Htls) Hfib.
  unfold FiberStart_iter.
  rewrite (bind_ok _ _ _ _ _ (gets_ok _ _)). cbn [m_quit set_quit].
  rewrite (bind_ok _ _ _ _ _ (gets_ok _ _)), Hg.
  rewrite (bind_ok _ _ _ _ _ (tls_at_ok _ _ _ Hidx Htls)).
  by rewrite (bind_ok_log _ _ _ _ _ _ (switch_to_thread_fiber_ok _ _ _ Hfib)).
Qed.

Lemma quit_stops_every_worker_witness :
  let s1 := set_quit true sched4 in
  FiberStart_iter 11%nat s1 = Ok LoopQuit s1 [EvSwitch (PoolFiber 2) (ThreadFiber 1)].
Proof.
  intros s1.
  apply (proj2 (quit_stops_every_worker 10%nat sched4 s1 _ eq_refl) 11%nat 1 (fresh_tls 2)).
  - by repeat split.
  - by vm_compute.
Defined.

(** ** ThreadStart *)

(** X12.  [ThreadStart] does not get past its wait while [m_initialized]
    is false.  When it does switch, it has reserved a fiber that was free,
    recorded it as the [CurrentFiberIndex] of its worker and switched from
    the thread fiber to it; nothing else has changed. *)
Theorem ThreadStart_enters_fiber index s :
  (m_initialized s = false -> ThreadStart index s = Stuck NotInitialized s []) ∧
  (forall s1 log, ThreadStart index s = Ok tt s1 log ->
     m_initialized s = true ∧
     exists (k : nat) tls probes,
       m_freeFibers s !! k = Some true ∧
       m_tls s !! Z.to_nat index = Some tls ∧
       s1 = with_tls index (set_CurrentFiberIndex (Z.of_nat k) tls)
              (set_freeFibers (<[k := false]> (m_freeFibers s)) s) ∧
       log = probes ++ [EvSwitch (ThreadFiber index) (PoolFiber (Z.of_nat k))] ∧
       Forall is_probe probes ∧
       current_fiber (Z.to_nat index) s1 = Some (Z.of_nat k) ∧
       m_freeFibers s1 !! k = Some false).
Proof.
  split.
  - intros Hinit. unfold ThreadStart.
    by rewrite (bind_ok _ _ _ _ _ (gets_ok _ _)), Hinit.
  - intros s1 log Hrun. unfold ThreadStart in Hrun.
    rewrite (bind_ok _ _ _ _ _ (gets_ok _ _)) in Hrun.
    destruct (m_initialized s); [|done]. split; [done|].
    apply bind_inv in Hrun as (r & s2 & probes & l2 & Hget & Hrun & ->).
    pose proof (GetNextFreeFiberIndex_inv _ _ _ _ Hget) as [Hprobes _].
    apply GetNextFreeFiberIndex_Ok in Hget as (k & -> & Hk & Hpool & Hfree & ->).
    apply bind_inv in Hrun as (u & s3 & la & lb & Hupd & Hrun & ->).
    apply tls_update_inv in Hupd as (tls & Hidx & Htls & -> & ->).
    unfold switch_from_thread_fiber in Hrun.
    rewrite (bind_ok _ _ _ _ _ (gets_ok _ _)) in Hrun.
    destruct (in_range _ _); [|done]. injection Hrun as <- <-.
    exists k, tls, probes. repeat split; try done.
    + unfold current_fiber. simpl.
      rewrite list_lookup_insert_eq; [done|]. by eapply lookup_lt_Some.
    + simpl. by apply list_lookup_insert_eq.
Qed.

Lemma ThreadStart_enters_fiber_witness :
  m_initialized sched4 = true ∧
  exists (k : nat) tls probes,
    m_freeFibers sched4 !! k = Some true ∧
    m_tls sched4 !! Z.to_nat 1 = Some tls ∧
    res_state (ThreadStart 1 sched4)
    = with_tls 1 (set_CurrentFiberIndex (Z.of_nat k) tls)
        (set_freeFibers (<[k := false]> (m_freeFibers sched4)) sched4) ∧
    res_log (ThreadStart 1 sched4)
    = probes ++ [EvSwitch (ThreadFiber 1) (PoolFiber (Z.of_nat k))] ∧
    Forall is_probe probes ∧
    current_fiber (Z.to_nat 1) (res_state (ThreadStart 1 sched4)) = Some (Z.of_nat k) ∧
    m_freeFibers (res_state (ThreadStart 1 sched4)) !! k = Some false.
Proof.
  apply (proj2 (ThreadStart_enters_fiber 1 sched4) _ _ eq_refl).
Defined.

(** ** AddTasks with no task *)

(** X13.  [AddTasks] with no task only stores 0 into the counter; a
    [WaitForCounter] for 0 that follows returns at once. *)
Theorem AddTasks_zero_then_wait tid tasks c s idx tls cnt :
  worker tid s idx tls ->
  counters s !! c = Some cnt ->
  AddTasks tid 0 tasks (Some c) s = Ok tt (with_counter_value c 0 s) [] ∧
  m_tls (with_counter_value c 0 s) = m_tls s ∧
  forall slots interference pin,
    WaitForCounter_env slots interference tid c 0 pin (with_counter_value c 0 s)
    = Ok WaitReturned (with_counter_value c 0 s) [].
Proof.
  intros (Hg & Hidx & Htls) Hc.
  assert (Hzero : 0 <= 0 < uint_modulus) by (unfold uint_modulus; lia).
  unfold with_counter_value. rewrite Hc. split; [|split; [done|]].
  - unfold AddTasks.
    rewrite (bind_ok _ _ _ _ _ (Store_ok _ _ _ _ Hc Hzero)).
    rewrite (bind_ok _ _ _ _ _ (gets_ok _ _)).
    change (GetCurrentThreadIndex tid (set_counters _ s)) with (GetCurrentThreadIndex tid s).
    rewrite Hg. erewrite bind_ok; [done|]. by apply (tls_at_ok idx tls).
  - intros slots interference pin. unfold WaitForCounter_env.
    erewrite bind_ok; last first.
    { apply Load_ok. simpl. apply lookup_insert_eq. }
    done.
Qed.

Lemma AddTasks_zero_then_wait_witness :
  AddTasks 10%nat 0 [task_a] (Some 1%positive) sched4
    = Ok tt (with_counter_value 1%positive 0 sched4) [] ∧
  m_tls (with_counter_value 1%positive 0 sched4) = m_tls sched4 ∧
  forall slots interference pin,
    WaitForCounter_env slots interference 10%nat 1%positive 0 pin
      (with_counter_value 1%positive 0 sched4)
    = Ok WaitReturned (with_counter_value 1%positive 0 sched4) [].
Proof.
  apply (AddTasks_zero_then_wait 10%nat [task_a] 1%positive sched4 0 (fresh_tls 0)
           (mkCounter 5 [])).
  - by repeat split.
  - reflexivity.
Defined.

(** ** WaitForCounter with no free fiber *)



(** ** Run *)

Lemma threads_set_ok i h prefix x rest s :
  m_threads s = prefix ++ x :: rest ->
  length prefix = Z.to_nat i -> 0 <= i ->
  threads_set i h s = Ok tt (set_threads (prefix ++ h :: rest) s) [].
Proof.
  intros Hl Hlen Hi. unfold threads_set.
  rewrite (bind_ok _ _ _ _ _ (gets_ok _ _)).
  erewrite bind_ok; last first.
  { apply (array_get_ok _ i x); [done|]. rewrite Hl, <- Hlen. apply list_lookup_middle. done. }
  unfold modify. rewrite Hl, <- Hlen.
  replace (length prefix) with (length prefix + 0)%nat by lia.
  by rewrite insert_app_r.
Qed.

Lemma Run_create_threads_ok create n : forall i prefix rest s,
  m_threads s = prefix ++ rest ->
  length prefix = Z.to_nat i -> 0 <= i -> length rest = n ->
  (forall j, i <= j < i + Z.of_nat n -> is_Some (create j)) ->
  Run_create_threads create i n s
  = Ok None (set_threads (prefix ++ created_handles create i n) s) [].
Proof.
  induction n as [|n IH]; intros i prefix rest s Hl Hlen Hi Hrest Hall.
  - destruct rest; [|done]. simpl. rewrite app_nil_r in *. rewrite <- Hl. by destruct s.
  - destruct rest as [|x rest]; [done|]. simpl.
    destruct (Hall i) as [h Hh]; [lia|]. rewrite Hh. simpl.
    rewrite (bind_ok _ _ _ _ _ (threads_set_ok i h prefix x rest s Hl Hlen Hi)).
    rewrite (IH (i + 1) (prefix ++ [h]) rest).
    + by rewrite <- app_assoc.
    + simpl. by rewrite <- app_assoc.
    + rewrite length_app. simpl. lia.
    + lia.
    + simpl in Hrest. lia.
    + intros j Hj. apply Hall. lia.
Qed.

Lemma Run_create_threads_fails create n : forall i f prefix rest s,
  m_threads s = prefix ++ rest ->
  length prefix = Z.to_nat i -> 0 <= i -> length rest = n ->
  i <= f < i + Z.of_nat n ->
  create f = None ->
  (forall j, i <= j < f -> is_Some (create j)) ->
  exists l, Run_create_threads create i n s = Ok (Some f) (set_threads l s) [].
Proof.
  induction n as [|n IH]; intros i f prefix rest s Hl Hlen Hi Hrest Hf Hnone Hall; [lia|].
  destruct rest as [|x rest]; [done|]. simpl.
  destruct (decide (f = i)) as [->|Hne].
  - rewrite Hnone. exists (m_threads s). by destruct s.
  - destruct (Hall i) as [h Hh]; [lia|]. rewrite Hh.
    rewrite (bind_ok _ _ _ _ _ (threads_set_ok i h prefix x rest s Hl Hlen Hi)).
    destruct (IH (i + 1) f (prefix ++ [h]) rest (set_threads (prefix ++ h :: rest) s))
      as [l Hrun].
    + simpl. by rewrite <- app_assoc.
    + rewrite length_app. simpl. lia.
    + lia.
    + simpl in Hrest. lia.
    + lia.
    + done.
    + intros j Hj. apply Hall. lia.
    + exists l. by rewrite Hrun.
Qed.

Lemma modify_ok f s : modify f s = Ok tt (f s) [].
Proof. reflexivity. Qed.

(** The scheduler when [Run] starts to fill [m_threads]. *)
Lemma Run_start_prefix hw cur create dtls interference pool threadPool behavior s :
  let n := effective_threads hw threadPool in
  Run_start hw cur create dtls interference pool threadPool behavior s =
  (threads_set 0 cur;;
   failed ← Run_create_threads create 1 (Z.to_nat (n - 1));
   match failed with
   | Some i => mret (RunThreadCreationFailed i)
   | None =>
       modify (set_initialized true);;
       modify interference;;
       freeFiberIndex ← GetNextFreeFiberIndex;
       tls_update 0 (set_CurrentFiberIndex freeFiberIndex);;
       switch_from_thread_fiber 0 freeFiberIndex;;
       mret (RunMainFiber freeFiberIndex)
   end)
    (mkSched n pool (replicate (Z.to_nat pool) true) (replicate (Z.to_nat n) dtls)
       (resize (Z.to_nat n) 0%nat (m_threads s)) false false behavior
       (counters s) (storedFlags s)).
Proof.
  intros n. unfold Run_start.
  do 6 (erewrite bind_ok; [|apply modify_ok]).
  rewrite (bind_ok _ _ _ _ _ (gets_ok _ _)).
  do 2 (erewrite bind_ok; [|apply modify_ok]).
  reflexivity.
Qed.

Lemma resize_head (n : nat) (l : list ThreadId) :
  (1 <= n)%nat -> exists x rest, resize n 0%nat l = x :: rest ∧ length rest = (n - 1)%nat.
Proof.
  intros Hn. pose proof (length_resize l n 0%nat) as Hlen.
  unfold ThreadId in *.
  destruct (resize n 0%nat l) as [|x rest]; simpl in Hlen; [lia|].
  exists x, rest. split; [done|lia].
Qed.



(** X16.  When [CreateThread] fails for the worker [f], [Run] returns at
    once: [m_initialized] stays false, so the workers that were created
    before never get past the wait of [ThreadStart], and the arrays that
    [Run] allocated are still there. *)
Theorem Run_thread_creation_fails hw cur create dtls interference pool threadPool behavior
    s f :
  let n := effective_threads hw threadPool in
  1 <= f < n ->
  create f = None ->
  (forall j, 1 <= j < f -> is_Some (create j)) ->
  exists s1,
    Run_start hw cur create dtls interference pool threadPool behavior s
      = Ok (RunThreadCreationFailed f) s1 [] ∧
    m_initialized s1 = false ∧
    (forall index, ThreadStart index s1 = Stuck NotInitialized s1 []) ∧
    length (m_tls s1) = Z.to_nat n ∧
    length (m_freeFibers s1) = Z.to_nat pool ∧
    m_threads s1 !! 0%nat = Some cur.
Proof.
  intros n. rewrite Run_start_prefix. fold n. generalize n. clear n.
  intros n Hf Hnone Hall.
  destruct (resize_head (Z.to_nat n) (m_threads s)) as (x & rest & Hres & Hlen); [lia|].
  set (s0 := mkSched n pool (replicate (Z.to_nat pool) true) (replicate (Z.to_nat n) dtls)
               (resize (Z.to_nat n) 0%nat (m_threads s)) false false behavior
               (counters s) (storedFlags s)).
  destruct (Run_create_threads_fails create (Z.to_nat (n - 1)) 1 f [cur] rest
              (set_threads (cur :: rest) s0)) as [l Hrun];
    [done|done|lia|unfold ThreadId in *; lia|lia|done|done|].
  assert (Hl0 : l !! 0%nat = Some cur).
  { clear -Hrun Hf Hnone Hall Hlen.
    assert (Hgen : forall k i pre rst s' f' l',
      m_threads s' = pre ++ rst -> length pre = Z.to_nat i -> 0 <= i -> length rst = k ->
      pre !! 0%nat = Some cur ->
      Run_create_threads create i k s' = Ok (Some f') (set_threads l' s') [] ->
      l' !! 0%nat = Some cur).
    { induction k as [|k IH]; intros i pre rst s' f' l' Hl Hpre Hi Hk H0 Hr; [done|].
      destruct rst as [|y rst]; [done|]. simpl in Hr.
      destruct (create i) as [h|].
      - rewrite (bind_ok _ _ _ _ _ (threads_set_ok i h pre y rst s' Hl Hpre Hi)) in Hr.
        apply (IH (i + 1) (pre ++ [h]) rst (set_threads (pre ++ h :: rst) s') f' l').
        + simpl. by rewrite <- app_assoc.
        + rewrite length_app. simpl. lia.
        + lia.
        + simpl in Hk. lia.
        + by apply lookup_app_l_Some.
        + exact Hr.
      - injection Hr as _ Hs. apply (f_equal m_threads) in Hs. simpl in Hs.
        rewrite <- Hs, Hl. by apply lookup_app_l_Some. }
    by apply (Hgen (Z.to_nat (n - 1)) 1 [cur] rest (set_threads (cur :: rest) s0) f l);
      [| |lia|unfold ThreadId in *; lia| |]. }
  exists (set_threads l s0). split.
  - fold s0.
    rewrite (bind_ok _ _ _ _ _ (threads_set_ok 0 cur [] x rest s0 Hres eq_refl (Z.le_refl 0))).
    simpl app. by rewrite (bind_ok _ _ _ _ _ Hrun).
  - split; [done|]. split.
    { intros index. unfold ThreadStart. by rewrite (bind_ok _ _ _ _ _ (gets_ok _ _)). }
    simpl. by rewrite !length_replicate.
Qed.

Lemma Run_thread_creation_fails_witness :
  let create := fun i : Z => if i <? 2 then Some (Z.to_nat (10 + i)) else None in
  exists s1,
    Run_start 4 10%nat create (fresh_tls FTL_INVALID_INDEX) (fun s => s) 6 0 Spin sched1
      = Ok (RunThreadCreationFailed 2) s1 [] ∧
    m_initialized s1 = false ∧
    (forall index, ThreadStart index s1 = Stuck NotInitialized s1 []) ∧
    length (m_tls s1) = Z.to_nat 4 ∧
    length (m_freeFibers s1) = Z.to_nat 6 ∧
    m_threads s1 !! 0%nat = Some 10%nat.
Proof.
  intros create.
  apply (Run_thread_creation_fails 4 10%nat create (fresh_tls FTL_INVALID_INDEX)
           (fun s => s) 6 0 Spin sched1 2).
  - by vm_compute.
  - reflexivity.
  - intros j Hj. assert (j = 1) as -> by lia. by eexists.
Defined.


(** [Run] up to the store that sets [m_initialized], when every thread is
    created. *)
Lemma Run_start_initialized hw cur create dtls interference pool threadPool behavior s :
  let n := effective_threads hw threadPool in
  1 <= n ->
  (forall j, 1 <= j < n -> is_Some (create j)) ->
  Run_start hw cur create dtls interference pool threadPool behavior s =
  (freeFiberIndex ← GetNextFreeFiberIndex;
   tls_update 0 (set_CurrentFiberIndex freeFiberIndex);;
   switch_from_thread_fiber 0 freeFiberIndex;;
   mret (RunMainFiber freeFiberIndex))
    (interference (scheduler_initialized cur create dtls n pool behavior s)).
Proof.
  intros n. rewrite Run_start_prefix. fold n. generalize n. clear n.
  intros n Hn Hall.
  assert (Hnn : exists m : nat, Z.to_nat n = S m) by (exists (Z.to_nat n - 1)%nat; lia).
  destruct Hnn as [m Hm].
  destruct (resize_head (Z.to_nat n) (m_threads s)) as (x & rest & Hres & Hlen);
    [rewrite Hm; lia|].
  set (s0 := mkSched _ _ _ _ _ _ _ _ _ _).
  rewrite (bind_ok _ _ _ _ _ (threads_set_ok 0 cur [] x rest s0 Hres eq_refl (Z.le_refl 0))).
  erewrite bind_ok; last first.
  { apply (Run_create_threads_ok create _ 1 [cur] rest); [done|done|lia|unfold ThreadId in *; lia|].
    intros j Hj. apply Hall. lia. }
  cbv beta iota.
  erewrite bind_ok; [|apply modify_ok].
  erewrite bind_ok; [|apply modify_ok].
  f_equal. f_equal. unfold scheduler_initialized, s0, set_initialized, set_threads. simpl.
  rewrite Hm. simpl. rewrite Nat.sub_0_r.
  by replace (Z.to_nat (n - 1)) with m by lia.
Qed.




(** X18.  [Run] with a fiber pool of size 0 creates its threads and sets
    [m_initialized], but never starts the main task, and no worker gets
    past the reservation of a fiber in [ThreadStart]. *)
Theorem Run_without_fibers hw cur create dtls interference threadPool behavior s :
  let n := effective_threads hw threadPool in
  let s0 := scheduler_initialized cur create dtls n 0 behavior s in
  1 <= n ->
  (forall j, 1 <= j < n -> is_Some (create j)) ->
  same_setup s0 (interference s0) ->
  Run_start hw cur create dtls interference 0 threadPool behavior s
    = Stuck PoolExhausted (interference s0) [] ∧
  m_initialized (interference s0) = true ∧
  m_threads (interference s0) = cur :: created_handles create 1 (Z.to_nat n - 1) ∧
  forall index,
    ThreadStart index (interference s0) = Stuck PoolExhausted (interference s0) [].
Proof.
  intros n s0 Hn Hall Hsame.
  rewrite Run_start_initialized by done. fold n. fold s0.
  destruct Hsame as (_ & Hpool & Hthreads & Hinit & _).
  assert (Hget : GetNextFreeFiberIndex (interference s0)
                 = Stuck PoolExhausted (interference s0) []).
  { unfold GetNextFreeFiberIndex. by rewrite Hpool. }
  split; [by rewrite (bind_stuck _ _ _ _ _ _ Hget)|].
  split; [by rewrite Hinit|]. split; [by rewrite Hthreads|].
  intros index. unfold ThreadStart.
  rewrite (bind_ok _ _ _ _ _ (gets_ok _ _)), Hinit. simpl.
  by rewrite (bind_stuck _ _ _ _ _ _ Hget).
Qed.

Lemma Run_without_fibers_witness :
  let create := fun i : Z => Some (Z.to_nat (10 + i)) in
  let s0 := scheduler_initialized 10%nat create (fresh_tls FTL_INVALID_INDEX) 4 0 Spin sched1 in
  Run_start 4 10%nat create (fresh_tls FTL_INVALID_INDEX) (fun s => s) 0 0 Spin sched1
    = Stuck PoolExhausted s0 [] ∧
  m_initialized s0 = true ∧
  m_threads s0 = 10%nat :: created_handles create 1 (Z.to_nat 4 - 1) ∧
  forall index, ThreadStart index s0 = Stuck PoolExhausted s0 [].
Proof.
  intros create.
  apply (Run_without_fibers 4 10%nat create (fresh_tls FTL_INVALID_INDEX) (fun s => s) 0 Spin
           sched1).
  - by vm_compute.
  - intros j _. by eexists.
  - apply same_setup_refl.
Defined.

(** ** A batch of tasks from submission to completion *)

Section Rounds.
Context (tid : ThreadId) (s : TaskScheduler) (idx : Z) (tls : ThreadLocalStorage)
  (c : CounterPtr).
Hypothesis Hworker : worker tid s idx tls.
Hypothesis Hquit : m_quit s = false.
Hypothesis Hpinned : PinnedTasks tls = [].
Hypothesis Hready : ReadyFibers tls = [].

Lemma worker_with_queue_and_counter q v :
  worker tid (with_queue_and_counter idx tls c q v s) idx (set_TaskQueue q tls).
Proof.
  destruct Hworker as (Hg & Hidx & Htls). repeat split; [done..|].
  unfold with_queue_and_counter. simpl. apply list_lookup_insert_eq.
  by eapply lookup_lt_Some.
Qed.

Lemma round_takes_task q b v :
  FiberStart_iter tid (with_queue_and_counter idx tls c (q ++ [b]) v s)
  = Ok (LoopExecute b) (with_queue_and_counter idx tls c q v s) [].
Proof.
  pose proof (worker_with_queue_and_counter (q ++ [b]) v) as Hw.
  pose proof Hw as (Hg & Hidx & Htls).
  unfold FiberStart_iter.
  rewrite (bind_ok _ _ _ _ _ (gets_ok _ _)).
  change (m_quit (with_queue_and_counter idx tls c (q ++ [b]) v s)) with (m_quit s).
  rewrite Hquit.
  rewrite (bind_ok _ _ _ _ _ (gets_ok _ _)), Hg.
  rewrite (bind_ok _ _ _ _ _ (tls_at_ok _ _ _ Hidx Htls)).
  cbn [PinnedTasks ReadyFibers set_TaskQueue]. rewrite Hpinned, Hready.
  cbn [scan_pinned]. erewrite bind_ok; [|reflexivity].
  rewrite Z.eqb_refl. cbn [scan_ready]. erewrite bind_ok; [|reflexivity].
  rewrite Z.eqb_refl. cbn [negb].
  erewrite bind_ok; last first.
  { apply (GetNextTask_own_queue tid _ idx (set_TaskQueue (q ++ [b]) tls) b q); [exact Hw|].
    apply Pop_Push. }
  cbv beta iota. unfold with_queue_and_counter, with_tls, set_tls, set_counters. simpl.
  by rewrite list_insert_insert_eq.
Qed.

Lemma task_returned_decrements q b v :
  Counter b = Some c ->
  FiberStart_taskReturned tid b (with_queue_and_counter idx tls c q v s)
  = Ok tt (with_queue_and_counter idx tls c q ((v - 1) mod uint_modulus) s) [].
Proof.
  intros Hc. unfold FiberStart_taskReturned. rewrite Hc. unfold FetchSub.
  erewrite bind_ok; last first.
  { erewrite bind_ok; last first.
    { apply counter_at_ok. unfold with_queue_and_counter. simpl. apply lookup_insert_eq. }
    cbn [m_value m_waitingFibers].
    rewrite (bind_ok _ _ _ _ _ (counter_put_ok _ _ _)).
    cbn [CheckWaitingFibers]. erewrite bind_ok; [|reflexivity].
    rewrite (bind_ok _ _ _ _ _ (counter_put_ok _ _ _)). reflexivity. }
  unfold with_queue_and_counter, set_counters. simpl.
  by rewrite !insert_insert_eq.
Qed.

Lemma run_rounds_ok q0 : forall k bs,
  (k <= length bs)%nat ->
  Z.of_nat (length bs) < uint_modulus ->
  Forall (fun b => Counter b = Some c) bs ->
  run_rounds tid k (with_queue_and_counter idx tls c (q0 ++ bs) (Z.of_nat (length bs)) s)
  = Ok (rev (drop (length bs - k) bs))
       (with_queue_and_counter idx tls c (q0 ++ take (length bs - k) bs)
          (Z.of_nat (length bs - k)) s) [].
Proof.
  induction k as [|k IH]; intros bs Hk Hlen Hall.
  - simpl. rewrite Nat.sub_0_r, drop_all, take_ge by lia. done.
  - destruct (decide (bs = [])) as [->|Hne]; [simpl in Hk; lia|].
    destruct (exists_last Hne) as (bs' & b & ->).
    rewrite length_app in *. simpl in *.
    apply Forall_app in Hall as [Hall' Hb]. rewrite Forall_singleton in Hb.
    rewrite app_assoc.
    rewrite (bind_ok _ _ _ _ _ (round_takes_task _ _ _)). cbv beta iota.
    rewrite (bind_ok _ _ _ _ _ (task_returned_decrements _ _ _ Hb)).
    replace ((Z.of_nat (length bs' + 1) - 1) mod uint_modulus) with (Z.of_nat (length bs'))
      by (rewrite Z.mod_small; lia).
    rewrite (bind_ok _ _ _ _ _ (IH bs' ltac:(lia) ltac:(lia) Hall')).
    replace (length bs' + 1 - S k)%nat with (length bs' - k)%nat by lia.
    rewrite drop_app_le, take_app_le by lia.
    by rewrite rev_unit.
Qed.

End Rounds.

(** X19.  A worker that submits a batch of tasks with a counter by
    [AddTasks] and then runs rounds of the fiber loop, with no fiber pinned,
    ready or waiting on the counter, executes the tasks of the batch newest
    first; after [k] rounds the counter holds the number of tasks that are
    left, so it reaches 0 with the last task and not before, and the
    worker's queue then is as it was before the batch. *)
Theorem AddTasks_then_run_rounds tid tasks c s idx tls cnt (k : nat) :
  worker tid s idx tls ->
  m_quit s = false ->
  PinnedTasks tls = [] ->
  ReadyFibers tls = [] ->
  counters s !! c = Some cnt ->
  m_waitingFibers cnt = [] ->
  Z.of_nat (length tasks) < uint_modulus ->
  (k <= length tasks)%nat ->
  let bundles := map (bundle_with (Some c)) tasks in
  let left := (length tasks - k)%nat in
  (AddTasks tid (Z.of_nat (length tasks)) tasks (Some c);; run_rounds tid k) s
  = Ok (rev (drop left bundles))
       (with_counter_value c (Z.of_nat left) (enqueue idx tls (take left bundles) s)) []
  ∧ (k = length tasks ->
     with_counter_value c (Z.of_nat left) (enqueue idx tls (take left bundles) s)
     = with_counter_value c 0 s).
Proof.
  intros Hw Hquit Hpinned Hready Hc Hnone Hlen Hk bundles left.
  assert (Hstate : forall q v,
    with_counter_value c v (enqueue idx tls q s)
    = with_queue_and_counter idx tls c (TaskQueue tls ++ q) v s).
  { intros q v. unfold with_counter_value, enqueue, with_queue_and_counter. simpl.
    by rewrite Hc, Hnone. }
  split.
  - rewrite (bind_ok _ _ _ _ _ (AddTasks_ok _ _ _ _ _ _ _ Hlen Hw Hc)).
    rewrite Hnone. fold bundles.
    change (set_counters _ (enqueue idx tls bundles s))
      with (with_queue_and_counter idx tls c (TaskQueue tls ++ bundles)
              (Z.of_nat (length tasks)) s).
    rewrite Hstate. unfold left.
    replace (length tasks) with (length bundles) by (unfold bundles; by rewrite length_map).
    apply run_rounds_ok; try done.
    + unfold bundles. rewrite length_map. lia.
    + unfold bundles. rewrite length_map. lia.
    + unfold bundles. apply List.Forall_map. by apply Forall_true.
  - intros ->. unfold left. rewrite Nat.sub_diag. simpl.
    unfold with_counter_value, enqueue. simpl. rewrite Hc. f_equal.
    rewrite app_nil_r. destruct Hw as (_ & _ & Htls).
    replace (set_TaskQueue (TaskQueue tls) tls) with tls by (by destruct tls).
    by apply with_tls_same.
Qed.

Lemma AddTasks_then_run_rounds_witness :
  let bundles := map (bundle_with (Some 1%positive)) [task_a; task_b] in
  let left := (length [task_a; task_b] - 2)%nat in
  (AddTasks 10%nat (Z.of_nat (length [task_a; task_b])) [task_a; task_b] (Some 1%positive);;
   run_rounds 10%nat 2) sched4
  = Ok (rev (drop left bundles))
       (with_counter_value 1%positive (Z.of_nat left)
          (enqueue 0 (fresh_tls 0) (take left bundles) sched4)) []
  ∧ (2%nat = length [task_a; task_b] ->
     with_counter_value 1%positive (Z.of_nat left)
       (enqueue 0 (fresh_tls 0) (take left bundles) sched4)
     = with_counter_value 1%positive 0 sched4).
Proof.
  apply (AddTasks_then_run_rounds 10%nat [task_a; task_b] 1%positive sched4 0 (fresh_tls 0)
           (mkCounter 5 []) 2).
  - by repeat split.
  - reflexivity.
  - reflexivity.
  - reflexivity.
  - reflexivity.
  - reflexivity.
  - by vm_compute.
  - simpl. lia.
Defined.
